(** * Ragnar: the orchestration layer and the model provisioner

    A shallow embedding of [src/ai/ollama_client.py], [src/program.py],
    [src/main.py], [src/services/base.py], [src/services/discord.py],
    [src/settings/__init__.py], the settings schema of
    [src/settings/models.py] and the log cleaner of [src/utils/logger.py],
    followed by the properties of the specification that concern them
    and by further properties of the code.

    Conventions of the embedding.
    - A Python method that mutates [self] is a computation in the monad
      [M St A]: it takes the object, and gives back an outcome (a returned
      value, a raised exception, or an exhausted iteration budget for the
      two unbounded [while] loops), the object as the method left it, and
      the list of external effects it performed, in order.
    - An attribute that a constructor assigns only on some paths is an
      [option]: [None] is the unset attribute, and reading it raises
      [AttributeError], as in Python.
    - The model backend, the chat platform and the file system are
      external: their answers are given by a stub record ([Backend],
      [Env]) and the calls made to them are recorded as [event]s.
    - A float that the code only stores and passes on is a rational [Q];
      [ModelInfo.size], the float parsed from a numeral with two
      decimals, is kept as the integer number of hundredths of that
      numeral.
    - A text is the sequence of its UTF-8 bytes. *)

From Stdlib Require Import ZArith QArith String Ascii Bool Lia DecimalString.
From stdpp Require Import base decidable list strings.

Local Open Scope string_scope.
Local Open Scope Z_scope.
Local Open Scope list_scope.

(** ** Exceptions, outcomes and effects *)

Inductive exn_class : Type :=
  | AttributeError
  | UnboundLocalError
  | TypeError
  | ValueError
  | RuntimeError
  | NotImplementedError
  | ResponseError          (* ollama.ResponseError *)
  | ConnectionError
  | KeyError
  | PlainException.        (* raise Exception("...") *)

Record exn : Type := Exn { exn_cls : exn_class; exn_msg : string }.

#[global] Instance exn_class_eq_dec : EqDecision exn_class.
Proof. solve_decision. Defined.

(** [except Exception] catches every class above; [except
    ollama.ResponseError] only that one. *)
Definition is_Exception (e : exn) : bool := true.
Definition is_ResponseError (e : exn) : bool :=
  bool_decide (exn_cls e = ResponseError).

Definition no_attribute (cls attr : string) : exn :=
  Exn AttributeError ("'" +:+ cls +:+ "' object has no attribute '" +:+ attr +:+ "'").

Inductive outcome (A : Type) : Type :=
  | Ret (a : A)
  | Raise (e : exn)
  | OutOfFuel.
Arguments Ret {A} a.
Arguments Raise {A} e.
Arguments OutOfFuel {A}.

(** What an external call answers: an exception or a value. *)
Definition reply (A : Type) : Type := (exn + A)%type.

Inductive level : Type :=
  | DEBUG | WARNING | ERROR | EXCEPTION | SUCCESS
  | LOG (tag : string).    (* logger.log("OLLAMA", ...) *)

Record Message : Type := { role : string; content : string }.

(** A tool definition is passed through to the backend untouched. *)
Definition Tool : Type := string.

Inductive option_value : Type :=
  | OptFloat (q : Q)
  | OptInt (n : Z)
  | OptBool (b : bool).

Record ChatRequest : Type := {
  req_model : string;
  req_messages : list Message;
  req_tools : option (list Tool);
  req_stream : bool;
  req_options : list (string * option_value);
}.

Inductive event : Type :=
  | EvLog (lvl : level) (msg : string)
  (* the model backend *)
  | EvList
  | EvPs
  | EvPull (model : string)
  | EvGenerate (model : string) (keep_alive : option Z)
  | EvChat (req : ChatRequest)
  (* the orchestrator's surroundings *)
  | EvSleep (seconds : Z)
  | EvMakedirs
  | EvSettingsSave
  | EvThreadStart (name : string)
  | EvThreadJoin (name : string)
  | EvAddJob (id : string) (seconds : Z) (max_instances : Z)
  | EvSchedulerStart
  | EvSchedulerShutdown (wait : bool)
  (* the chat platform *)
  | EvDiscordRun (token : string)
  | EvDiscordClose
  | EvDiscordCreateTask
  (* what a supervised service does inside one of its methods *)
  | EvService (key : string) (e : event)
  (* the orchestrator invoking a method of a supervised service *)
  | EvServiceValidate (key : string)
  | EvServiceStart (key : string)
  | EvServiceStop (key : string).

Abbreviation trace := (list event).

(** ** The monad of methods *)

Definition M (St A : Type) : Type := St -> outcome A * St * trace.

Definition ret {St A} (a : A) : M St A := fun s => (Ret a, s, []).

Definition bind {St A B} (m : M St A) (k : A -> M St B) : M St B :=
  fun s =>
    match m s with
    | (Ret a, s1, t1) => let '(o, s2, t2) := k a s1 in (o, s2, t1 ++ t2)
    | (Raise e, s1, t1) => (Raise e, s1, t1)
    | (OutOfFuel, s1, t1) => (OutOfFuel, s1, t1)
    end.

Declare Scope py_scope.
Delimit Scope py_scope with py.
Notation "x <- m ;; k" := (bind m (fun x => k))
  (at level 100, m at next level, right associativity) : py_scope.
Notation "m ;; k" := (bind m (fun _ => k))
  (at level 100, right associativity) : py_scope.
Local Open Scope py_scope.

Definition raise {St A} (e : exn) : M St A := fun s => (Raise e, s, []).
Definition out_of_fuel {St A} : M St A := fun s => (OutOfFuel, s, []).
Definition emit {St} (e : event) : M St unit := fun s => (Ret tt, s, [e]).
Definition get {St} : M St St := fun s => (Ret s, s, []).
Definition gets {St A} (f : St -> A) : M St A := fun s => (Ret (f s), s, []).
Definition modify {St} (f : St -> St) : M St unit := fun s => (Ret tt, f s, []).
Definition log {St} (lvl : level) (msg : string) : M St unit := emit (EvLog lvl msg).

(** [try: body except <classes> as e: handler e] *)
Definition try_except {St A} (body : M St A) (catches : exn -> bool)
    (handler : exn -> M St A) : M St A :=
  fun s =>
    match body s with
    | (Raise e, s1, t1) =>
        if catches e
        then let '(o, s2, t2) := handler e s1 in (o, s2, t1 ++ t2)
        else (Raise e, s1, t1)
    | r => r
    end.

(** Reading an attribute that may be unset. *)
Definition getattr {St A} (cls attr : string) (f : St -> option A) : M St A :=
  fun s =>
    match f s with
    | Some a => (Ret a, s, [])
    | None => (Raise (no_attribute cls attr), s, [])
    end.

(** An external call: it is recorded, then it answers. *)
Definition call {St A} (e : event) (r : reply A) : M St A :=
  fun s =>
    match r with
    | inr a => (Ret a, s, [e])
    | inl x => (Raise x, s, [e])
    end.

Definition answer (r : option exn) : reply unit :=
  match r with Some x => inl x | None => inr tt end.

(** A constructor of an external library: no request is made, it returns
    or raises. *)
Definition construct {St} (r : option exn) : M St unit :=
  fun s =>
    match r with
    | None => (Ret tt, s, [])
    | Some x => (Raise x, s, [])
    end.

(** The same, for a constructor whose object the model keeps. *)
Definition build {St A} (r : reply A) : M St A :=
  fun s =>
    match r with
    | inr a => (Ret a, s, [])
    | inl x => (Raise x, s, [])
    end.

(** [for x in xs: body x] *)
Fixpoint for_each {St A} (xs : list A) (body : A -> M St unit) : M St unit :=
  match xs with
  | [] => ret tt
  | x :: xs' => body x ;; for_each xs' body
  end.

Definition outcome_of {A St} (r : outcome A * St * trace) : outcome A := r.1.1.
Definition state_of {A St} (r : outcome A * St * trace) : St := r.1.2.
Definition trace_of {A St} (r : outcome A * St * trace) : trace := r.2.

(** The effects other than log lines. *)
Definition is_log (e : event) : bool :=
  match e with EvLog _ _ => true | _ => false end.
Definition actions (t : trace) : trace := filter (fun e => is_log e = false) t.
Arguments actions : simpl never.

(** ** Small pieces of Python *)

Definition nl : string := String (ascii_of_nat 10) EmptyString.

(** [s.split(c)[0]]: the part of [s] before the first [c]. *)
Fixpoint split_head (c : ascii) (s : string) : string :=
  match s with
  | EmptyString => EmptyString
  | String a s' => if Ascii.eqb a c then EmptyString else String a (split_head c s')
  end.

(** [sep.join(xs)] *)
Fixpoint join (sep : string) (xs : list string) : string :=
  match xs with
  | [] => ""
  | [x] => x
  | x :: xs' => x +:+ sep +:+ join sep xs'
  end.

(** Truth value of a string. *)
Definition truthy (s : string) : bool := negb (String.eqb s "").

(** [n / d] rounded to the nearest integer, a tie to the even one
    ([d > 0], [n >= 0]). *)
Definition round_half_even (n d : Z) : Z :=
  let q := n / d in
  let r := n mod d in
  if 2 * r <? d then q
  else if d <? 2 * r then q + 1
  else if Z.even q then q else q + 1.

(** The integer [n] as a float: [n] itself below [2 ^ 53], and beyond
    [n] rounded to 53 significant bits, a tie to the even one. *)
Definition to_double (n : Z) : Z :=
  let a := Z.abs n in
  if a <? 2 ^ 53 then n
  else
    let ulp := 2 ^ (Z.log2 a - 52) in
    Z.sgn n * (round_half_even a ulp * ulp).

(** ** settings/models.py *)

Module Settings.

Record OllamaOptions : Type := {
  num_keep : Z;
  seed : Z;
  num_predict : Z;
  top_k : Z;
  top_p : Q;
  min_p : Q;
  tfs_z : Q;
  typical_p : Q;
  repeat_last_n : Z;
  temperature_option : Q;      (* OllamaOptions.temperature *)
  repeat_penalty : Q;
  presence_penalty : Q;
  frequency_penalty : Q;
  mirostat : Z;
  mirostat_tau : Q;
  mirostat_eta : Q;
  penalize_newline : bool;
  stop : list string;
  numa : bool;
  num_ctx : Z;
  num_batch : Z;
  num_gpu : Z;
  main_gpu : Z;
  low_vram : bool;
  f16_kv : bool;
  vocab_only : bool;
  use_mmap : bool;
  use_mlock : bool;
  num_thread : Z;
}.

Record OllamaModel : Type := {
  api_url : string;
  model : string;
  temperature : Q;
  max_tokens : Z;
  stream : bool;
  options : OllamaOptions;
}.

Record DiscordModel : Type := {
  token : string;
  bot_invite_url : option string;
}.

Record ExternalTokens : Type := {
  bfl_api_key : string;
  huggingface_token : string;
}.

Record AppSettings : Type := {
  version : string;
  debug : bool;
  log_enabled : bool;          (* AppSettings.log *)
  discord : DiscordModel;
  external_tokens : ExternalTokens;
  ollama : OllamaModel;
}.

Definition default_options : OllamaOptions :=
  {| num_keep := 5; seed := 42; num_predict := 100; top_k := 20;
     top_p := 9 # 10; min_p := 0; tfs_z := 5 # 10; typical_p := 7 # 10;
     repeat_last_n := 33; temperature_option := 8 # 10;
     repeat_penalty := 12 # 10; presence_penalty := 15 # 10;
     frequency_penalty := 1; mirostat := 1; mirostat_tau := 8 # 10;
     mirostat_eta := 6 # 10; penalize_newline := true;
     stop := [String (ascii_of_nat 10) EmptyString; "user:"];
     numa := false; num_ctx := 1024; num_batch := 2; num_gpu := 1;
     main_gpu := 0; low_vram := false; f16_kv := true; vocab_only := false;
     use_mmap := true; use_mlock := false; num_thread := 8 |}.

Definition default_ollama : OllamaModel :=
  {| api_url := "http://localhost:11434"; model := "llama3.2";
     temperature := 8 # 10; max_tokens := 32000; stream := false;
     options := default_options |}.

Definition default_discord : DiscordModel :=
  {| token := ""; bot_invite_url := Some "" |}.

Definition default : AppSettings :=
  {| version := "0.1.0"; debug := true; log_enabled := true;
     discord := default_discord;
     external_tokens := {| bfl_api_key := ""; huggingface_token := "" |};
     ollama := default_ollama |}.

(** [OllamaModel] declares no field [num_ctx] (it is a field of
    [OllamaOptions]), so [settings.num_ctx] on an [OllamaModel] is a
    failed attribute lookup. *)
Definition OllamaModel_num_ctx (s : OllamaModel) : option Z := None.

End Settings.

(** ** ai/ollama_client.py: ModelInfo *)

Module ModelInfo.

Record t : Type := mk {
  name : string;
  parameter_size : string;
  quantization_level : string;
  size : Z;                 (* the float of the numeral [size / 100] *)
  modified_at : string;
  digest : string;
}.

(** [ModelInfo] overrides [__hash__] only. *)
Definition hash_key (m : t) : string := digest m.

(** [__eq__] is the one inherited from pydantic's [BaseModel]: two
    models of the same class are equal when all their fields are. *)
#[global] Instance eq_dec : EqDecision t.
Proof. solve_decision. Defined.

Definition eqb (a b : t) : bool := bool_decide (a = b).

(** [m in xs] on a Python list: some element is equal to [m]. *)
Definition contains (xs : list t) (m : t) : bool := existsb (eqb m) xs.

End ModelInfo.

(** An entry of the backend's model listing ([list()["models"]]). *)
Record RawModel : Type := {
  raw_name : string;
  raw_size : Z;                          (* bytes *)
  raw_modified_at : string;              (* ISO timestamp *)
  raw_parameter_size : string;           (* ["details"]["parameter_size"] *)
  raw_quantization_level : string;       (* ["details"]["quantization_level"] *)
  raw_digest : string;
}.

(** An entry of the backend's list of resident models ([ps()["models"]]),
    each field as Python prints it. *)
Record PsModel : Type := {
  ps_name : string;
  ps_model : string;
  ps_size : string;
  ps_digest : string;
  ps_parent_model : string;
  ps_format : string;
  ps_family : string;
  ps_families : list string;
  ps_parameter_size : string;
  ps_quantization_level : string;
  ps_expires_at : string;
  ps_size_vram : string;
}.

(** What [client.chat] returns: a response holding one message, or, when
    streaming, a generator of chunks. *)
Inductive ChatResponse : Type :=
  | Single (message : Message)
  | Chunks (chunks : list Message).

(** The model backend and the libraries wrapping it, as a stub. *)
Record Backend : Type := {
  OllamaChat_new : option exn;           (* llm_axe.OllamaChat(api_url, model) *)
  Client_new : option exn;               (* ollama.Client(host=api_url) *)
  OnlineAgent_new : option exn;          (* llm_axe.OnlineAgent(llm=...) *)
  PdfReader_new : option exn;            (* llm_axe.PdfReader(llm=...) *)
  list_reply : reply (option (list RawModel));
                                         (* None: a response with no truth value *)
  ps_reply : reply (list PsModel);       (* response.get("models", {}) *)
  pull_reply : string -> option exn;
  generate_reply : string -> option Z -> option exn;
  chat_reply : ChatRequest -> reply ChatResponse;
}.

(** ** ai/ollama_client.py: OllamaClient *)

Module OllamaClient.

(** The two client objects the constructor assigns to [self.client] in
    turn; both talk to the same backend. *)
Inductive client_handle : Type := OwnClient | AxeClient.

Record t : Type := mk {
  initialized : bool;
  settings : Settings.OllamaModel;
  available_models : list ModelInfo.t;
  running_models : list ModelInfo.t;
  llm_axe : option unit;
  client : option client_handle;
  online_agent : option unit;
  pdf_reader : option unit;
}.

Definition set_initialized (b : bool) (s : t) : t :=
  mk b (settings s) (available_models s) (running_models s)
     (llm_axe s) (client s) (online_agent s) (pdf_reader s).
Definition set_available_models (l : list ModelInfo.t) (s : t) : t :=
  mk (initialized s) (settings s) l (running_models s)
     (llm_axe s) (client s) (online_agent s) (pdf_reader s).
Definition set_running_models (l : list ModelInfo.t) (s : t) : t :=
  mk (initialized s) (settings s) (available_models s) l
     (llm_axe s) (client s) (online_agent s) (pdf_reader s).
Definition set_llm_axe (s : t) : t :=
  mk (initialized s) (settings s) (available_models s) (running_models s)
     (Some tt) (client s) (online_agent s) (pdf_reader s).
Definition set_client (c : client_handle) (s : t) : t :=
  mk (initialized s) (settings s) (available_models s) (running_models s)
     (llm_axe s) (Some c) (online_agent s) (pdf_reader s).
Definition set_online_agent (s : t) : t :=
  mk (initialized s) (settings s) (available_models s) (running_models s)
     (llm_axe s) (client s) (Some tt) (pdf_reader s).
Definition set_pdf_reader (s : t) : t :=
  mk (initialized s) (settings s) (available_models s) (running_models s)
     (llm_axe s) (client s) (online_agent s) (Some tt).

Definition cls : string := "OllamaClient".
Definition no_models_loaded : string := "No models are currently loaded in memory.".
Definition fallback_model : string := "llama3.2".

(** [_create_model_info]: the size in bytes becomes GiB with two
    decimals, the timestamp loses its time part. The division by
    [1024**3] gives the float nearest to the quotient, which is the
    size as a float over a power of two (sizes stay below [2 ^ 1024]);
    the format [.2f] rounds that float to a numeral with two decimals,
    a tie to the even one, and [float] parses the numeral. The field
    holds the hundredths of that numeral. A listing entry has all the
    keys read here. *)
Definition _create_model_info (model : RawModel) : ModelInfo.t :=
  ModelInfo.mk
    (raw_name model)
    (raw_parameter_size model)
    (raw_quantization_level model)
    (round_half_even (to_double (raw_size model) * 100) (1024 ^ 3))
    (split_head "T"%char (raw_modified_at model))
    (raw_digest model).

Section Methods.
Variable be : Backend.

Definition load_model (model_name : string) : M t unit :=
  _ <- getattr cls "client" client ;;
  call (EvGenerate model_name None) (answer (generate_reply be model_name None)).

Definition unload_model (model_name : string) : M t unit :=
  _ <- getattr cls "client" client ;;
  call (EvGenerate model_name (Some 0)) (answer (generate_reply be model_name (Some 0))).

Definition pull_model (model : string) : M t unit :=
  try_except
    (_ <- getattr cls "client" client ;;
     call (EvPull model) (answer (pull_reply be model)))
    is_ResponseError
    (fun e => log ERROR ("Error pulling model: " +:+ exn_msg e) ;; raise e).

Definition list_models : M t (list string) :=
  try_except
    (_ <- getattr cls "client" client ;;
     response <- call EvList (list_reply be) ;;
     match response with
     | Some models => ret (map raw_name models)
     | None => raise (Exn KeyError "'models'")
     end)
    is_ResponseError
    (fun e => log ERROR ("Error listing models: " +:+ exn_msg e) ;; raise e).

Definition format_model (m : PsModel) : string :=
  "Name: " +:+ ps_name m +:+ nl +:+
  "Model: " +:+ ps_model m +:+ nl +:+
  "Size: " +:+ ps_size m +:+ " bytes" +:+ nl +:+
  "Digest: " +:+ ps_digest m +:+ nl +:+
  "Parent Model: " +:+ ps_parent_model m +:+ nl +:+
  "Format: " +:+ ps_format m +:+ nl +:+
  "Family: " +:+ ps_family m +:+ nl +:+
  "Families: " +:+ join ", " (ps_families m) +:+ nl +:+
  "Parameter Size: " +:+ ps_parameter_size m +:+ nl +:+
  "Quantization Level: " +:+ ps_quantization_level m +:+ nl +:+
  "Expires At: " +:+ ps_expires_at m +:+ nl +:+
  "Size VRAM: " +:+ ps_size_vram m +:+ " bytes" +:+ nl.

Definition list_running_models : M t string :=
  try_except
    (_ <- getattr cls "client" client ;;
     models <- call EvPs (ps_reply be) ;;
     match models with
     | [] => ret no_models_loaded
     | _ => ret (join (nl +:+ nl) (map format_model models))
     end)
    is_Exception
    (fun e =>
       log ERROR ("Error listing running models: " +:+ exn_msg e) ;;
       ret ("Error listing running models: " +:+ exn_msg e)).

(** The [try] block of the constructor. *)
Definition connect : M t unit :=
  try_except
    (construct (OllamaChat_new be) ;; modify set_llm_axe ;;
     construct (Client_new be) ;; modify (set_client OwnClient) ;;
     _ <- getattr cls "llm_axe" llm_axe ;; modify (set_client AxeClient) ;;
     construct (OnlineAgent_new be) ;; modify set_online_agent ;;
     construct (PdfReader_new be) ;; modify set_pdf_reader ;;
     modify (set_initialized true))
    is_Exception
    (fun e => log EXCEPTION ("Failed to initialize Ollama client: " +:+ exn_msg e)).

(** One turn of the loop over the listing. *)
Definition add_available (model : RawModel) : M t unit :=
  let model_info := _create_model_info model in
  known <- gets available_models ;;
  if ModelInfo.contains known model_info then ret tt
  else
    modify (set_available_models (known ++ [model_info])) ;;
    log (LOG "OLLAMA") ("Available model: " +:+ ModelInfo.name model_info).

(** The listing loop; the result is the local variable [model] as the
    loop leaves it: the last entry, or unbound. *)
Definition poll_available : M t (option RawModel) :=
  _ <- getattr cls "llm_axe" llm_axe ;;
  available_models <- call EvList (list_reply be) ;;
  match available_models with
  | Some models => for_each models add_available ;; ret (last models)
  | None => ret None
  end.

Definition bootstrap (model : option RawModel) : M t unit :=
  running_model <- list_running_models ;;
  if truthy running_model && negb (String.eqb running_model no_models_loaded)
  then
    match model with
    | None =>
        (* the text is the one of Python 3.11 and later; nothing reads it *)
        raise (Exn UnboundLocalError
                 "cannot access local variable 'model' where it is not associated with a value")
    | Some model =>
        let model_info := _create_model_info model in
        running <- gets running_models ;;
        if ModelInfo.contains running model_info then ret tt
        else
          modify (set_running_models (running ++ [model_info])) ;;
          log (LOG "OLLAMA") ("Running model: " +:+ ModelInfo.name model_info)
    end
  else
    log WARNING "No models are currently loaded in memory." ;;
    available <- gets available_models ;;
    match available with
    | first :: _ =>
        log DEBUG ("Loading first available model: " +:+ ModelInfo.name first) ;;
        load_model (ModelInfo.name first)
    | [] =>
        log DEBUG "No available models, pulling llama3.2" ;;
        pull_model fallback_model ;;
        load_model fallback_model ;;
        log DEBUG "Loaded llama3.2"
    end.

Definition blank (cfg : Settings.OllamaModel) : t :=
  mk false cfg [] [] None None None None.

(** [__init__], run on the object as its first four lines leave it. *)
Definition __init__ : M t unit :=
  connect ;;
  model <- poll_available ;;
  bootstrap model.

(** [OllamaClient()]: the object exists only if the constructor
    returns. *)
Definition new (cfg : Settings.OllamaModel) : outcome t * trace :=
  match __init__ (blank cfg) with
  | (Ret _, self, tr) => (Ret self, tr)
  | (Raise e, _, tr) => (Raise e, tr)
  | (OutOfFuel, _, tr) => (OutOfFuel, tr)
  end.

(** What [chat] hands back: [response["message"]] or the response
    itself. *)
Inductive chat_result : Type :=
  | Reply (message : Message)
  | Response (response : ChatResponse).

Definition list_truthy {A} (xs : option (list A)) : bool :=
  match xs with Some (_ :: _) => true | _ => false end.

Definition flag_truthy (b : option bool) : bool :=
  match b with Some true => true | _ => false end.

Definition message_of (response : ChatResponse) : M t Message :=
  match response with
  | Single m => ret m
  | Chunks _ => raise (Exn TypeError "'generator' object is not subscriptable")
  end.

(** [self.settings.num_ctx], as the class of [self.settings] resolves
    it ([Settings.OllamaModel_num_ctx] for the settings the program
    builds). *)
Variable settings_num_ctx : Settings.OllamaModel -> option Z.

Definition chat (messages : list Message) (stream : option bool)
    (tools : option (list Tool)) : M t chat_result :=
  ready <- gets initialized ;;
  if negb ready then raise (Exn PlainException "Ollama client not initialized")
  else
    log (LOG "OLLAMA") "Sending user message to Ollama" ;;
    try_except
      (response <-
         (if list_truthy tools then
            (* Tools require streaming to be disabled *)
            _ <- getattr cls "client" client ;;
            cfg <- gets settings ;;
            num_ctx <- getattr "OllamaModel" "num_ctx"
                         (fun self => settings_num_ctx (settings self)) ;;
            let req :=
              {| req_model := Settings.model cfg;
                 req_messages := messages;
                 req_tools := tools;
                 req_stream := false;
                 req_options :=
                   [("temperature", OptFloat (Settings.temperature cfg));
                    ("num_ctx", OptInt num_ctx)] |} in
            call (EvChat req) (chat_reply be req)
          else
            _ <- getattr cls "client" client ;;
            cfg <- gets settings ;;
            let req :=
              {| req_model := Settings.model cfg;
                 req_messages := messages;
                 req_tools := None;
                 req_stream :=
                   match stream with
                   | Some b => b
                   | None => Settings.stream cfg
                   end;
                 req_options :=
                   [("temperature", OptFloat (Settings.temperature cfg))] |} in
            call (EvChat req) (chat_reply be req)) ;;
       if negb (flag_truthy stream)
       then m <- message_of response ;; ret (Reply m)
       else ret (Response response))
      is_ResponseError
      (fun e => log ERROR ("Ollama chat error: " +:+ exn_msg e) ;; raise e).

End Methods.

End OllamaClient.

(** ** services/base.py *)

(** The lifecycle interface of a supervised service, as the orchestrator
    uses it: [service.initialized], [service.validate()],
    [service.start()], [service.stop()]. *)
Class Service (S : Type) : Type := {
  svc_initialized : S -> bool;
  svc_validate : M S bool;
  svc_start : M S unit;
  svc_stop : M S unit;
}.

Module BaseService.

Record t : Type := mk {
  name : string;
  initialized : bool;
  running : bool;
  started : bool;          (* the thread has been started *)
}.

Definition set_initialized (b : bool) (s : t) : t :=
  mk (name s) b (running s) (started s).
Definition set_running (b : bool) (s : t) : t :=
  mk (name s) (initialized s) b (started s).
Definition set_started (b : bool) (s : t) : t :=
  mk (name s) (initialized s) (running s) b.

Definition not_implemented {A} : M t A := raise (Exn NotImplementedError "").

(** [__init__]; [setup] is the subclass's method. *)
Definition __init__ (setup : M t bool) : M t unit :=
  modify (set_initialized false) ;;
  modify (set_running true) ;;
  try_except
    (ok <- setup ;; if ok then modify (set_initialized true) else ret tt)
    is_Exception
    (fun e =>
       n <- gets name ;;
       log EXCEPTION ("Failed to initialize " +:+ n +:+ " service: " +:+ exn_msg e)).

Definition new (name : string) (setup : M t bool) : t * trace :=
  let r := __init__ setup (mk name false false false) in
  (state_of r, trace_of r).

(** [threading.Thread.start] and [threading.Thread.join]. *)
Definition start : M t unit :=
  already <- gets started ;;
  if already then raise (Exn RuntimeError "threads can only be started once")
  else modify (set_started true) ;; n <- gets name ;; emit (EvThreadStart n).

Definition join : M t unit :=
  already <- gets started ;;
  if already then n <- gets name ;; emit (EvThreadJoin n)
  else raise (Exn RuntimeError "cannot join thread before it is started").

Definition stop : M t unit :=
  modify (set_running false) ;;
  join.

End BaseService.

(** ** services/discord.py *)

(** [discord.Client]: whether it has a [loop] attribute, and then whether
    that loop is running. *)
Record DiscordClient : Type := { loop_running : option bool }.

(** The chat platform library, as a stub. *)
Record Platform : Type := {
  DiscordClient_new : reply DiscordClient;   (* setup(): Client, CommandTree, handlers *)
  run_reply : option exn;                    (* client.run(token, log_handler=None) *)
}.

Module DiscordService.

Record t : Type := mk {
  initialized : bool;
  settings : Settings.DiscordModel;
  allowed_users : list string;
  admin_users : list string;
  allowed_roles : list string;
  client : option DiscordClient;
  tree : option unit;
  running : option bool;   (* no method but [stop] assigns it *)
}.

Definition set_initialized (b : bool) (s : t) : t :=
  mk b (settings s) (allowed_users s) (admin_users s) (allowed_roles s)
     (client s) (tree s) (running s).
Definition set_client (c : DiscordClient) (s : t) : t :=
  mk (initialized s) (settings s) (allowed_users s) (admin_users s) (allowed_roles s)
     (Some c) (Some tt) (running s).
Definition set_running (b : bool) (s : t) : t :=
  mk (initialized s) (settings s) (allowed_users s) (admin_users s) (allowed_roles s)
     (client s) (tree s) (Some b).

Definition cls : string := "DiscordService".

Section Methods.
Variable pf : Platform.

Definition validate : M t bool :=
  cfg <- gets settings ;;
  if negb (truthy (Settings.token cfg))
  then log ERROR "DISCORD_TOKEN is not set" ;; ret false
  else ret true.

Definition setup : M t bool :=
  c <- build (DiscordClient_new pf) ;;
  modify (set_client c) ;;
  ret true.

Definition __init__ : M t unit :=
  valid <- validate ;;
  if valid then setup ;; modify (set_initialized true)
  else log ERROR "Discord service not initialized".

Definition blank (cfg : Settings.DiscordModel) : t :=
  mk false cfg [] [] [] None None None.

Definition new (cfg : Settings.DiscordModel) : outcome t * trace :=
  match __init__ (blank cfg) with
  | (Ret _, self, tr) => (Ret self, tr)
  | (Raise e, _, tr) => (Raise e, tr)
  | (OutOfFuel, _, tr) => (OutOfFuel, tr)
  end.

Definition run : M t unit :=
  try_except
    (_ <- getattr cls "client" client ;;
     cfg <- gets settings ;;
     call (EvDiscordRun (Settings.token cfg)) (answer (run_reply pf)))
    is_Exception
    (fun e => log ERROR ("Error in Discord service: " +:+ exn_msg e)).

(** [_cleanup], run to completion. *)
Definition _cleanup : M t unit :=
  c <- gets client ;;
  match c with Some _ => emit EvDiscordClose | None => ret tt end.

Definition stop : M t unit :=
  ready <- gets initialized ;;
  if negb ready then ret tt
  else
    alive <- getattr cls "running" running ;;
    if negb alive then ret tt
    else
      modify (set_running false) ;;
      c <- gets client ;;
      match c with
      | Some {| loop_running := Some true |} => emit EvDiscordCreateTask
      | Some {| loop_running := Some false |} => _cleanup
      | _ => ret tt
      end ;;
      log (LOG "DISCORD") "Discord service stopped".

End Methods.

End DiscordService.

(** The chat-platform service seen through the lifecycle interface. It is
    a plain class: it has no [start] method. *)
#[global] Instance DiscordService_Service : Service DiscordService.t := {
  svc_initialized := DiscordService.initialized;
  svc_validate := DiscordService.validate;
  svc_start := raise (no_attribute DiscordService.cls "start");
  svc_stop := DiscordService.stop;
}.

(** ** program.py *)

(** [BackgroundScheduler]: whether it runs, and the ids of its jobs. *)
Record Scheduler : Type := { sched_running : bool; sched_jobs : list string }.

(** Everything outside the process. *)
Record Env : Type := {
  backend : Backend;
  platform : Platform;
  app_settings : Settings.AppSettings;     (* settings_manager.settings *)
  version_reply : reply string;            (* get_version() *)
  settings_file_exists : bool;
}.

Module Program.

Section WithService.
Context {Svc : Type} `{Service Svc}.

Record t : Type := mk {
  initialized : bool;
  running : bool;
  settings : Settings.AppSettings;
  ollama : OllamaClient.t;
  services : option (list (string * Svc));   (* name -> instance, in insertion order *)
  discord : option DiscordService.t;
  executors : option (list unit);
  scheduler : option Scheduler;
  started : bool;                          (* the thread has been started *)
}.

Definition set_initialized (b : bool) (p : t) : t :=
  mk b (running p) (settings p) (ollama p) (services p) (discord p)
     (executors p) (scheduler p) (started p).
Definition set_running (b : bool) (p : t) : t :=
  mk (initialized p) b (settings p) (ollama p) (services p) (discord p)
     (executors p) (scheduler p) (started p).
Definition set_ollama (o : OllamaClient.t) (p : t) : t :=
  mk (initialized p) (running p) (settings p) o (services p) (discord p)
     (executors p) (scheduler p) (started p).
Definition set_services (l : list (string * Svc)) (p : t) : t :=
  mk (initialized p) (running p) (settings p) (ollama p) (Some l) (discord p)
     (executors p) (scheduler p) (started p).
Definition set_discord (d : DiscordService.t) (p : t) : t :=
  mk (initialized p) (running p) (settings p) (ollama p) (services p) (Some d)
     (executors p) (scheduler p) (started p).
Definition set_executors (l : list unit) (p : t) : t :=
  mk (initialized p) (running p) (settings p) (ollama p) (services p) (discord p)
     (Some l) (scheduler p) (started p).
Definition set_scheduler (s : Scheduler) (p : t) : t :=
  mk (initialized p) (running p) (settings p) (ollama p) (services p) (discord p)
     (executors p) (Some s) (started p).
Definition set_started (b : bool) (p : t) : t :=
  mk (initialized p) (running p) (settings p) (ollama p) (services p) (discord p)
     (executors p) (scheduler p) b.

Definition cls : string := "Program".

(** A method of [self.ollama], called from the orchestrator. *)
Definition on_ollama {A} (m : M OllamaClient.t A) : M t A :=
  fun p =>
    let '(o, oc, tr) := m (ollama p) in (o, set_ollama oc p, tr).

(** A method of the service stored under [key]; what the service does
    is recorded under its key. *)
Definition in_service {A} (key : string) (m : M Svc A) (s : Svc)
    : outcome A * Svc * trace :=
  let '(o, s', tr) := m s in (o, s', map (EvService key) tr).

(** [any(service.validate() for service in services.values())]: the
    generator stops at the first service that reports valid. *)
Fixpoint any_validate (svcs : list (string * Svc))
    : outcome bool * list (string * Svc) * trace :=
  match svcs with
  | [] => (Ret false, [], [])
  | (key, s) :: rest =>
      let '(o, s', tr) := in_service key svc_validate s in
      let tr := EvServiceValidate key :: tr in
      match o with
      | Ret true => (Ret true, (key, s') :: rest, tr)
      | Ret false =>
          let '(o', rest', tr') := any_validate rest in
          (o', (key, s') :: rest', tr ++ tr')
      | Raise e => (Raise e, (key, s') :: rest, tr)
      | OutOfFuel => (OutOfFuel, (key, s') :: rest, tr)
      end
  end.

(** [for service in services.values(): body service] *)
Fixpoint each_service (body : string -> M Svc unit) (svcs : list (string * Svc))
    : outcome unit * list (string * Svc) * trace :=
  match svcs with
  | [] => (Ret tt, [], [])
  | (key, s) :: rest =>
      let '(o, s', tr) := body key s in
      match o with
      | Ret _ =>
          let '(o', rest', tr') := each_service body rest in
          (o', (key, s') :: rest', tr ++ tr')
      | _ => (o, (key, s') :: rest, tr)
      end
  end.

(** A computation on the mapping, run on [self.services]. *)
Definition on_services {A} (m : M (list (string * Svc)) A) : M t A :=
  fun p =>
    match services p with
    | Some svcs => let '(o, svcs', tr) := m svcs in (o, set_services svcs' p, tr)
    | None => (Raise (no_attribute cls "services"), p, [])
    end.

Definition validate_services : M t bool :=
  on_services any_validate.

(** [_schedule_functions]: the table holds the log cleaner alone. *)
Definition _schedule_functions : M t unit :=
  sched <- getattr cls "scheduler" scheduler ;;
  emit (EvAddJob "log_cleaner" (60 * 60) 1) ;;
  modify (set_scheduler
            {| sched_running := sched_running sched;
               sched_jobs := "log_cleaner" ::
                 filter (fun j => j <> "log_cleaner") (sched_jobs sched) |}) ;;
  log DEBUG "Scheduled log_cleaner to run every 3600 seconds.".

(** [while not self.validate_services(): time.sleep(1)], for at most
    [fuel] polls. *)
Fixpoint wait_for_valid (fuel : nat) : M t unit :=
  match fuel with
  | O => out_of_fuel
  | S fuel' =>
      valid <- validate_services ;;
      if valid then ret tt
      else emit (EvSleep 1) ;; wait_for_valid fuel'
  end.

Definition start_service (key : string) : M Svc unit :=
  fun s =>
    let '(o, s', tr) := in_service key svc_start s in
    (o, s', EvServiceStart key :: tr).

Definition stop_service (key : string) : M Svc unit :=
  fun s =>
    if svc_initialized s
    then let '(o, s', tr) := in_service key svc_stop s in
         (o, s', EvServiceStop key :: tr)
    else (Ret tt, s, []).

(** [threading.Thread.start] of the orchestrator's own thread. The new
    thread enters [run]: it sets the running flag and logs, and then
    sleeps in its loop for as long as the flag stays set. *)
Definition thread_start : M t unit :=
  already <- gets started ;;
  if already then raise (Exn RuntimeError "threads can only be started once")
  else
    modify (set_started true) ;;
    emit (EvThreadStart "Ragnar") ;;
    modify (set_running true) ;;
    log (LOG "PROGRAM") "Listening for events...".

Definition scheduler_start : M t unit :=
  sched <- getattr cls "scheduler" scheduler ;;
  modify (set_scheduler {| sched_running := true; sched_jobs := sched_jobs sched |}) ;;
  emit EvSchedulerStart.

Section Methods.
Variable env : Env.

Definition start (fuel : nat) : M t unit :=
  latest_version <- build (version_reply env) ;;
  log (LOG "PROGRAM") ("Ragnar v" +:+ latest_version +:+ " started!") ;;
  emit EvMakedirs ;;
  (if negb (settings_file_exists env)
   then log (LOG "PROGRAM") "Settings file not found, creating default settings" ;;
        emit EvSettingsSave
   else ret tt) ;;
  valid <- validate_services ;;
  (if negb valid
   then log (LOG "PROGRAM") "----------------------------------------------" ;;
        log ERROR "Ragnar is waiting for configuration to start!" ;;
        log (LOG "PROGRAM") "----------------------------------------------"
   else ret tt) ;;
  wait_for_valid fuel ;;
  svcs <- getattr cls "services" services ;;
  (match svcs with
   | [] => ret tt
   | _ => on_services (each_service start_service)
   end) ;;
  modify (set_executors []) ;;
  modify (set_scheduler {| sched_running := false; sched_jobs := [] |}) ;;
  _schedule_functions ;;
  thread_start ;;
  scheduler_start ;;
  modify (set_initialized true) ;;
  log SUCCESS "Ragnar is running!".

(** [while self.running: time.sleep(1)], for at most [fuel] turns. *)
Fixpoint idle (fuel : nat) : M t unit :=
  match fuel with
  | O => out_of_fuel
  | S fuel' =>
      alive <- gets running ;;
      if alive then emit (EvSleep 1) ;; idle fuel' else ret tt
  end.

Definition run (fuel : nat) : M t unit :=
  modify (set_running true) ;;
  log (LOG "PROGRAM") "Listening for events..." ;;
  idle fuel.

Definition unload (model : ModelInfo.t) : M t unit :=
  log (LOG "OLLAMA") ("Unloading model: " +:+ ModelInfo.name model) ;;
  on_ollama (OllamaClient.unload_model (backend env) (ModelInfo.name model)).

(** [self.scheduler.shutdown(wait=False)] on a running scheduler:
    the job store is emptied with it. *)
Definition scheduler_shutdown : M t unit :=
  sched <- gets scheduler ;;
  match sched with
  | Some sc =>
      if sched_running sc
      then modify (set_scheduler {| sched_running := false; sched_jobs := [] |}) ;;
           emit (EvSchedulerShutdown false)
      else ret tt
  | None => ret tt
  end.

Definition stop : M t unit :=
  modify (set_running false) ;;
  ready <- gets initialized ;;
  if negb ready then ret tt
  else
    (* the loop is guarded by [if self.ollama.running_models:], which
       an empty list passes through as well *)
    models <- gets (fun p => OllamaClient.running_models (ollama p)) ;;
    for_each models unload ;;
    on_services (each_service stop_service) ;;
    scheduler_shutdown ;;
    log (LOG "PROGRAM") "Ragnar has been stopped.".

(** [__init__] after [self.ollama] has been assigned. *)
Definition __init__ : M t unit :=
  ready <- gets (fun p => OllamaClient.initialized (ollama p)) ;;
  if negb ready then log ERROR "Failed to initialize Ollama client"
  else
    modify (set_services []) ;;
    try_except
      (cfg <- gets settings ;;
       d <- (fun p =>
               match DiscordService.new (platform env) (Settings.discord cfg) with
               | (Ret d, tr) => (Ret d, p, tr)
               | (Raise e, tr) => (Raise e, p, tr)
               | (OutOfFuel, tr) => (OutOfFuel, p, tr)
               end) ;;
       modify (set_discord d) ;;
       _ <- getattr DiscordService.cls "client" (fun _ => DiscordService.client d) ;;
       call (EvDiscordRun (Settings.token (Settings.discord cfg)))
            (answer (run_reply (platform env))))
      is_Exception
      (fun _ => ret tt).

(** [Program()]: the provisioner is built first; an exception of its
    constructor leaves no orchestrator. *)
Definition new : outcome t * trace :=
  match OllamaClient.new (backend env) (Settings.ollama (app_settings env)) with
  | (Ret oc, tr) =>
      let self := mk false false (app_settings env) oc None None None None false in
      match __init__ self with
      | (Ret _, self, tr') => (Ret self, tr ++ tr')
      | (Raise e, _, tr') => (Raise e, tr ++ tr')
      | (OutOfFuel, _, tr') => (OutOfFuel, tr ++ tr')
      end
  | (Raise e, tr) => (Raise e, tr)
  | (OutOfFuel, tr) => (OutOfFuel, tr)
  end.

End Methods.

End WithService.

Arguments t Svc : clear implicits.

End Program.

(** ** The states the orchestrator can be in *)

(** The methods that can be called on an orchestrator once it exists. *)
Inductive method : Type :=
  | Start (fuel : nat)
  | Run (fuel : nat)
  | Stop
  | ValidateServices
  | ScheduleFunctions.

Section Reachable.
Context {Svc : Type} `{Service Svc}.

Definition perform (env : Env) (m : method) : M (Program.t Svc) unit :=
  match m with
  | Start fuel => Program.start env fuel
  | Run fuel => Program.run fuel
  | Stop => Program.stop env
  | ValidateServices => _ <- Program.validate_services ;; ret tt
  | ScheduleFunctions => Program._schedule_functions
  end.

(** An orchestrator is reachable when [Program()] returned it, or when
    a method left it so, whether the method returned, raised, or was
    still looping; the surroundings may differ from call to call. *)
Inductive reachable : Program.t Svc -> Prop :=
  | reach_new env p tr :
      Program.new env = (Ret p, tr) -> reachable p
  | reach_call env m p :
      reachable p -> reachable (state_of (perform env m p)).

End Reachable.

(** A service whose [validate()] answers false at every call, whatever
    state the earlier calls left it in. *)
Definition always_invalid {Svc : Type} `{Service Svc} (s : Svc) : Prop :=
  forall n : nat,
    outcome_of (svc_validate (Nat.iter n (fun x => state_of (svc_validate x)) s))
      = Ret false.

(** ** Sample surroundings *)

Module Sample.

Definition raw (name digest : string) : RawModel :=
  {| raw_name := name; raw_size := 2019393189;
     raw_modified_at := "2024-11-02T10:11:12.5Z";
     raw_parameter_size := "3.2B"; raw_quantization_level := "Q4_K_M";
     raw_digest := digest |}.

Definition m1 : RawModel := raw "m1" "a80c4f17acd5".

Definition oops : exn := Exn PlainException "connection refused".

(** A backend that answers every request, with the given listing and no
    resident model. *)
Definition serving (models : list RawModel) : Backend :=
  {| OllamaChat_new := None; Client_new := None;
     OnlineAgent_new := None; PdfReader_new := None;
     list_reply := inr (Some models); ps_reply := inr [];
     pull_reply := fun _ => None; generate_reply := fun _ _ => None;
     chat_reply := fun _ => inr (Single {| role := "assistant"; content := "hi" |}) |}.

(** The same, with [OllamaChat(...)] raising. *)
Definition unreachable_backend : Backend :=
  {| OllamaChat_new := Some oops; Client_new := None;
     OnlineAgent_new := None; PdfReader_new := None;
     list_reply := inr (Some [m1]); ps_reply := inr [];
     pull_reply := fun _ => None; generate_reply := fun _ _ => None;
     chat_reply := fun _ => inl oops |}.

(** The same as [serving [m1]], with [PdfReader(...)] raising. *)
Definition no_pdf_backend : Backend :=
  {| OllamaChat_new := None; Client_new := None;
     OnlineAgent_new := None; PdfReader_new := Some oops;
     list_reply := inr (Some [m1]); ps_reply := inr [];
     pull_reply := fun _ => None; generate_reply := fun _ _ => None;
     chat_reply := fun _ => inl oops |}.

Definition chat_platform : Platform :=
  {| DiscordClient_new := inr {| loop_running := Some false |};
     run_reply := None |}.

Definition surroundings (be : Backend) : Env :=
  {| backend := be; platform := chat_platform; app_settings := Settings.default;
     version_reply := inr "0.1.0"; settings_file_exists := true |}.

Definition info (name digest : string) : ModelInfo.t :=
  OllamaClient._create_model_info (raw name digest).

(** A provisioner with one model recorded as running. *)
Definition provisioner : OllamaClient.t :=
  OllamaClient.mk true Settings.default_ollama
    [info "m1" "a80c4f17acd5"] [info "m1" "a80c4f17acd5"]
    (Some tt) (Some OllamaClient.AxeClient) (Some tt) (Some tt).

(** A chat-platform service without a token, and one with. *)
Definition discord_without_token : DiscordService.t :=
  DiscordService.blank Settings.default_discord.

Definition waiting_program : Program.t DiscordService.t :=
  Program.mk false false Settings.default provisioner
    (Some [("discord", discord_without_token)]) None None None false.

(** The orchestrator that [Program()] returns when the backend serves
    [m1] and no token is configured. *)
Definition built_program : Program.t DiscordService.t :=
  Eval vm_compute in
    match Program.new (surroundings (serving [m1])) with
    | (Ret p, _) => p
    | _ => waiting_program
    end.

End Sample.

(** * Vocabulary of the properties *)

(** ** Reading a trace *)

(** The request that unloads a model: a generate call with zero
    keep-alive. *)
Definition unload_event (model : ModelInfo.t) : event :=
  EvGenerate (ModelInfo.name model) (Some 0).

(** An event of the service phase of a shutdown: a service's [stop()]
    being invoked, or something that service does inside it. *)
Definition in_service_stop (e : event) : bool :=
  match e with EvServiceStop _ | EvService _ _ => true | _ => false end.

Definition is_scheduler_shutdown (e : event) : bool :=
  match e with EvSchedulerShutdown _ => true | _ => false end.

Definition is_service_start (e : event) : bool :=
  match e with EvServiceStart _ => true | _ => false end.

Definition is_sleep (e : event) : bool :=
  match e with EvSleep _ => true | _ => false end.

(** The number of one-second sleeps of a trace. *)
Definition sleeps (tr : trace) : nat := length (filter (fun e => is_sleep e = true) tr).

(** An event that goes through the service mapping. *)
Definition touches_service (e : event) : bool :=
  match e with
  | EvService _ _ | EvServiceValidate _ | EvServiceStart _ | EvServiceStop _ => true
  | _ => false
  end.

Definition no_service_event (tr : trace) : Prop :=
  Forall (fun e => touches_service e = false) tr.

(** Every chat request of a trace goes out with streaming off. *)
Definition never_streams (tr : trace) : Prop :=
  Forall (fun e => forall req, e = EvChat req -> req_stream req = false) tr.

(** A trace that starts no service and sleeps nowhere. *)
Definition quiet (tr : trace) : Prop :=
  Forall (fun e => is_service_start e = false) tr /\ sleeps tr = O.

(** ** The provisioner's constructor, step by step *)

(** The list the loop of the constructor builds: an entry is appended
    unless an equal one is there already. *)
Definition add_if_absent (known : list ModelInfo.t) (model : RawModel) : list ModelInfo.t :=
  let model_info := OllamaClient._create_model_info model in
  if ModelInfo.contains known model_info then known else known ++ [model_info].

Definition collect (known : list ModelInfo.t) (models : list RawModel) : list ModelInfo.t :=
  fold_left add_if_absent models known.

(** The four library constructors of the [try] block return. *)
Definition constructs (be : Backend) : Prop :=
  OllamaChat_new be = None /\ Client_new be = None /\
  OnlineAgent_new be = None /\ PdfReader_new be = None.

(** The object after a [try] block that ran to its end. *)
Definition connected (self : OllamaClient.t) : OllamaClient.t :=
  OllamaClient.mk true (OllamaClient.settings self)
    (OllamaClient.available_models self) (OllamaClient.running_models self)
    (Some tt) (Some OllamaClient.AxeClient) (Some tt) (Some tt).

(** The object after the listing has been polled. *)
Definition polled (cfg : Settings.OllamaModel) (models : list RawModel) : OllamaClient.t :=
  OllamaClient.set_available_models (collect [] models)
    (connected (OllamaClient.blank cfg)).

(** ** The shutdown sequence, step by step *)

(** Outcome and trace of one [unload_model] call issued by [stop], and of
    the loop over [running_models]; both depend on the provisioner and the
    backend only. *)
Definition unload_outcome (be : Backend) (oc : OllamaClient.t) (model : ModelInfo.t)
    : outcome unit :=
  match OllamaClient.client oc with
  | None => Raise (no_attribute OllamaClient.cls "client")
  | Some _ =>
      match generate_reply be (ModelInfo.name model) (Some 0) with
      | None => Ret tt
      | Some x => Raise x
      end
  end.

Definition unload_trace (oc : OllamaClient.t) (model : ModelInfo.t) : trace :=
  EvLog (LOG "OLLAMA") ("Unloading model: " +:+ ModelInfo.name model) ::
  match OllamaClient.client oc with
  | None => []
  | Some _ => [unload_event model]
  end.

Fixpoint unloads (be : Backend) (oc : OllamaClient.t) (models : list ModelInfo.t)
    : outcome unit * trace :=
  match models with
  | [] => (Ret tt, [])
  | model :: rest =>
      match unload_outcome be oc model with
      | Ret _ => let '(o, tr) := unloads be oc rest in (o, unload_trace oc model ++ tr)
      | o => (o, unload_trace oc model)
      end
  end.

Section Vocabulary.
Context {Svc : Type} `{Service Svc}.

Implicit Types p : Program.t Svc.

(** The scheduler, if there is one, does not run. *)
Definition scheduler_stopped p : Prop :=
  match Program.scheduler p with
  | Some sc => sched_running sc = false
  | None => True
  end.

(** The part of [stop] after the unload loop. *)
Definition stop_tail : M (Program.t Svc) unit :=
  Program.on_services (Program.each_service Program.stop_service) ;;
  Program.scheduler_shutdown ;;
  log (LOG "PROGRAM") "Ragnar has been stopped.".

Definition all_invalid (svcs : list (string * Svc)) : Prop :=
  Forall (fun ks => always_invalid ks.2) svcs.

(** What holds of every orchestrator the program can produce: it is not
    initialized, it has no scheduler, and its mapping is empty if the
    provisioner initialized and unset otherwise. *)
Definition never_started p : Prop :=
  Program.initialized p = false
  /\ Program.scheduler p = None
  /\ Program.services p =
       if OllamaClient.initialized (Program.ollama p) then Some [] else None.

(** The specification's reading of a repeated [stop()]: the second call
    returns, leaves the orchestrator as the first left it, and adds no
    effect to those of the first. *)
Definition second_stop_is_a_no_op (env : Env) p : Prop :=
  outcome_of (Program.stop env (state_of (Program.stop env p))) = Ret tt
  /\ state_of (Program.stop env (state_of (Program.stop env p)))
     = state_of (Program.stop env p)
  /\ actions (trace_of (Program.stop env p)
              ++ trace_of (Program.stop env (state_of (Program.stop env p))))
     = actions (trace_of (Program.stop env p)).

End Vocabulary.

(** The reading of the service mapping as always assigned and empty: in
    every reachable state it is the empty mapping and
    [validate_services()] answers false. *)
Definition mapping_always_empty : Prop :=
  forall p : Program.t DiscordService.t,
    reachable p ->
    Program.services p = Some []
    /\ outcome_of (Program.validate_services p) = Ret false.

(** * Further vocabulary *)

Definition is_pull (e : event) : bool :=
  match e with EvPull _ => true | _ => false end.

Definition is_chat (e : event) : bool :=
  match e with EvChat _ => true | _ => false end.

(** The pull requests of a trace, in order. *)
Definition pulls (tr : trace) : trace := filter (fun e => is_pull e = true) tr.

(** [m] is an entry of the listing the backend answers with. *)
Definition listed (be : Backend) (m : RawModel) : Prop :=
  exists models, list_reply be = inr (Some models) /\ m ∈ models.

(** The listing yields no entry: it is empty, or has no truth value. *)
Definition nothing_listed (be : Backend) : Prop :=
  list_reply be = inr None \/ list_reply be = inr (Some []).

(** * main.py *)

(** [try: body finally: cleanup]: the cleanup runs whether the body
    returned or raised, and what it raises replaces the body's outcome. *)
Definition try_finally {St A} (body : M St A) (cleanup : M St unit) : M St A :=
  fun s =>
    match body s with
    | (OutOfFuel, s1, t1) => (OutOfFuel, s1, t1)
    | (o, s1, t1) =>
        match cleanup s1 with
        | (Ret _, s2, t2) => (o, s2, t1 ++ t2)
        | (Raise e, s2, t2) => (Raise e, s2, t1 ++ t2)
        | (OutOfFuel, s2, t2) => (OutOfFuel, s2, t1 ++ t2)
        end
    end.

Module Main.

Section WithService.
Context {Svc : Type} `{Service Svc}.
Variable env : Env.

(** [program.join()]: [threading.Thread.join] of the orchestrator. The
    thread's loop ends once [running] is cleared, which [stop] has
    done by then. *)
Definition join : M (Program.t Svc) unit :=
  already <- gets Program.started ;;
  if already then emit (EvThreadJoin "Ragnar")
  else raise (Exn RuntimeError "cannot join thread before it is started").

Definition main (fuel : nat) : M (Program.t Svc) unit :=
  try_finally
    (try_except (Program.start env fuel) is_Exception
       (fun e => log EXCEPTION ("Program error: " +:+ exn_msg e)))
    (log (LOG "PROGRAM") "Shutdown requested. Exiting gracefully..." ;;
     Program.stop env ;;
     join).

(** The block under [if __name__ == "__main__"]; its value is the
    status [sys.exit] is called with. *)
Definition entry (fuel : nat) : M (Program.t Svc) Z :=
  try_finally
    (try_except (main fuel) is_Exception
       (fun e => log EXCEPTION ("Fatal error: " +:+ exn_msg e)))
    (log (LOG "PROGRAM") "Exiting.") ;;
  ret 0.

End WithService.

End Main.

(** * services/discord.py: the slash commands *)

(** [OllamaClient.web_search]; [search] stands for
    [self.online_agent.search]. *)
Module WebSearch.

Definition no_results : string := "No results found for user query.".

Definition web_search (search : string -> reply string) (query : string)
    : M OllamaClient.t string :=
  log (LOG "OLLAMA") ("Searching the web for: " +:+ query) ;;
  _ <- getattr OllamaClient.cls "online_agent" OllamaClient.online_agent ;;
  response <- build (search query) ;;
  if negb (truthy response) then ret no_results else ret response.

End WebSearch.

(** [len(s)], the number of code points of a text, on the text held as
    its UTF-8 bytes: the bytes that are no continuation bytes. *)
Definition is_continuation (a : ascii) : bool :=
  (128 <=? nat_of_ascii a)%nat && (nat_of_ascii a <? 192)%nat.

Fixpoint code_points (s : string) : nat :=
  match s with
  | EmptyString => O
  | String a s' => if is_continuation a then code_points s' else S (code_points s')
  end.

Module Commands.

(** What a handler hands to [send_message] or [followup.send]. *)
Inductive Outgoing : Type :=
  | Text (text : string)
  | Embed (title description : string) (color : Z).

Inductive Delivery : Type :=
  | AsResponse (text : string)           (* interaction.response.send_message *)
  | AsFollowup (o : Outgoing).           (* interaction.followup.send *)

(** [discord.Interaction]: whether its response has been used (by
    [defer] or [send_message]) and what the user has been sent. The
    platform accepts every request the protocol allows. *)
Record Interaction : Type := {
  responded : bool;
  sent : list Delivery;
}.

(** The objects a handler works on. The settings tree of
    [settings_manager] is one object: [OllamaClient.settings] is a
    reference to its [ollama] part, so the [settings] field of
    [provisioner] is not read; [on_provisioner] reads the shared tree. *)
Record World : Type := {
  settings : Settings.AppSettings;           (* settings_manager.settings *)
  file : option Settings.AppSettings;        (* what settings.json holds *)
  provisioner : OllamaClient.t;              (* self.ollama *)
  interaction : Interaction;
}.

Definition set_ollama (o : Settings.OllamaModel) (a : Settings.AppSettings)
    : Settings.AppSettings :=
  {| Settings.version := Settings.version a; Settings.debug := Settings.debug a;
     Settings.log_enabled := Settings.log_enabled a;
     Settings.discord := Settings.discord a;
     Settings.external_tokens := Settings.external_tokens a;
     Settings.ollama := o |}.

Definition set_temperature (x : Q) (o : Settings.OllamaModel) : Settings.OllamaModel :=
  {| Settings.api_url := Settings.api_url o; Settings.model := Settings.model o;
     Settings.temperature := x; Settings.max_tokens := Settings.max_tokens o;
     Settings.stream := Settings.stream o; Settings.options := Settings.options o |}.

Definition set_model (m : string) (o : Settings.OllamaModel) : Settings.OllamaModel :=
  {| Settings.api_url := Settings.api_url o; Settings.model := m;
     Settings.temperature := Settings.temperature o;
     Settings.max_tokens := Settings.max_tokens o;
     Settings.stream := Settings.stream o; Settings.options := Settings.options o |}.

Definition with_settings (o : Settings.OllamaModel) (s : OllamaClient.t) : OllamaClient.t :=
  OllamaClient.mk (OllamaClient.initialized s) o (OllamaClient.available_models s)
    (OllamaClient.running_models s) (OllamaClient.llm_axe s) (OllamaClient.client s)
    (OllamaClient.online_agent s) (OllamaClient.pdf_reader s).

(** The provisioner as a handler sees it: its settings are the shared
    ones. *)
Definition the_provisioner (w : World) : OllamaClient.t :=
  with_settings (Settings.ollama (settings w)) (provisioner w).

(** A method of the provisioner, called from a handler. *)
Definition on_provisioner {A} (m : M OllamaClient.t A) : M World A :=
  fun w =>
    let '(o, self, tr) := m (the_provisioner w) in
    (o,
     {| settings := set_ollama (OllamaClient.settings self) (settings w);
        file := file w; provisioner := self; interaction := interaction w |},
     tr).

Definition on_settings (f : Settings.OllamaModel -> Settings.OllamaModel) (w : World)
    : World :=
  {| settings := set_ollama (f (Settings.ollama (settings w))) (settings w);
     file := file w; provisioner := provisioner w; interaction := interaction w |}.

Definition on_interaction (f : Interaction -> Interaction) (w : World) : World :=
  {| settings := settings w; file := file w; provisioner := provisioner w;
     interaction := f (interaction w) |}.

(** [discord.InteractionResponded] and the [discord.NotFound] of a
    follow-up without a response; both are [Exception]s, and only their
    text is looked at. *)
Definition InteractionResponded : exn :=
  Exn PlainException "This interaction has already been responded to before".
Definition UnknownWebhook : exn :=
  Exn PlainException "404 Not Found (error code: 10015): Unknown Webhook".

Definition defer : M World unit :=
  used <- gets (fun w => responded (interaction w)) ;;
  if used then raise InteractionResponded
  else modify (on_interaction (fun i => {| responded := true; sent := sent i |})).

Definition send_message (text : string) : M World unit :=
  used <- gets (fun w => responded (interaction w)) ;;
  if used then raise InteractionResponded
  else modify (on_interaction
                 (fun i => {| responded := true; sent := sent i ++ [AsResponse text] |})).

Definition followup_send (o : Outgoing) : M World unit :=
  used <- gets (fun w => responded (interaction w)) ;;
  if negb used then raise UnknownWebhook
  else modify (on_interaction
                 (fun i => {| responded := responded i; sent := sent i ++ [AsFollowup o] |})).

(** [settings_manager.save()] and [settings_manager.reload()]; the class
    [SettingsManager] has no method [reload]. *)
Definition save : M World unit :=
  modify (fun w => {| settings := settings w; file := Some (settings w);
                      provisioner := provisioner w; interaction := interaction w |}) ;;
  emit EvSettingsSave.

Definition reload : M World unit :=
  raise (no_attribute "SettingsManager" "reload").

(** [not response] and [response["content"]] on what [chat] hands back:
    a message is a mapping with its two keys, a whole response has no key
    ["content"]. *)
Definition response_truthy (r : OllamaClient.chat_result) : bool := true.

Definition content_of (r : OllamaClient.chat_result) : M World string :=
  match r with
  | OllamaClient.Reply m => ret (content m)
  | OllamaClient.Response (Single _) => raise (Exn KeyError "'content'")
  | OllamaClient.Response (Chunks _) =>
      raise (Exn TypeError "'generator' object is not subscriptable")
  end.

Definition embed_color : Z := 15844367.   (* 0xF1C40F *)

Section Handlers.
Variable be : Backend.
Variable search : string -> reply string.
Variable float_str : Q -> string.        (* f"{temperature}" *)

(** The tail shared by [chat_command] and [web_search_command]. *)
Definition send_by_length (response : string) : M World unit :=
  if (2000 <? code_points response)%nat
  then log (LOG "DISCORD") "Response is too long, sending as embed" ;;
       followup_send (Embed "Ragnar's response" response embed_color)
  else log (LOG "DISCORD") "Response is short, sending as message" ;;
       followup_send (Text response).

Definition chat_command (user message : string) : M World unit :=
  log (LOG "DISCORD") (user +:+ ": " +:+ message) ;;
  defer ;;
  response <- on_provisioner
                (OllamaClient.chat be Settings.OllamaModel_num_ctx
                   [{| role := "user"; content := message |}] None None) ;;
  if negb (response_truthy response)
  then log ERROR "No response from Ollama" ;;
       followup_send (Text "Sorry, I encountered an error processing your message.")
  else
    text <- content_of response ;;
    send_by_length text.

Definition ps_command : M World unit :=
  available_models <- on_provisioner (OllamaClient.list_models be) ;;
  send_message ("Available models: " +:+ join ", " available_models).

Definition set_temperature_command (temperature : Q) : M World unit :=
  previous_temperature <- gets (fun w => Settings.temperature (Settings.ollama (settings w))) ;;
  modify (on_settings (set_temperature temperature)) ;;
  save ;;
  reload ;;
  send_message ("Temperature set to " +:+ float_str temperature
                +:+ " (was " +:+ float_str previous_temperature +:+ ")").

(** [interaction.channel.typing()] shows nothing that is kept here. *)
Definition set_model_command (model : string) : M World unit :=
  defer ;;
  try_except
    (available_models <- on_provisioner (OllamaClient.list_models be) ;;
     if negb (bool_decide (model ∈ available_models))
     then send_message ("Model '" +:+ model +:+ "' not found. Available models: "
                        +:+ join ", " available_models)
     else
       modify (on_settings (set_model model)) ;;
       save ;;
       reload ;;
       followup_send (Text ("Model set to " +:+ model)))
    is_Exception
    (fun e =>
       log ERROR ("Error setting model: " +:+ exn_msg e) ;;
       followup_send (Text ("Unable to set model: " +:+ exn_msg e))).

Definition web_search_command (query : string) : M World unit :=
  defer ;;
  response <- on_provisioner (WebSearch.web_search search query) ;;
  send_by_length response.

End Handlers.

(** An interaction as a handler receives it. *)
Definition fresh : Interaction := {| responded := false; sent := [] |}.

(** The follow-ups among what was sent. *)
Definition followups (i : Interaction) : list Outgoing :=
  omap (fun d => match d with AsFollowup o => Some o | AsResponse _ => None end) (sent i).

(** The text a delivery shows the user. *)
Definition shown (o : Outgoing) : string :=
  match o with Text t => t | Embed _ d _ => d end.

(** The chat requests of a trace. *)
Definition requests (tr : trace) : list ChatRequest :=
  omap (fun e => match e with EvChat req => Some req | _ => None end) tr.

Definition begins_with (p s : string) : Prop := exists rest, s = p +:+ rest.

End Commands.

(** * settings/__init__.py *)

Module Version.

Definition quote : ascii := ascii_of_nat 34.
Definition newline : ascii := ascii_of_nat 10.

(** The fixed part the pattern begins with: [version = ] and a quote. *)
Definition opening : string := "version = " +:+ String quote "".

(** [s] without [p], when [s] starts with [p]. *)
Fixpoint strip (p s : string) : option string :=
  match p, s with
  | EmptyString, _ => Some s
  | String a p', String b s' => if Ascii.eqb a b then strip p' s' else None
  | String _ _, EmptyString => None
  end.

(** What the group [(.+)] captures when the group and the closing quote
    are matched at the start of [s]: the longest [x], of one character
    at least and without a newline, that a quote follows. *)
Fixpoint group (s : string) : option string :=
  match s with
  | EmptyString => None
  | String c s' =>
      if Ascii.eqb c newline then None
      else
        match group s' with
        | Some x => Some (String c x)
        | None =>
            match s' with
            | String q _ => if Ascii.eqb q quote then Some (String c "") else None
            | EmptyString => None
            end
        end
  end.

(** The match of the whole pattern at the start of [s]. *)
Definition match_here (s : string) : option string :=
  match strip opening s with
  | Some rest => group rest
  | None => None
  end.

(** [re.search]: the match at the leftmost position that has one. *)
Fixpoint search (s : string) : option string :=
  match match_here s with
  | Some v => Some v
  | None =>
      match s with
      | EmptyString => None
      | String _ s' => search s'
      end
  end.

(** [get_version]; [pyproject_toml] is what reading the file gives. *)
Definition get_version (pyproject_toml : reply string) : reply string :=
  match pyproject_toml with
  | inl e => inl e
  | inr text =>
      match search text with
      | Some version => inr version
      | None => inl (Exn ValueError "Could not find version in pyproject.toml")
      end
  end.

(** Whether the character occurs in the text. *)
Fixpoint has (c : ascii) (s : string) : bool :=
  match s with
  | EmptyString => false
  | String a s' => Ascii.eqb a c || has c s'
  end.

End Version.

(** * utils/logger.py: log_cleaner *)

Module LogCleaner.

(** An entry of the logs directory: its name, what [stat()] gives (the
    time since the last modification at [now], in microseconds, and the
    size in bytes) and what [unlink()] does. *)
Record LogFile : Type := {
  file_name : string;
  stat : reply (Z * Z);
  unlink_error : option exn;
}.

Definition ends_with (suffix s : string) : bool :=
  (String.length suffix <=? String.length s)%nat
  && String.eqb
       (substring (String.length s - String.length suffix) (String.length suffix) s)
       suffix.

(** [glob("ragnar-*.log")] *)
Definition is_log_name (name : string) : bool :=
  String.prefix "ragnar-" name && ends_with ".log" name
  && (String.length "ragnar-.log" <=? String.length name)%nat.

Definition eight_hours : Z := 8 * 3600 * 1000000.

(** [age.total_seconds() / 3600 > 8 or st_size == 0] *)
Definition expired (st : Z * Z) : bool := (eight_hours <? st.1) || (st.2 =? 0).

(** The list comprehension. *)
Fixpoint cleaned_files (files : list LogFile) : reply (list LogFile) :=
  match files with
  | [] => inr []
  | log_file :: rest =>
      if is_log_name (file_name log_file) then
        match stat log_file with
        | inl e => inl e
        | inr st =>
            match cleaned_files rest with
            | inl e => inl e
            | inr cleaned => inr (if expired st then log_file :: cleaned else cleaned)
            end
        end
      else cleaned_files rest
  end.

Definition named (name : string) (f : LogFile) : bool := String.eqb (file_name f) name.

(** [log_file.unlink()], the directory being the state. *)
Definition unlink (log_file : LogFile) : M (list LogFile) unit :=
  match unlink_error log_file with
  | Some e => raise e
  | None => modify (List.filter (fun f => negb (named (file_name log_file) f)))
  end.

Definition count (n : nat) : string := NilZero.string_of_uint (Nat.to_uint n).

Definition completed (n : nat) : event :=
  EvLog (LOG "COMPLETED")
    ("Cleaned up " +:+ count n
     +:+ " old log(s) that were older than 8 hours, empty, or less than 1MB.").

Definition log_cleaner : M (list LogFile) unit :=
  try_except
    (files <- get ;;
     cleaned <- build (cleaned_files files) ;;
     for_each cleaned unlink ;;
     match cleaned with
     | [] => ret tt
     | _ :: _ => emit (completed (List.length cleaned))
     end)
    is_Exception
    (fun e => log EXCEPTION ("Failed to clean old logs: " +:+ exn_msg e)).

(** The files the cleaner is meant for. *)
Definition doomed (f : LogFile) : bool :=
  is_log_name (file_name f)
  && match stat f with inr st => expired st | inl _ => false end.

End LogCleaner.

(** * settings/models.py: the validator of [api_url] *)

Module ApiUrl.

(** [needle in s] *)
Fixpoint occurs (needle s : string) : bool :=
  String.prefix needle s
  || match s with
     | EmptyString => false
     | String _ s' => occurs needle s'
     end.

(** [RagnarException("Ollama is not running")], an [Exception]. *)
Definition not_running : exn := Exn PlainException "Ollama is not running".

(** [OllamaModel.validate_api_url]; [get] stands for [requests.get] and
    gives the text of the response. *)
Definition validate_api_url (get : string -> reply string) (v : string) : reply string :=
  let v := if negb (String.prefix "http://" v) then "http://" +:+ v else v in
  match get v with
  | inl e => inl e
  | inr ping =>
      if negb (occurs "Ollama is running" ping) then inl not_running
      else inr v
  end.

End ApiUrl.

(** * More sample surroundings *)

Module Samples.

Definition env : Env := Sample.surroundings (Sample.serving [Sample.m1]).

(** A backend with an empty listing whose poll of the resident models
    fails. *)
Definition stale_backend : Backend :=
  {| OllamaChat_new := None; Client_new := None;
     OnlineAgent_new := None; PdfReader_new := None;
     list_reply := inr (Some []); ps_reply := inl Sample.oops;
     pull_reply := fun _ => None; generate_reply := fun _ _ => None;
     chat_reply := fun _ => inl Sample.oops |}.

(** A backend that lists [m1] and reports it resident, and the
    orchestrator [Program()] returns on it. *)
Definition resident : PsModel :=
  {| ps_name := "m1"; ps_model := "m1"; ps_size := "2019393189";
     ps_digest := "a80c4f17acd5"; ps_parent_model := "N/A"; ps_format := "gguf";
     ps_family := "llama"; ps_families := ["llama"]; ps_parameter_size := "3.2B";
     ps_quantization_level := "Q4_K_M"; ps_expires_at := "2024-11-02T10:16:12Z";
     ps_size_vram := "2019393189" |}.

Definition resident_backend : Backend :=
  {| OllamaChat_new := None; Client_new := None;
     OnlineAgent_new := None; PdfReader_new := None;
     list_reply := inr (Some [Sample.m1]); ps_reply := inr [resident];
     pull_reply := fun _ => None; generate_reply := fun _ _ => None;
     chat_reply := fun _ => inl Sample.oops |}.

Definition loaded_program : Program.t DiscordService.t :=
  Eval vm_compute in
    match Program.new (Sample.surroundings resident_backend) with
    | (Ret p, _) => p
    | _ => Sample.waiting_program
    end.

(** A backend that streams its answers, and a provisioner configured to
    stream. *)
Definition chunks : list Message :=
  [{| role := "assistant"; content := "h" |}; {| role := "assistant"; content := "i" |}].

Definition streaming_backend : Backend :=
  {| OllamaChat_new := None; Client_new := None;
     OnlineAgent_new := None; PdfReader_new := None;
     list_reply := inr (Some [Sample.m1]); ps_reply := inr [];
     pull_reply := fun _ => None; generate_reply := fun _ _ => None;
     chat_reply := fun _ => inr (Chunks chunks) |}.

Definition streaming_provisioner : OllamaClient.t :=
  Commands.with_settings
    {| Settings.api_url := "http://localhost:11434"; Settings.model := "llama3.2";
       Settings.temperature := 8 # 10; Settings.max_tokens := 32000;
       Settings.stream := true; Settings.options := Settings.default_options |}
    Sample.provisioner.

Definition hello : list Message := [{| role := "user"; content := "hello" |}].

(** A backend that answers with 1001 dashes of three bytes each. *)
Definition em_dash : string :=
  String (ascii_of_nat 226) (String (ascii_of_nat 128) (String (ascii_of_nat 148) "")).

Fixpoint dashes (n : nat) : string :=
  match n with
  | O => ""
  | S n' => em_dash +:+ dashes n'
  end.

Definition dash_backend : Backend :=
  {| OllamaChat_new := None; Client_new := None;
     OnlineAgent_new := None; PdfReader_new := None;
     list_reply := inr (Some [Sample.m1]); ps_reply := inr [];
     pull_reply := fun _ => None; generate_reply := fun _ _ => None;
     chat_reply := fun _ => inr (Single {| role := "assistant"; content := dashes 1001 |}) |}.

(** The objects of a handler when a command arrives. *)
Definition world : Commands.World :=
  {| Commands.settings := Settings.default; Commands.file := None;
     Commands.provisioner := Sample.provisioner;
     Commands.interaction := Commands.fresh |}.

Definition search (query : string) : reply string := inr "".

(** A server that answers as Ollama does. *)
Definition ping (url : string) : reply string := inr "Ollama is running".

(** A pyproject.toml. *)
Definition pyproject_toml : string :=
  "[tool.poetry]" +:+ nl +:+ "name = ragnar" +:+ nl
  +:+ Version.opening +:+ "0.1.0" +:+ String Version.quote nl.

(** A logs directory: a log of nine hours, a log of one hour, and
    notes. *)
Definition hour : Z := 3600 * 1000000.

Definition logs : list LogCleaner.LogFile :=
  [ {| LogCleaner.file_name := "ragnar-2024-11-01.log";
       LogCleaner.stat := inr (9 * hour, 2048); LogCleaner.unlink_error := None |};
    {| LogCleaner.file_name := "ragnar-2024-11-02.log";
       LogCleaner.stat := inr (1 * hour, 1); LogCleaner.unlink_error := None |};
    {| LogCleaner.file_name := "notes.txt";
       LogCleaner.stat := inr (100 * hour, 0); LogCleaner.unlink_error := None |} ].

End Samples.

(** * Properties *)

(** ** Running computations *)

Lemma bind_run {St A B} (m : M St A) (k : A -> M St B) s a s1 t1 :
  m s = (Ret a, s1, t1) ->
  bind m k s = (outcome_of (k a s1), state_of (k a s1), t1 ++ trace_of (k a s1)).
Proof.
  intros E. unfold bind. rewrite E. destruct (k a s1) as [[o s2] t2]. reflexivity.
Qed.

Lemma bind_raise {St A B} (m : M St A) (k : A -> M St B) s e s1 t1 :
  m s = (Raise e, s1, t1) -> bind m k s = (Raise e, s1, t1).
Proof. intros E. unfold bind. rewrite E. reflexivity. Qed.

Lemma bind_out_of_fuel {St A B} (m : M St A) (k : A -> M St B) s s1 t1 :
  m s = (OutOfFuel, s1, t1) -> bind m k s = (OutOfFuel, s1, t1).
Proof. intros E. unfold bind. rewrite E. reflexivity. Qed.

Lemma actions_app (t1 t2 : trace) : actions (t1 ++ t2) = actions t1 ++ actions t2.
Proof. unfold actions. apply filter_app. Qed.

Lemma actions_log lvl msg (t : trace) : actions (EvLog lvl msg :: t) = actions t.
Proof. reflexivity. Qed.

Lemma actions_cons e (t : trace) :
  is_log e = false -> actions (e :: t) = e :: actions t.
Proof. intros E. unfold actions. rewrite filter_cons_True; [reflexivity|exact E]. Qed.

(** ** The listing loop of the provisioner *)

Lemma set_available_models_id self :
  OllamaClient.set_available_models (OllamaClient.available_models self) self = self.
Proof. destruct self; reflexivity. Qed.

Lemma add_available_run model self :
  exists tr,
    OllamaClient.add_available model self =
      (Ret tt,
       OllamaClient.set_available_models
         (add_if_absent (OllamaClient.available_models self) model) self,
       tr)
    /\ actions tr = [].
Proof.
  unfold OllamaClient.add_available, add_if_absent, bind, gets, modify, log, emit, ret.
  destruct (ModelInfo.contains _ _); simpl.
  - exists []. rewrite set_available_models_id. split; reflexivity.
  - eexists. split; reflexivity.
Qed.

Lemma for_each_add_available models : forall self,
  exists tr,
    for_each models OllamaClient.add_available self =
      (Ret tt,
       OllamaClient.set_available_models
         (collect (OllamaClient.available_models self) models) self,
       tr)
    /\ actions tr = [].
Proof.
  induction models as [|model models IH]; intros self; simpl.
  - exists []. rewrite set_available_models_id. split; reflexivity.
  - destruct (add_available_run model self) as (t1 & E1 & A1).
    destruct (IH (OllamaClient.set_available_models
                    (add_if_absent (OllamaClient.available_models self) model) self))
      as (t2 & E2 & A2).
    exists (t1 ++ t2). split.
    + rewrite (bind_run _ _ _ _ _ _ E1). rewrite E2. simpl.
      destruct self; reflexivity.
    + rewrite actions_app, A1, A2. reflexivity.
Qed.

Lemma add_if_absent_head a l model :
  exists l', add_if_absent (a :: l) model = a :: l'.
Proof.
  unfold add_if_absent. destruct (ModelInfo.contains _ _); simpl; eauto.
Qed.

Lemma collect_head models : forall a l,
  exists l', collect (a :: l) models = a :: l'.
Proof.
  induction models as [|m models IH]; intros a l; simpl.
  - eauto.
  - destruct (add_if_absent_head a l m) as [l' ->]. apply IH.
Qed.

Lemma collect_first first rest :
  exists l', collect [] (first :: rest) = OllamaClient._create_model_info first :: l'.
Proof. simpl. apply collect_head. Qed.

(** ** The constructor of the provisioner *)

Lemma connect_ok be self :
  constructs be -> OllamaClient.connect be self = (Ret tt, connected self, []).
Proof.
  intros (H1 & H2 & H3 & H4).
  unfold OllamaClient.connect, try_except, bind, construct, modify, getattr.
  rewrite H1, H2, H3, H4. reflexivity.
Qed.

Lemma poll_available_ok be self models :
  OllamaClient.llm_axe self = Some tt ->
  list_reply be = inr (Some models) ->
  exists tr,
    OllamaClient.poll_available be self =
      (Ret (last models),
       OllamaClient.set_available_models
         (collect (OllamaClient.available_models self) models) self,
       EvList :: tr)
    /\ actions tr = [].
Proof.
  intros Hax Hlist.
  destruct (for_each_add_available models self) as (tr & E & A).
  exists tr. split; [|exact A].
  unfold OllamaClient.poll_available, bind, getattr, call, ret.
  rewrite Hax, Hlist, E. simpl. rewrite app_nil_r. reflexivity.
Qed.

Lemma poll_available_falsy be self :
  OllamaClient.llm_axe self = Some tt ->
  list_reply be = inr None ->
  OllamaClient.poll_available be self = (Ret None, self, [EvList]).
Proof.
  intros Hax Hlist.
  unfold OllamaClient.poll_available, bind, getattr, call, ret.
  rewrite Hax, Hlist. reflexivity.
Qed.

Lemma list_running_models_none be self c :
  OllamaClient.client self = Some c ->
  ps_reply be = inr [] ->
  OllamaClient.list_running_models be self =
    (Ret OllamaClient.no_models_loaded, self, [EvPs]).
Proof.
  intros Hc Hps.
  unfold OllamaClient.list_running_models, try_except, bind, getattr, call, ret.
  rewrite Hc, Hps. reflexivity.
Qed.

(** With no resident model and a non-empty [available_models], the
    bootstrap loads the first entry and leaves the object as it was. *)
Lemma bootstrap_loads_first be self c first rest model :
  OllamaClient.client self = Some c ->
  ps_reply be = inr [] ->
  OllamaClient.available_models self = first :: rest ->
  generate_reply be (ModelInfo.name first) None = None ->
  exists tr,
    OllamaClient.bootstrap be model self = (Ret tt, self, tr)
    /\ actions tr = [EvPs; EvGenerate (ModelInfo.name first) None].
Proof.
  intros Hc Hps Hav Hgen.
  unfold OllamaClient.bootstrap.
  rewrite (bind_run _ _ _ _ _ _ (list_running_models_none be self c Hc Hps)).
  cbn [truthy OllamaClient.no_models_loaded].
  unfold OllamaClient.load_model, bind, log, emit, gets, getattr, call, answer.
  repeat (progress (cbn; rewrite ?Hav, ?Hc, ?Hgen)).
  eexists. split; reflexivity.
Qed.

(** With no resident model and an empty [available_models], it pulls the
    fallback and loads it. *)
Lemma bootstrap_pulls_fallback be self c model :
  OllamaClient.client self = Some c ->
  ps_reply be = inr [] ->
  OllamaClient.available_models self = [] ->
  pull_reply be OllamaClient.fallback_model = None ->
  generate_reply be OllamaClient.fallback_model None = None ->
  exists tr,
    OllamaClient.bootstrap be model self = (Ret tt, self, tr)
    /\ actions tr = [EvPs; EvPull OllamaClient.fallback_model;
                     EvGenerate OllamaClient.fallback_model None].
Proof.
  intros Hc Hps Hav Hpull Hgen.
  unfold OllamaClient.bootstrap.
  rewrite (bind_run _ _ _ _ _ _ (list_running_models_none be self c Hc Hps)).
  cbn [truthy OllamaClient.no_models_loaded].
  unfold OllamaClient.load_model, OllamaClient.pull_model, try_except,
    bind, log, emit, gets, getattr, call, answer.
  repeat (progress (cbn; rewrite ?Hav, ?Hc, ?Hpull, ?Hgen)).
  eexists. split; reflexivity.
Qed.

Lemma new_run be cfg models tr' :
  constructs be ->
  list_reply be = inr (Some models) ->
  OllamaClient.bootstrap be (last models) (polled cfg models)
    = (Ret tt, polled cfg models, tr') ->
  exists tr,
    OllamaClient.new be cfg = (Ret (polled cfg models), tr)
    /\ actions tr = EvList :: actions tr'.
Proof.
  intros Hc Hlist Hboot.
  destruct (poll_available_ok be (connected (OllamaClient.blank cfg)) models
              eq_refl Hlist) as (t1 & Epoll & A1).
  change (OllamaClient.set_available_models _ _) with (polled cfg models) in Epoll.
  unfold OllamaClient.new, OllamaClient.__init__.
  rewrite (bind_run _ _ _ _ _ _ (connect_ok be _ Hc)).
  rewrite (bind_run _ _ _ _ _ _ Epoll).
  rewrite Hboot. cbn [outcome_of state_of trace_of fst snd app].
  eexists. split; [reflexivity|].
  change (EvList :: t1 ++ tr') with ([EvList] ++ t1 ++ tr').
  rewrite !actions_app, A1. reflexivity.
Qed.

(** C1 (the code departs from the claim). Two entries of the backend's
    listing that carry the same digest under different names do not
    collapse: the membership test of the constructor compares all the
    fields, so [available_models] keeps both, in the order of the
    listing. *)
Theorem C1_same_digest_entries_are_both_kept be cfg (a b : RawModel) :
  constructs be ->
  list_reply be = inr (Some [a; b]) ->
  ps_reply be = inr [] ->
  generate_reply be (raw_name a) None = None ->
  raw_digest a = raw_digest b ->
  raw_name a <> raw_name b ->
  exists self tr,
    OllamaClient.new be cfg = (Ret self, tr)
    /\ OllamaClient.available_models self =
         [OllamaClient._create_model_info a; OllamaClient._create_model_info b]
    /\ map ModelInfo.digest (OllamaClient.available_models self) =
         [raw_digest a; raw_digest a].
Proof.
  intros Hc Hlist Hps Hgen Hdig Hname.
  assert (Hcol : collect [] [a; b] =
            [OllamaClient._create_model_info a; OllamaClient._create_model_info b]).
  { unfold collect, add_if_absent. cbn.
    unfold ModelInfo.eqb. rewrite bool_decide_eq_false_2; [reflexivity|].
    intros E. apply Hname. symmetry.
    exact (f_equal ModelInfo.name E). }
  destruct (bootstrap_loads_first be (polled cfg [a; b]) OllamaClient.AxeClient
              (OllamaClient._create_model_info a) [OllamaClient._create_model_info b]
              (last [a; b]) eq_refl Hps)
    as (tr' & Eboot & _).
  { unfold polled. cbn [OllamaClient.available_models OllamaClient.set_available_models].
    exact Hcol. }
  { exact Hgen. }
  destruct (new_run be cfg [a; b] tr' Hc Hlist Eboot) as (tr & Enew & _).
  exists (polled cfg [a; b]), tr. split; [exact Enew|].
  unfold polled. cbn [OllamaClient.available_models OllamaClient.set_available_models].
  rewrite Hcol. split; [reflexivity|]. cbn. rewrite Hdig. reflexivity.
Qed.

(** C2 (the code departs from the claim). With no resident model and a
    non-empty listing, the constructor returns having asked the backend to
    load the first listed model and nothing else (no pull), but it does
    not record that model: [running_models] is still empty. *)
Theorem C2_first_model_loaded_but_not_recorded be cfg (first : RawModel) rest :
  constructs be ->
  list_reply be = inr (Some (first :: rest)) ->
  ps_reply be = inr [] ->
  generate_reply be (raw_name first) None = None ->
  exists self tr,
    OllamaClient.new be cfg = (Ret self, tr)
    /\ actions tr = [EvList; EvPs; EvGenerate (raw_name first) None]
    /\ OllamaClient.running_models self = [].
Proof.
  intros Hc Hlist Hps Hgen.
  destruct (collect_first first rest) as [l' Hcol].
  destruct (bootstrap_loads_first be (polled cfg (first :: rest)) OllamaClient.AxeClient
              (OllamaClient._create_model_info first) l'
              (last (first :: rest)) eq_refl Hps)
    as (tr' & Eboot & A').
  { unfold polled. cbn [OllamaClient.available_models OllamaClient.set_available_models].
    exact Hcol. }
  { exact Hgen. }
  destruct (new_run be cfg (first :: rest) tr' Hc Hlist Eboot) as (tr & Enew & A).
  exists (polled cfg (first :: rest)), tr. split; [exact Enew|]. split.
  - rewrite A, A'. reflexivity.
  - reflexivity.
Qed.

(** C3. With no resident model and no available model, the constructor
    returns having pulled exactly one model, the fallback ["llama3.2"],
    and then loaded it. *)
Theorem C3_fallback_pulled_then_loaded be cfg listing :
  constructs be ->
  list_reply be = inr listing ->
  listing = None \/ listing = Some [] ->
  ps_reply be = inr [] ->
  pull_reply be "llama3.2" = None ->
  generate_reply be "llama3.2" None = None ->
  exists self tr,
    OllamaClient.new be cfg = (Ret self, tr)
    /\ OllamaClient.initialized self = true
    /\ OllamaClient.available_models self = []
    /\ actions tr = [EvList; EvPs; EvPull "llama3.2"; EvGenerate "llama3.2" None].
Proof.
  intros Hc Hlist Hzero Hps Hpull Hgen.
  destruct Hzero as [-> | ->].
  - (* the listing has no truth value: the loop is skipped *)
    set (self := connected (OllamaClient.blank cfg)).
    destruct (bootstrap_pulls_fallback be self OllamaClient.AxeClient None
                eq_refl Hps eq_refl Hpull Hgen) as (tr' & Eboot & A').
    unfold OllamaClient.new, OllamaClient.__init__.
    rewrite (bind_run _ _ _ _ _ _ (connect_ok be _ Hc)).
    rewrite (bind_run _ _ _ _ _ _ (poll_available_falsy be self eq_refl Hlist)).
    rewrite Eboot. cbn.
    exists self, (EvList :: tr'). repeat split.
    change (EvList :: tr') with ([EvList] ++ tr').
    rewrite actions_app, A'. reflexivity.
  - destruct (bootstrap_pulls_fallback be (polled cfg []) OllamaClient.AxeClient
                (last []) eq_refl Hps eq_refl Hpull Hgen) as (tr' & Eboot & A').
    destruct (new_run be cfg [] tr' Hc Hlist Eboot) as (tr & Enew & A).
    exists (polled cfg []), tr. repeat split; [exact Enew|].
    rewrite A, A'. reflexivity.
Qed.

(** ** chat *)

(** C4. Whatever the caller's [stream] flag and the configured default,
    [chat] with a non-empty [tools] sends no request with streaming on;
    and when the call gets as far as the backend (the client is
    initialized and the settings object answers [num_ctx]), the one
    request it sends carries the tools, the messages, and [stream=False]. *)
Theorem C4_tools_force_streaming_off be settings_num_ctx messages stream
    (tool : Tool) (rest : list Tool) (self : OllamaClient.t) :
  never_streams
    (trace_of (OllamaClient.chat be settings_num_ctx messages stream
                 (Some (tool :: rest)) self))
  /\ (forall c n,
        OllamaClient.initialized self = true ->
        OllamaClient.client self = Some c ->
        settings_num_ctx (OllamaClient.settings self) = Some n ->
        exists req,
          actions (trace_of (OllamaClient.chat be settings_num_ctx messages stream
                               (Some (tool :: rest)) self)) = [EvChat req]
          /\ req_stream req = false
          /\ req_tools req = Some (tool :: rest)
          /\ req_messages req = messages).
Proof.
  unfold never_streams, OllamaClient.chat, OllamaClient.list_truthy, try_except,
    OllamaClient.message_of, bind, gets, getattr, call, log, emit, raise, ret, trace_of.
  split.
  - destruct (OllamaClient.initialized self); cbn; [|constructor].
    destruct (OllamaClient.client self); cbn.
    2: { repeat constructor; intros; discriminate. }
    destruct (settings_num_ctx (OllamaClient.settings self)); cbn.
    2: { repeat constructor; intros; discriminate. }
    destruct (chat_reply be _) as [e | [m | chunks]]; cbn;
      repeat (destruct (is_ResponseError _) || destruct (OllamaClient.flag_truthy _); cbn);
      repeat constructor; intros req E; try discriminate;
      injection E as <-; reflexivity.
  - intros c n Hinit Hc Hn. rewrite Hinit. cbn. rewrite Hc. cbn. rewrite Hn. cbn.
    eexists. split.
    { destruct (chat_reply be _) as [e | [m | chunks]]; cbn;
        repeat (destruct (is_ResponseError _) || destruct (OllamaClient.flag_truthy _); cbn);
        reflexivity. }
    repeat split.
Qed.

(** ** The shutdown sequence of the orchestrator *)

Lemma unloads_actions be oc models :
  exists n,
    actions (unloads be oc models).2 = map unload_event (take n models)
    /\ ((unloads be oc models).1 = Ret tt -> take n models = models).
Proof.
  induction models as [|model rest (n & IHa & IHr)]; cbn.
  - exists O. split; reflexivity.
  - unfold unload_outcome, unload_trace.
    destruct (OllamaClient.client oc) as [c|]; cbn.
    + destruct (generate_reply be (ModelInfo.name model) (Some 0)); cbn.
      * exists 1%nat. split; [reflexivity|discriminate].
      * destruct (unloads be oc rest) as [o tr]; cbn in *.
        exists (S n). cbn [take map].
        rewrite actions_log, actions_cons, IHa by reflexivity. split; [reflexivity|].
        intros E. rewrite (IHr E). reflexivity.
    + exists O. split; [reflexivity|discriminate].
Qed.

Section Orchestrator.
Context {Svc : Type} `{Service Svc}.
Variable env : Env.

Implicit Types p : Program.t Svc.

Lemma set_ollama_id p : Program.set_ollama (Program.ollama p) p = p.
Proof. destruct p; reflexivity. Qed.

Lemma unload_run model p :
  Program.unload env model p =
    (unload_outcome (backend env) (Program.ollama p) model, p,
     unload_trace (Program.ollama p) model).
Proof.
  unfold Program.unload, Program.on_ollama, OllamaClient.unload_model,
    unload_outcome, unload_trace, bind, log, emit, getattr, call, answer.
  destruct (OllamaClient.client (Program.ollama p)); cbn.
  - destruct (generate_reply _ _ _); cbn; rewrite set_ollama_id; reflexivity.
  - rewrite set_ollama_id. reflexivity.
Qed.

Lemma for_each_unload models p :
  for_each models (Program.unload env) p =
    ((unloads (backend env) (Program.ollama p) models).1, p,
     (unloads (backend env) (Program.ollama p) models).2).
Proof.
  induction models as [|model rest IH]; cbn; [reflexivity|].
  unfold bind. rewrite unload_run, IH.
  destruct (unload_outcome _ _ _); try reflexivity.
  destruct (unloads _ _ rest); reflexivity.
Qed.

(** The loop over the services touches nothing but the services, and
    only stops them. *)
Lemma each_stop_service_events (svcs : list (string * Svc)) :
  Forall (fun e => in_service_stop e = true)
    (trace_of (Program.each_service Program.stop_service svcs)).
Proof.
  induction svcs as [|[key s] rest IH]; cbn; [constructor|].
  unfold Program.stop_service at 1, Program.in_service.
  destruct (svc_initialized s); cbn.
  - destruct (svc_stop s) as [[o s'] tr].
    assert (Hin : Forall (fun e => in_service_stop e = true)
                    (EvServiceStop key :: map (EvService key) tr)).
    { constructor; [reflexivity|]. apply Forall_forall.
      intros e He. apply list_elem_of_In, in_map_iff in He as (e' & <- & _).
      reflexivity. }
    destruct o; try exact Hin.
    destruct (Program.each_service _ rest) as [[o' rest'] tr'].
    unfold trace_of in *; cbn in *.
    change (EvServiceStop key :: map (EvService key) tr ++ tr')
      with ((EvServiceStop key :: map (EvService key) tr) ++ tr').
    apply Forall_app. split; assumption.
  - destruct (Program.each_service _ rest) as [[o' rest'] tr'].
    exact IH.
Qed.

Lemma actions_service_events (tr : trace) :
  Forall (fun e => in_service_stop e = true) tr -> actions tr = tr.
Proof.
  induction 1 as [|e tr He _ IH]; [reflexivity|].
  unfold actions in *. rewrite filter_cons, IH.
  destruct e; cbn in *; try discriminate; reflexivity.
Qed.

Lemma scheduler_shutdown_run p :
  exists p' tr,
    Program.scheduler_shutdown p = (Ret tt, p', tr)
    /\ scheduler_stopped p'
    /\ (tr = [] \/ tr = [EvSchedulerShutdown false])
    /\ (scheduler_stopped p -> p' = p /\ tr = [])
    /\ Program.initialized p' = Program.initialized p
    /\ Program.running p' = Program.running p
    /\ Program.ollama p' = Program.ollama p
    /\ Program.services p' = Program.services p.
Proof.
  unfold Program.scheduler_shutdown, scheduler_stopped, bind, gets, modify, emit, ret.
  destruct p as [i r st oc sv d ex [[[] jobs]|] th]; cbn;
    eexists _, _; (split; [reflexivity|]); cbn; repeat split; auto; discriminate.
Qed.

Lemma stop_not_initialized p :
  Program.initialized p = false ->
  Program.stop env p = (Ret tt, Program.set_running false p, []).
Proof.
  intros E. unfold Program.stop, bind, modify, gets, ret. cbn. rewrite E. reflexivity.
Qed.

Lemma stop_initialized p :
  Program.initialized p = true ->
  Program.stop env p =
    let p0 := Program.set_running false p in
    let us := unloads (backend env) (Program.ollama p)
                (OllamaClient.running_models (Program.ollama p)) in
    match us.1 with
    | Ret _ => (outcome_of (stop_tail p0), state_of (stop_tail p0),
                us.2 ++ trace_of (stop_tail p0))
    | Raise e => (Raise e, p0, us.2)
    | OutOfFuel => (OutOfFuel, p0, us.2)
    end.
Proof.
  intros Hinit.
  unfold Program.stop, bind at 1 2 3 4, modify, gets.
  cbn [Program.set_running Program.initialized Program.ollama negb].
  rewrite Hinit. cbn [negb]. rewrite for_each_unload.
  cbn [Program.set_running Program.ollama].
  destruct (unloads _ _ _) as [o1 t1]. cbn [fst snd].
  destruct o1 as [[]| e1 |]; cbn [app]; try reflexivity.
  fold stop_tail. destruct (stop_tail _) as [[o s] t]. reflexivity.
Qed.

Lemma stop_tail_run p :
  exists svc_events sched_events,
    actions (trace_of (stop_tail p)) = svc_events ++ sched_events
    /\ Forall (fun e => in_service_stop e = true) svc_events
    /\ Forall (fun e => is_scheduler_shutdown e = true) sched_events.
Proof.
  unfold stop_tail, bind at 1, Program.on_services at 1.
  destruct (Program.services p) as [svcs|].
  2: { exists [], []. repeat split; constructor. }
  pose proof (each_stop_service_events svcs) as Hsv.
  destruct (Program.each_service Program.stop_service svcs) as [[o2 svcs'] t2].
  unfold trace_of in Hsv. cbn [snd] in Hsv.
  destruct o2 as [[]| e2 |].
  2,3: exists t2, []; unfold trace_of; cbn [fst snd];
       rewrite app_nil_r, (actions_service_events _ Hsv);
       repeat split; auto; constructor.
  unfold bind at 1.
  match goal with |- context [Program.scheduler_shutdown ?q] =>
    destruct (scheduler_shutdown_run q) as (p3 & t3 & E3 & _ & Ht3 & _); rewrite E3
  end.
  exists t2, t3. unfold log, emit, trace_of. cbn [fst snd app].
  rewrite !actions_app, (actions_service_events _ Hsv).
  split; [|split; [exact Hsv|]].
  - destruct Ht3 as [-> | ->]; reflexivity.
  - destruct Ht3 as [-> | ->]; repeat constructor.
Qed.

(** The body of [stop()] behind its guard: on an orchestrator that is
    initialized the effects come in three blocks, the unload requests,
    one per entry of [running_models] and in its order (all of them
    when [stop] returns, a prefix when a step raises), then the stops
    of the services, then the shutdown of the scheduler. *)
Lemma initialized_shutdown_is_ordered p :
  Program.initialized p = true ->
  exists n svc_events sched_events,
    actions (trace_of (Program.stop env p)) =
      map unload_event (take n (OllamaClient.running_models (Program.ollama p)))
      ++ svc_events ++ sched_events
    /\ Forall (fun e => in_service_stop e = true) svc_events
    /\ Forall (fun e => is_scheduler_shutdown e = true) sched_events
    /\ (outcome_of (Program.stop env p) = Ret tt ->
        take n (OllamaClient.running_models (Program.ollama p))
          = OllamaClient.running_models (Program.ollama p)).
Proof.
  intros Hinit. rewrite (stop_initialized p Hinit). cbv zeta.
  destruct (unloads_actions (backend env) (Program.ollama p)
              (OllamaClient.running_models (Program.ollama p))) as (n & Ha & Hr).
  exists n.
  destruct (unloads _ _ _) as [o1 t1]. cbn [fst snd] in *.
  destruct o1 as [[]| e1 |].
  2,3: exists [], []; unfold trace_of, outcome_of; cbn [fst snd];
       rewrite !app_nil_r; repeat split; auto; try constructor; discriminate.
  destruct (stop_tail_run (Program.set_running false p))
    as (svc_events & sched_events & Et & Hsv & Hsc).
  exists svc_events, sched_events.
  unfold trace_of at 1. cbn [fst snd].
  rewrite actions_app, Ha, Et.
  repeat split; auto.
Qed.

End Orchestrator.

(** ** Waiting for a valid configuration *)

Lemma sleeps_app (t1 t2 : trace) : sleeps (t1 ++ t2) = (sleeps t1 + sleeps t2)%nat.
Proof. unfold sleeps. rewrite filter_app, length_app. reflexivity. Qed.

Lemma sleeps_cons e (tr : trace) : is_sleep e = false -> sleeps (e :: tr) = sleeps tr.
Proof.
  intros E. unfold sleeps. rewrite filter_cons_False; [reflexivity|].
  rewrite E. discriminate.
Qed.

Section Waiting.
Context {Svc : Type} `{Service Svc}.

Implicit Types p : Program.t Svc.

Lemma always_invalid_step (s : Svc) :
  always_invalid s ->
  outcome_of (svc_validate s) = Ret false
  /\ always_invalid (state_of (svc_validate s)).
Proof.
  intros Hs. split.
  - exact (Hs O).
  - intros n. specialize (Hs (S n)). rewrite Nat.iter_succ_r in Hs. exact Hs.
Qed.

Lemma quiet_app (t1 t2 : trace) : quiet t1 -> quiet t2 -> quiet (t1 ++ t2).
Proof.
  intros [F1 S1] [F2 S2]. split.
  - apply Forall_app. split; assumption.
  - rewrite sleeps_app, S1, S2. reflexivity.
Qed.

Lemma quiet_service_events key (tr : trace) :
  quiet (EvServiceValidate key :: map (EvService key) tr).
Proof.
  split.
  - constructor; [reflexivity|]. apply Forall_forall. intros e He.
    apply list_elem_of_In, in_map_iff in He as (e' & <- & _). reflexivity.
  - unfold sleeps. rewrite filter_cons_False by discriminate.
    induction tr as [|e tr IH]; [reflexivity|].
    cbn [map]. rewrite filter_cons_False by discriminate. exact IH.
Qed.

Lemma any_validate_invalid (svcs : list (string * Svc)) :
  all_invalid svcs ->
  exists svcs' tr,
    Program.any_validate svcs = (Ret false, svcs', tr)
    /\ all_invalid svcs' /\ quiet tr.
Proof.
  induction 1 as [|[key s] rest Hs _ (rest' & tr' & E & Hrest' & Q')]; cbn [Program.any_validate].
  - exists [], []. repeat split; constructor.
  - destruct (always_invalid_step s Hs) as [Ev Hs'].
    unfold Program.in_service.
    destruct (svc_validate s) as [[o s'] tr].
    unfold outcome_of, state_of in *. cbn [fst snd] in *. subst o.
    rewrite E.
    exists ((key, s') :: rest'), ((EvServiceValidate key :: map (EvService key) tr) ++ tr').
    split; [reflexivity|]. split.
    + constructor; assumption.
    + apply quiet_app; [apply quiet_service_events|exact Q'].
Qed.

Lemma validate_services_invalid p svcs :
  Program.services p = Some svcs ->
  all_invalid svcs ->
  exists svcs' tr,
    Program.validate_services p = (Ret false, Program.set_services svcs' p, tr)
    /\ all_invalid svcs' /\ quiet tr.
Proof.
  intros Hp Hall.
  destruct (any_validate_invalid svcs Hall) as (svcs' & tr & E & Hall' & Q).
  exists svcs', tr. unfold Program.validate_services, Program.on_services.
  rewrite Hp, E. auto.
Qed.

(** The polling loop never ends on its own: after any number of polls
    it is still polling, has slept once per poll, and has started no
    service. *)
Lemma wait_for_valid_invalid fuel : forall p svcs,
  Program.services p = Some svcs ->
  all_invalid svcs ->
  exists p' tr,
    Program.wait_for_valid fuel p = (OutOfFuel, p', tr)
    /\ Forall (fun e => is_service_start e = false) tr
    /\ sleeps tr = fuel.
Proof.
  induction fuel as [|fuel IH]; intros p svcs Hp Hall; cbn [Program.wait_for_valid].
  - exists p, []. repeat split; constructor.
  - destruct (validate_services_invalid p svcs Hp Hall) as (svcs' & t1 & E & Hall' & [F1 S1]).
    destruct (IH (Program.set_services svcs' p) svcs' eq_refl Hall')
      as (p' & t2 & E2 & F2 & S2).
    exists p', (t1 ++ EvSleep 1 :: t2).
    split; [|split].
    + rewrite (bind_run _ _ _ _ _ _ E). cbn [negb].
      unfold bind, emit. rewrite E2. reflexivity.
    + apply Forall_app. split; [exact F1|]. constructor; [reflexivity|exact F2].
    + rewrite sleeps_app, S1.
      change (EvSleep 1 :: t2) with ([EvSleep 1] ++ t2). rewrite sleeps_app, S2. reflexivity.
Qed.

(** C8. If every service of the mapping answers false to every
    [validate()], then [start] never returns and never invokes a
    service's [start()], however long it is left running; and once its
    preamble has read the version it is in the polling loop for good:
    after [fuel] polls it has slept [fuel] times and is still polling. *)
Theorem C8_invalid_services_keep_the_orchestrator_waiting env p svcs fuel :
  Program.services p = Some svcs ->
  all_invalid svcs ->
  outcome_of (Program.start env fuel p) <> Ret tt
  /\ Forall (fun e => is_service_start e = false) (trace_of (Program.start env fuel p))
  /\ (forall v, version_reply env = inr v ->
        outcome_of (Program.start env fuel p) = OutOfFuel
        /\ sleeps (trace_of (Program.start env fuel p)) = fuel).
Proof.
  intros Hp Hall.
  destruct (version_reply env) as [e|v] eqn:Ev.
  { assert (Hrun : Program.start env fuel p = (Raise e, p, [])).
    { unfold Program.start, bind at 1, build. rewrite Ev. reflexivity. }
    rewrite Hrun. unfold outcome_of, trace_of. cbn [fst snd].
    repeat split; try discriminate; constructor. }
  destruct (validate_services_invalid p svcs Hp Hall) as (svcs' & t1 & E & Hall' & [F1 S1]).
  destruct (wait_for_valid_invalid fuel (Program.set_services svcs' p) svcs' eq_refl Hall')
    as (p' & t2 & E2 & F2 & S2).
  assert (Hrun : exists tr,
             Program.start env fuel p = (OutOfFuel, p', tr)
             /\ Forall (fun e => is_service_start e = false) tr /\ sleeps tr = fuel).
  { unfold Program.start, bind at 1, build. rewrite Ev.
    unfold bind at 1 2 3, log, emit.
    destruct (settings_file_exists env); cbn [negb];
      unfold bind at 1 2; unfold ret, log, emit; rewrite E; cbn [negb];
      unfold bind; rewrite E2; eexists; (split; [cbn [app]; reflexivity|]).
    all: split;
      [ repeat first [ assumption | apply List.Forall_nil
                     | apply List.Forall_cons; [reflexivity|]
                     | apply Forall_app; split ]
      | repeat first [ rewrite sleeps_app | rewrite sleeps_cons by reflexivity ];
        rewrite S1, S2; reflexivity ]. }
  destruct Hrun as (tr & -> & Ftr & Str).
  unfold outcome_of, trace_of. cbn [fst snd].
  split; [discriminate|]. split; [exact Ftr|].
  intros v' _. split; [reflexivity|exact Str].
Qed.

End Waiting.

(** ** The service mapping of a reachable orchestrator *)

Lemma sleeps_repeat n : sleeps (repeat (EvSleep 1) n) = n.
Proof.
  induction n as [|n IH]; [reflexivity|].
  cbn [repeat]. unfold sleeps in *. rewrite filter_cons_True by reflexivity.
  cbn [length]. rewrite IH. reflexivity.
Qed.

Lemma no_service_event_repeat n : no_service_event (repeat (EvSleep 1) n).
Proof. induction n; cbn [repeat]; constructor; [reflexivity|assumption]. Qed.

Section Mapping.
Context {Svc : Type} `{Service Svc}.

Implicit Types p : Program.t Svc.

Lemma set_services_id p svcs :
  Program.services p = Some svcs -> Program.set_services svcs p = p.
Proof. destruct p; cbn. intros ->. reflexivity. Qed.

Lemma validate_services_empty p :
  Program.services p = Some [] ->
  Program.validate_services p = (Ret false, p, []).
Proof.
  intros E. unfold Program.validate_services, Program.on_services.
  rewrite E. cbn. rewrite (set_services_id p [] E). reflexivity.
Qed.

Lemma validate_services_unset p :
  Program.services p = None ->
  Program.validate_services p = (Raise (no_attribute Program.cls "services"), p, []).
Proof.
  intros E. unfold Program.validate_services, Program.on_services.
  rewrite E. reflexivity.
Qed.

Lemma wait_for_valid_empty fuel p :
  Program.services p = Some [] ->
  Program.wait_for_valid fuel p = (OutOfFuel, p, repeat (EvSleep 1) fuel).
Proof.
  intros E. induction fuel as [|fuel IH]; cbn [Program.wait_for_valid repeat].
  - reflexivity.
  - rewrite (bind_run _ _ _ _ _ _ (validate_services_empty p E)).
    unfold bind, emit. rewrite IH. reflexivity.
Qed.

Lemma idle_running fuel p :
  Program.running p = true ->
  Program.idle fuel p = (OutOfFuel, p, repeat (EvSleep 1) fuel).
Proof.
  intros E. induction fuel as [|fuel IH]; cbn [Program.idle repeat].
  - reflexivity.
  - unfold bind, gets, emit. rewrite E, IH. reflexivity.
Qed.

(** [start] on an orchestrator whose mapping is empty or unset. *)
Lemma start_never_started env fuel p :
  Program.services p = None \/ Program.services p = Some [] ->
  state_of (Program.start env fuel p) = p
  /\ outcome_of (Program.start env fuel p) <> Ret tt
  /\ no_service_event (trace_of (Program.start env fuel p))
  /\ (forall v, Program.services p = Some [] -> version_reply env = inr v ->
        outcome_of (Program.start env fuel p) = OutOfFuel
        /\ sleeps (trace_of (Program.start env fuel p)) = fuel).
Proof.
  intros Hsv.
  destruct (version_reply env) as [e|v] eqn:Ev.
  { assert (Hrun : Program.start env fuel p = (Raise e, p, [])).
    { unfold Program.start, bind at 1, build. rewrite Ev. reflexivity. }
    rewrite Hrun. unfold outcome_of, trace_of, state_of. cbn [fst snd].
    repeat split; try discriminate; constructor. }
  destruct Hsv as [Hsv | Hsv].
  - assert (Hrun : exists tr,
               Program.start env fuel p
                 = (Raise (no_attribute Program.cls "services"), p, tr)
               /\ no_service_event tr).
    { unfold Program.start, bind at 1, build. rewrite Ev.
      unfold bind at 1 2 3, log, emit.
      destruct (settings_file_exists env); cbn [negb];
        unfold bind at 1 2; unfold ret, log, emit;
        rewrite (validate_services_unset p Hsv);
        eexists; (split; [cbn [app]; reflexivity|]); repeat constructor. }
    destruct Hrun as (tr & -> & Htr).
    unfold outcome_of, trace_of, state_of. cbn [fst snd].
    split; [reflexivity|]. split; [discriminate|]. split; [exact Htr|].
    intros v' E'. congruence.
  - assert (Hrun : exists pre,
               Program.start env fuel p = (OutOfFuel, p, pre ++ repeat (EvSleep 1) fuel)
               /\ no_service_event pre /\ sleeps pre = O).
    { unfold Program.start, bind at 1, build. rewrite Ev.
      unfold bind at 1 2 3, log, emit.
      destruct (settings_file_exists env); cbn [negb];
        unfold bind at 1 2; unfold ret, log, emit;
        rewrite (validate_services_empty p Hsv); cbn [negb];
        unfold bind; rewrite (wait_for_valid_empty fuel p Hsv).
      - exists [EvLog (LOG "PROGRAM") ("Ragnar v" +:+ v +:+ " started!"); EvMakedirs;
                EvLog (LOG "PROGRAM") "----------------------------------------------";
                EvLog ERROR "Ragnar is waiting for configuration to start!";
                EvLog (LOG "PROGRAM") "----------------------------------------------"].
        split; [reflexivity|]. split; [repeat constructor|reflexivity].
      - exists [EvLog (LOG "PROGRAM") ("Ragnar v" +:+ v +:+ " started!"); EvMakedirs;
                EvLog (LOG "PROGRAM") "Settings file not found, creating default settings";
                EvSettingsSave;
                EvLog (LOG "PROGRAM") "----------------------------------------------";
                EvLog ERROR "Ragnar is waiting for configuration to start!";
                EvLog (LOG "PROGRAM") "----------------------------------------------"].
        split; [reflexivity|]. split; [repeat constructor|reflexivity]. }
    destruct Hrun as (pre & -> & Fpre & Spre).
    unfold outcome_of, trace_of, state_of. cbn [fst snd].
    split; [reflexivity|]. split; [discriminate|]. split.
    + apply Forall_app. split; [exact Fpre|apply no_service_event_repeat].
    + intros v' _ _. split; [reflexivity|].
      rewrite sleeps_app, Spre, sleeps_repeat. reflexivity.
Qed.

Lemma never_started_mapping p :
  never_started p -> Program.services p = None \/ Program.services p = Some [].
Proof.
  intros (_ & _ & E). destruct (OllamaClient.initialized _); auto.
Qed.

(** Every method keeps an orchestrator that never started as it is, up
    to its [running] flag, and touches no service. *)
Lemma perform_never_started env m p :
  never_started p ->
  never_started (state_of (perform env m p))
  /\ no_service_event (trace_of (perform env m p)).
Proof.
  intros Hp. pose proof (never_started_mapping p Hp) as Hsv.
  destruct Hp as (Hi & Hsc & Hmap).
  destruct m as [fuel | fuel | | | ]; cbn [perform].
  - destruct (start_never_started env fuel p Hsv) as (-> & _ & Htr & _).
    split; [repeat split; assumption|exact Htr].
  - unfold Program.run, bind, modify, log, emit.
    rewrite (idle_running fuel (Program.set_running true p) eq_refl).
    unfold state_of, trace_of. cbn [fst snd]. split.
    + destruct p; repeat split; assumption.
    + repeat constructor. apply no_service_event_repeat.
  - rewrite (stop_not_initialized env p Hi).
    unfold state_of, trace_of. cbn [fst snd]. split; [|constructor].
    destruct p; repeat split; assumption.
  - destruct Hsv as [E | E].
    + rewrite (bind_raise _ _ _ _ _ _ (validate_services_unset p E)).
      split; [repeat split; assumption|constructor].
    + rewrite (bind_run _ _ _ _ _ _ (validate_services_empty p E)).
      split; [repeat split; assumption|constructor].
  - unfold Program._schedule_functions, bind, getattr. rewrite Hsc.
    split; [repeat split; assumption|constructor].
Qed.

Lemma new_never_started env p tr :
  Program.new env = (Ret p, tr) -> never_started p.
Proof.
  unfold Program.new.
  destruct (OllamaClient.new _ _) as [[oc | e |] tr1]; try discriminate.
  unfold Program.__init__, bind at 1, gets.
  cbn [Program.ollama].
  destruct (OllamaClient.initialized oc) eqn:Hoc; cbn [negb].
  - unfold bind at 1, modify, try_except, bind, gets.
    cbn [Program.settings Program.set_services].
    destruct (DiscordService.new _ _) as [[d | e |] trd]; cbn [is_Exception].
    + unfold getattr. destruct (DiscordService.client d); cbn.
      * destruct (run_reply (platform env)); cbn; intros E; injection E as <- _;
          repeat split; cbn; rewrite ?Hoc; reflexivity.
      * intros E; injection E as <- _; repeat split; cbn; rewrite ?Hoc; reflexivity.
    + cbn. intros E; injection E as <- _; repeat split; cbn; rewrite ?Hoc; reflexivity.
    + discriminate.
  - unfold log, emit. intros E; injection E as <- _.
    repeat split; cbn; rewrite ?Hoc; reflexivity.
Qed.

Lemma reachable_never_started p : reachable p -> never_started p.
Proof.
  induction 1 as [env p tr E | env m p _ IH].
  - exact (new_never_started env p tr E).
  - exact (proj1 (perform_never_started env m p IH)).
Qed.

(** C10 (amended). In every reachable state the service mapping is
    either unset (the constructor returned before assigning it) or
    empty. So [validate_services()] never answers true (it answers
    false on the empty mapping), [start()] never returns (on the empty
    mapping it polls for ever, sleeping once per poll), and no method
    validates, starts or stops a service through the mapping. *)
Theorem C10_mapping_unset_or_empty p :
  reachable p ->
  (Program.services p = None \/ Program.services p = Some [])
  /\ outcome_of (Program.validate_services p) <> Ret true
  /\ (Program.services p = Some [] ->
      Program.validate_services p = (Ret false, p, []))
  /\ (forall env fuel, outcome_of (Program.start env fuel p) <> Ret tt)
  /\ (forall env fuel v,
        Program.services p = Some [] -> version_reply env = inr v ->
        outcome_of (Program.start env fuel p) = OutOfFuel
        /\ sleeps (trace_of (Program.start env fuel p)) = fuel)
  /\ (forall env m, no_service_event (trace_of (perform env m p))).
Proof.
  intros Hr. pose proof (reachable_never_started p Hr) as Hp.
  pose proof (never_started_mapping p Hp) as Hsv.
  split; [exact Hsv|]. split; [|split; [apply validate_services_empty|]].
  { destruct Hsv as [E | E].
    - rewrite (validate_services_unset p E). discriminate.
    - rewrite (validate_services_empty p E). discriminate. }
  split; [|split].
  - intros env fuel. apply (start_never_started env fuel p Hsv).
  - intros env fuel v E Ev.
    destruct (start_never_started env fuel p Hsv) as (_ & _ & _ & Hloop).
    exact (Hloop v E Ev).
  - intros env m. apply (perform_never_started env m p Hp).
Qed.

End Mapping.

(** ** A failed connection *)

(** C7 (the code departs from the claim). When [OllamaChat(...)] raises
    in the [try] block of the provisioner's constructor, the handler logs
    it, and the next statement reads [self.llm_axe], which was never
    assigned: the constructor raises [AttributeError] instead of returning
    an uninitialized provisioner, and the orchestrator's constructor,
    which would have logged and returned, raises with it. *)
Theorem C7_failed_connect_escapes_the_constructor {Svc : Type} `{Service Svc}
    (env : Env) (e : exn) :
  OllamaChat_new (backend env) = Some e ->
  OllamaClient.new (backend env) (Settings.ollama (app_settings env))
    = (Raise (no_attribute "OllamaClient" "llm_axe"),
       [EvLog EXCEPTION ("Failed to initialize Ollama client: " +:+ exn_msg e)])
  /\ Program.new (Svc := Svc) env
    = (Raise (no_attribute "OllamaClient" "llm_axe"),
       [EvLog EXCEPTION ("Failed to initialize Ollama client: " +:+ exn_msg e)]).
Proof.
  intros He.
  assert (Hnew : OllamaClient.new (backend env) (Settings.ollama (app_settings env))
            = (Raise (no_attribute "OllamaClient" "llm_axe"),
               [EvLog EXCEPTION ("Failed to initialize Ollama client: " +:+ exn_msg e)])).
  { unfold OllamaClient.new, OllamaClient.__init__, OllamaClient.connect,
      OllamaClient.poll_available, try_except, bind, construct, getattr, log, emit.
    rewrite He. reflexivity. }
  split; [exact Hnew|].
  unfold Program.new. rewrite Hnew. reflexivity.
Qed.

(** A provisioner whose constructor returned uninitialized (a later
    constructor of the [try] block raised) still has its client: of its
    operations only [chat] refuses to work. *)
Lemma uninitialized_provisioner_still_lists :
  exists self tr,
    OllamaClient.new Sample.no_pdf_backend Settings.default_ollama = (Ret self, tr)
    /\ OllamaClient.initialized self = false
    /\ OllamaClient.list_models Sample.no_pdf_backend self = (Ret ["m1"], self, [EvList])
    /\ outcome_of (OllamaClient.chat Sample.no_pdf_backend Settings.OllamaModel_num_ctx
                     [] None None self)
       = Raise (Exn PlainException "Ollama client not initialized").
Proof. eexists _, _. repeat split. Qed.

(** ** Stopping a service that was never started *)

Lemma discord_stop_uninitialized (d : DiscordService.t) :
  DiscordService.initialized d = false ->
  DiscordService.stop d = (Ret tt, d, []).
Proof.
  intros E. unfold DiscordService.stop, bind, gets, ret. rewrite E. reflexivity.
Qed.

(** C9 (the code departs from the claim). [stop()] on a service that was
    never started is no no-op. A chat-platform service built with a token
    is initialized, and its [stop()] reads [self.running], which no
    constructor assigns: it raises [AttributeError]. The [stop()] of the
    base class clears the running flag and joins a thread that was never
    started: it raises [RuntimeError], the flag changed. *)
Theorem C9_stop_before_start_raises (pf : Platform) (cfg : Settings.DiscordModel)
    (c : DiscordClient) (s : BaseService.t) :
  truthy (Settings.token cfg) = true ->
  DiscordClient_new pf = inr c ->
  BaseService.started s = false ->
  (exists d tr,
     DiscordService.new pf cfg = (Ret d, tr)
     /\ DiscordService.initialized d = true
     /\ DiscordService.stop d
        = (Raise (no_attribute "DiscordService" "running"), d, []))
  /\ BaseService.stop s
     = (Raise (Exn RuntimeError "cannot join thread before it is started"),
        BaseService.set_running false s, []).
Proof.
  intros Htok Hc Hs. split.
  - unfold DiscordService.new, DiscordService.__init__, DiscordService.validate,
      DiscordService.setup, bind, gets, build, modify, ret.
    cbn [DiscordService.settings DiscordService.blank]. rewrite Htok, Hc. cbn.
    eexists _, _. repeat split.
  - unfold BaseService.stop, BaseService.join, bind, modify, gets.
    cbn [BaseService.started BaseService.set_running]. rewrite Hs. reflexivity.
Qed.

(** ** The claims on sample surroundings *)

Lemma C1_witness :
  exists self tr,
    OllamaClient.new
      (Sample.serving [Sample.raw "llama3.2:latest" "a80c4f17acd5";
                       Sample.raw "llama3.2:3b" "a80c4f17acd5"])
      Settings.default_ollama = (Ret self, tr)
    /\ OllamaClient.available_models self =
         [Sample.info "llama3.2:latest" "a80c4f17acd5";
          Sample.info "llama3.2:3b" "a80c4f17acd5"]
    /\ map ModelInfo.digest (OllamaClient.available_models self) =
         ["a80c4f17acd5"; "a80c4f17acd5"].
Proof.
  apply (C1_same_digest_entries_are_both_kept
           (Sample.serving [Sample.raw "llama3.2:latest" "a80c4f17acd5";
                            Sample.raw "llama3.2:3b" "a80c4f17acd5"])
           Settings.default_ollama
           (Sample.raw "llama3.2:latest" "a80c4f17acd5")
           (Sample.raw "llama3.2:3b" "a80c4f17acd5")).
  - repeat split.
  - reflexivity.
  - reflexivity.
  - reflexivity.
  - reflexivity.
  - discriminate.
Defined.

Lemma C2_witness :
  exists self tr,
    OllamaClient.new (Sample.serving [Sample.m1]) Settings.default_ollama = (Ret self, tr)
    /\ actions tr = [EvList; EvPs; EvGenerate "m1" None]
    /\ OllamaClient.running_models self = [].
Proof.
  apply (C2_first_model_loaded_but_not_recorded
           (Sample.serving [Sample.m1]) Settings.default_ollama Sample.m1 []).
  - repeat split.
  - reflexivity.
  - reflexivity.
  - reflexivity.
Defined.

Lemma C3_witness :
  exists self tr,
    OllamaClient.new (Sample.serving []) Settings.default_ollama = (Ret self, tr)
    /\ OllamaClient.initialized self = true
    /\ OllamaClient.available_models self = []
    /\ actions tr = [EvList; EvPs; EvPull "llama3.2"; EvGenerate "llama3.2" None].
Proof.
  apply (C3_fallback_pulled_then_loaded (Sample.serving []) Settings.default_ollama (Some [])).
  - repeat split.
  - reflexivity.
  - right. reflexivity.
  - reflexivity.
  - reflexivity.
  - reflexivity.
Defined.

(** [chat] with a tool, asked to stream, on a settings object that
    answers [num_ctx]: the request goes out with streaming off. *)
Lemma C4_witness :
  exists req,
    actions (trace_of (OllamaClient.chat (Sample.serving [Sample.m1])
                         (fun cfg => Some (Settings.num_ctx (Settings.options cfg)))
                         [{| role := "user"; content := "hello" |}] (Some true)
                         (Some ["get_weather"]) Sample.provisioner))
      = [EvChat req]
    /\ req_stream req = false
    /\ req_tools req = Some ["get_weather"]
    /\ req_messages req = [{| role := "user"; content := "hello" |}].
Proof.
  apply (proj2 (C4_tools_force_streaming_off (Sample.serving [Sample.m1])
                  (fun cfg => Some (Settings.num_ctx (Settings.options cfg)))
                  [{| role := "user"; content := "hello" |}] (Some true)
                  "get_weather" [] Sample.provisioner)
           OllamaClient.AxeClient 1024).
  - reflexivity.
  - reflexivity.
  - reflexivity.
Defined.

(** With the settings the program builds, the same call raises before any
    request is made. *)
Lemma chat_with_tools_on_shipped_settings :
  OllamaClient.chat (Sample.serving [Sample.m1]) Settings.OllamaModel_num_ctx
    [{| role := "user"; content := "hello" |}] None (Some ["get_weather"])
    Sample.provisioner
  = (Raise (no_attribute "OllamaModel" "num_ctx"), Sample.provisioner,
     [EvLog (LOG "OLLAMA") "Sending user message to Ollama"]).
Proof. reflexivity. Qed.

Lemma C7_witness :
  OllamaClient.new Sample.unreachable_backend Settings.default_ollama
    = (Raise (no_attribute "OllamaClient" "llm_axe"),
       [EvLog EXCEPTION "Failed to initialize Ollama client: connection refused"])
  /\ Program.new (Svc := DiscordService.t) (Sample.surroundings Sample.unreachable_backend)
    = (Raise (no_attribute "OllamaClient" "llm_axe"),
       [EvLog EXCEPTION "Failed to initialize Ollama client: connection refused"]).
Proof.
  apply (C7_failed_connect_escapes_the_constructor
           (Sample.surroundings Sample.unreachable_backend) Sample.oops).
  reflexivity.
Defined.

Lemma C8_witness :
  outcome_of (Program.start (Sample.surroundings (Sample.serving [Sample.m1])) 3
                Sample.waiting_program) <> Ret tt
  /\ Forall (fun e => is_service_start e = false)
       (trace_of (Program.start (Sample.surroundings (Sample.serving [Sample.m1])) 3
                    Sample.waiting_program))
  /\ (forall v,
        version_reply (Sample.surroundings (Sample.serving [Sample.m1])) = inr v ->
        outcome_of (Program.start (Sample.surroundings (Sample.serving [Sample.m1])) 3
                      Sample.waiting_program) = OutOfFuel
        /\ sleeps (trace_of (Program.start (Sample.surroundings (Sample.serving [Sample.m1])) 3
                               Sample.waiting_program)) = 3%nat).
Proof.
  apply (C8_invalid_services_keep_the_orchestrator_waiting
           (Sample.surroundings (Sample.serving [Sample.m1])) Sample.waiting_program
           [("discord", Sample.discord_without_token)] 3).
  - reflexivity.
  - constructor; [|constructor].
    unfold always_invalid. intros n.
    induction n as [|n IH]; [reflexivity|].
    rewrite Nat.iter_succ_r. exact IH.
Defined.

Lemma C9_witness :
  (exists d tr,
     DiscordService.new Sample.chat_platform
       {| Settings.token := "token"; Settings.bot_invite_url := Some "" |} = (Ret d, tr)
     /\ DiscordService.initialized d = true
     /\ DiscordService.stop d
        = (Raise (no_attribute "DiscordService" "running"), d, []))
  /\ BaseService.stop (BaseService.new "worker" (ret true)).1
     = (Raise (Exn RuntimeError "cannot join thread before it is started"),
        BaseService.set_running false (BaseService.new "worker" (ret true)).1, []).
Proof.
  apply (C9_stop_before_start_raises Sample.chat_platform
           {| Settings.token := "token"; Settings.bot_invite_url := Some "" |}
           {| loop_running := Some false |}
           (BaseService.new "worker" (ret true)).1).
  - reflexivity.
  - reflexivity.
  - reflexivity.
Defined.

(** C10 (counterexample). When a constructor of the provisioner's [try]
    block other than the first raises, the provisioner is built
    uninitialized, the orchestrator's constructor returns before it
    assigns the mapping, and [validate_services()] raises. *)
Lemma C10_mapping_can_be_unset :
  ~ mapping_always_empty
  /\ exists p tr,
       Program.new (Svc := DiscordService.t) (Sample.surroundings Sample.no_pdf_backend)
         = (Ret p, tr)
       /\ Program.services p = None
       /\ Program.validate_services p
          = (Raise (no_attribute "Program" "services"), p, []).
Proof.
  assert (Hnew : exists p tr,
            Program.new (Svc := DiscordService.t)
              (Sample.surroundings Sample.no_pdf_backend) = (Ret p, tr)
            /\ Program.services p = None
            /\ Program.validate_services p
               = (Raise (no_attribute "Program" "services"), p, [])).
  { eexists _, _. repeat split. }
  split; [|exact Hnew].
  intros Hall. destruct Hnew as (p & tr & Enew & Hnone & _).
  destruct (Hall p (reach_new _ p tr Enew)) as [Hsome _].
  rewrite Hnone in Hsome. discriminate.
Qed.

Lemma C10_witness :
  (Program.services Sample.built_program = None
   \/ Program.services Sample.built_program = Some [])
  /\ outcome_of (Program.validate_services Sample.built_program) <> Ret true
  /\ (Program.services Sample.built_program = Some [] ->
      Program.validate_services Sample.built_program
        = (Ret false, Sample.built_program, []))
  /\ (forall env fuel,
        outcome_of (Program.start env fuel Sample.built_program) <> Ret tt)
  /\ (forall env fuel v,
        Program.services Sample.built_program = Some [] ->
        version_reply env = inr v ->
        outcome_of (Program.start env fuel Sample.built_program) = OutOfFuel
        /\ sleeps (trace_of (Program.start env fuel Sample.built_program)) = fuel)
  /\ (forall env m, no_service_event (trace_of (perform env m Sample.built_program))).
Proof.
  apply (C10_mapping_unset_or_empty Sample.built_program).
  refine (reach_new (Sample.surroundings (Sample.serving [Sample.m1])) _ _ _).
  vm_compute. reflexivity.
Defined.

(** ** The shutdown of an orchestrator the program can reach *)

Section ReachableShutdown.
Context {Svc : Type} `{Service Svc}.

Implicit Types p : Program.t Svc.

(** C5. On every orchestrator the program can reach, [stop()] returns,
    and a second [stop()] is a no-op: it returns too, leaves the
    orchestrator as the first call left it, and adds no effect (no
    unload request either) to those of the first. *)
Theorem C5_second_stop_is_a_no_op p :
  reachable p ->
  forall env,
    outcome_of (Program.stop env p) = Ret tt
    /\ second_stop_is_a_no_op env p.
Proof.
  intros Hr env.
  destruct (reachable_never_started p Hr) as (Hi & _ & _).
  rewrite (stop_not_initialized env p Hi).
  split; [reflexivity|]. unfold second_stop_is_a_no_op.
  rewrite (stop_not_initialized env p Hi).
  unfold outcome_of, state_of, trace_of. cbn [fst snd].
  rewrite (stop_not_initialized env (Program.set_running false p) Hi).
  cbn [fst snd]. repeat split.
Qed.

(** C6 (the code departs from the claim). On every orchestrator the
    program can reach, the shutdown unloads nothing: [stop()] returns
    behind its guard on [initialized], which only a [start()] that ran to
    its end sets. No model of the running set is unloaded, no service is
    stopped, the scheduler is not shut down, and the running set is left
    as it was. *)
Theorem C6_shutdown_unloads_no_running_model p :
  reachable p ->
  forall env,
    outcome_of (Program.stop env p) = Ret tt
    /\ (forall m,
          m ∈ OllamaClient.running_models (Program.ollama p) ->
          unload_event m ∉ trace_of (Program.stop env p))
    /\ Forall (fun e => in_service_stop e = false /\ is_scheduler_shutdown e = false)
              (trace_of (Program.stop env p))
    /\ OllamaClient.running_models (Program.ollama (state_of (Program.stop env p)))
       = OllamaClient.running_models (Program.ollama p).
Proof.
  intros Hr env.
  destruct (reachable_never_started p Hr) as (Hi & _ & _).
  rewrite (stop_not_initialized env p Hi).
  unfold outcome_of, state_of, trace_of. cbn [fst snd].
  split; [reflexivity|]. split; [intros m _ Hin; inversion Hin|].
  split; [constructor|]. destruct p; reflexivity.
Qed.

End ReachableShutdown.

(** * Further properties of the provisioner *)

(** ** Running computations, continued *)

Lemma bind_ret_inv {St A B} (m : M St A) (k : A -> M St B) s b s2 t :
  bind m k s = (Ret b, s2, t) ->
  exists a s1 t1 t2,
    m s = (Ret a, s1, t1) /\ k a s1 = (Ret b, s2, t2) /\ t = t1 ++ t2.
Proof.
  unfold bind. destruct (m s) as [[[a | e |] s1] t1]; try discriminate.
  destruct (k a s1) as [[o s2'] t2] eqn:Ek. intros E. injection E as -> -> <-.
  exists a, s1, t1, t2. auto.
Qed.

Lemma pulls_app (t1 t2 : trace) : pulls (t1 ++ t2) = pulls t1 ++ pulls t2.
Proof. unfold pulls. apply filter_app. Qed.

Lemma pulls_actions (tr : trace) : pulls (actions tr) = pulls tr.
Proof.
  induction tr as [|e tr IH]; [reflexivity|].
  unfold pulls, actions in *.
  destruct (decide (is_log e = false)) as [Hl | Hl].
  - rewrite (filter_cons_True (fun e => is_log e = false)) by exact Hl.
    destruct (decide (is_pull e = true)) as [Hp | Hp].
    + rewrite !(filter_cons_True (fun e => is_pull e = true)) by exact Hp.
      rewrite IH. reflexivity.
    + rewrite !(filter_cons_False (fun e => is_pull e = true)) by exact Hp.
      exact IH.
  - rewrite (filter_cons_False (fun e => is_log e = false)) by exact Hl.
    rewrite (filter_cons_False (fun e => is_pull e = true)); [exact IH|].
    destruct e; cbn in *; congruence.
Qed.

(** ** The poll of the resident models *)

Lemma formatted_truthy m ms :
  truthy (join (nl +:+ nl) (map OllamaClient.format_model (m :: ms))) = true
  /\ String.eqb (join (nl +:+ nl) (map OllamaClient.format_model (m :: ms)))
       OllamaClient.no_models_loaded = false.
Proof. destruct ms; split; reflexivity. Qed.

Lemma list_running_models_cases be (self : OllamaClient.t) :
  exists text tr,
    OllamaClient.list_running_models be self = (Ret text, self, tr)
    /\ truthy text = true
    /\ (String.eqb text OllamaClient.no_models_loaded = true
        <-> OllamaClient.client self <> None /\ ps_reply be = inr [])
    /\ (actions tr = [] \/ actions tr = [EvPs]).
Proof.
  unfold OllamaClient.list_running_models, try_except, bind, getattr, call, log, emit, ret.
  destruct (OllamaClient.client self) as [c|]; cbn.
  - destruct (ps_reply be) as [e | [|m ms]].
    + cbn. eexists _, _. split; [reflexivity|]. split; [reflexivity|]. split; [|auto].
      split; [discriminate|]. intros [_ E]. discriminate.
    + cbn. eexists _, _. split; [reflexivity|]. split; [reflexivity|]. split; [|auto].
      split; [intros _; split; [discriminate|reflexivity]|reflexivity].
    + exists (join (nl +:+ nl) (map OllamaClient.format_model (m :: ms))), [EvPs].
      split; [reflexivity|].
      destruct (formatted_truthy m ms) as [Ht He]. split; [exact Ht|]. split; [|auto].
      rewrite He. split; [discriminate|]. intros [_ E]. discriminate.
  - eexists _, _. split; [reflexivity|]. split; [reflexivity|]. split; [|auto].
    split; [discriminate|]. intros [E _]. congruence.
Qed.

(** X1. [list_running_models] never raises and never touches the
    provisioner: every failure (no client, a backend error) comes back as
    a non-empty text, and a backend error is logged and returned as the
    same text. The text is the sentence for no models exactly when the
    client exists and the backend reports no resident model. *)
Theorem list_running_models_never_raises be (self : OllamaClient.t) :
  exists text tr,
    OllamaClient.list_running_models be self = (Ret text, self, tr)
    /\ truthy text = true
    /\ (String.eqb text OllamaClient.no_models_loaded = true
        <-> OllamaClient.client self <> None /\ ps_reply be = inr [])
    /\ (actions tr = [] \/ actions tr = [EvPs])
    /\ (forall e, OllamaClient.client self <> None -> ps_reply be = inl e ->
        text = "Error listing running models: " +:+ exn_msg e
        /\ tr = [EvPs; EvLog ERROR text]).
Proof.
  unfold OllamaClient.list_running_models, try_except, bind, getattr, call, log, emit, ret.
  destruct (OllamaClient.client self) as [c|]; cbn.
  - destruct (ps_reply be) as [e | [|m ms]].
    + cbn. eexists _, _. split; [reflexivity|]. split; [reflexivity|].
      split; [split; [discriminate|intros [_ E]; discriminate]|].
      split; [auto|]. intros e' _ E. injection E as <-. split; reflexivity.
    + cbn. eexists _, _. split; [reflexivity|]. split; [reflexivity|].
      split; [split; [intros _; split; [discriminate|reflexivity]|reflexivity]|].
      split; [auto|]. intros e' _ E. discriminate.
    + exists (join (nl +:+ nl) (map OllamaClient.format_model (m :: ms))), [EvPs].
      split; [reflexivity|].
      destruct (formatted_truthy m ms) as [Ht He]. split; [exact Ht|].
      split; [rewrite He; split; [discriminate|intros [_ E]; discriminate]|].
      split; [auto|]. intros e' _ E. discriminate.
  - eexists _, _. split; [reflexivity|]. split; [reflexivity|].
    split; [split; [discriminate|intros [E _]; congruence]|].
    split; [auto|]. intros e' E. congruence.
Qed.

(** ** The constructor of the provisioner, on any backend *)

Lemma pulls_of_actions (tr : trace) a : actions tr = a -> pulls tr = pulls a.
Proof. intros <-. symmetry. apply pulls_actions. Qed.

(** The [try] block always returns, and changes neither list. *)
Lemma connect_cases be (self : OllamaClient.t) :
  exists self' tr,
    OllamaClient.connect be self = (Ret tt, self', tr)
    /\ OllamaClient.available_models self' = OllamaClient.available_models self
    /\ OllamaClient.running_models self' = OllamaClient.running_models self
    /\ actions tr = []
    /\ (OllamaChat_new be = None -> OllamaClient.llm_axe self' = Some tt).
Proof.
  unfold OllamaClient.connect, try_except, bind, construct, modify, getattr, log, emit.
  destruct (OllamaChat_new be); cbn.
  { eexists _, _. split; [reflexivity|]. repeat split; auto. discriminate. }
  destruct (Client_new be); cbn.
  { eexists _, _. split; [reflexivity|]. repeat split; auto. }
  destruct (OnlineAgent_new be); cbn.
  { eexists _, _. split; [reflexivity|]. repeat split; auto. }
  destruct (PdfReader_new be); cbn.
  { eexists _, _. split; [reflexivity|]. repeat split; auto. }
  eexists _, _. split; [reflexivity|]. repeat split; auto.
Qed.

(** The listing loop: what it returns when it returns, and that it never
    pulls. *)
Lemma poll_available_cases be (self : OllamaClient.t) :
  pulls (trace_of (OllamaClient.poll_available be self)) = []
  /\ forall model self' tr,
       OllamaClient.poll_available be self = (Ret model, self', tr) ->
       OllamaClient.running_models self' = OllamaClient.running_models self
       /\ OllamaClient.client self' = OllamaClient.client self
       /\ ((list_reply be = inr None /\ model = None
            /\ OllamaClient.available_models self' = OllamaClient.available_models self)
           \/ exists models,
                list_reply be = inr (Some models) /\ model = last models
                /\ OllamaClient.available_models self'
                   = collect (OllamaClient.available_models self) models).
Proof.
  remember (OllamaClient.poll_available be self) as r eqn:Er.
  unfold OllamaClient.poll_available, bind at 1, getattr in Er.
  destruct (OllamaClient.llm_axe self) as [u|].
  2: { subst r. split; [reflexivity|]. discriminate. }
  unfold bind at 1, call in Er.
  destruct (list_reply be) as [e | [models|]].
  - subst r. split; [reflexivity|]. discriminate.
  - destruct (for_each_add_available models self) as (t1 & E & A).
    unfold bind, ret in Er. rewrite E in Er. cbn [app] in Er. subst r. split.
    + unfold trace_of. cbn [snd]. rewrite app_nil_r.
      change (EvList :: t1) with ([EvList] ++ t1).
      rewrite pulls_app, (pulls_of_actions t1 [] A). reflexivity.
    + intros model self' tr Eq. injection Eq as <- <- <-.
      split; [destruct self; reflexivity|]. split; [destruct self; reflexivity|].
      right. exists models. repeat split.
  - subst r. split; [reflexivity|].
    intros model self' tr Eq. injection Eq as <- <- <-. repeat split. left. auto.
Qed.

(** The bootstrap: it leaves [available_models] alone, records at most
    the model the listing loop ended on, and pulls at most the fallback,
    and only when nothing is available. *)
Lemma bootstrap_effect be model (self : OllamaClient.t) :
  OllamaClient.available_models (state_of (OllamaClient.bootstrap be model self))
    = OllamaClient.available_models self
  /\ (OllamaClient.running_models (state_of (OllamaClient.bootstrap be model self))
        = OllamaClient.running_models self
      \/ exists m,
           model = Some m
           /\ OllamaClient.running_models (state_of (OllamaClient.bootstrap be model self))
              = OllamaClient.running_models self ++ [OllamaClient._create_model_info m])
  /\ (pulls (trace_of (OllamaClient.bootstrap be model self)) = []
      \/ (OllamaClient.available_models self = []
          /\ pulls (trace_of (OllamaClient.bootstrap be model self))
             = [EvPull OllamaClient.fallback_model])).
Proof.
  destruct (list_running_models_cases be self) as (text & t0 & E0 & _ & _ & A0).
  assert (P0 : pulls t0 = []).
  { destruct A0 as [A0 | A0]; rewrite (pulls_of_actions _ _ A0); reflexivity. }
  remember (OllamaClient.bootstrap be model self) as r eqn:Er.
  unfold OllamaClient.bootstrap in Er.
  rewrite (bind_run _ _ _ _ _ _ E0) in Er.
  unfold state_of, trace_of, outcome_of in *.
  destruct (truthy text && negb (String.eqb text OllamaClient.no_models_loaded)).
  - destruct model as [m|].
    2: { subst r. unfold raise. cbn [fst snd]. rewrite app_nil_r. auto. }
    unfold bind, gets, modify, log, emit, ret in Er.
    destruct (ModelInfo.contains _ _); subst r; cbn [fst snd app];
      rewrite pulls_app, P0; (split; [reflexivity|]); (split; [|left; reflexivity]).
    + left. reflexivity.
    + right. exists m. split; reflexivity.
  - unfold OllamaClient.load_model, OllamaClient.pull_model, try_except,
      bind, gets, getattr, call, answer, log, emit, raise in Er.
    cbn [fst snd] in Er.
    destruct (OllamaClient.available_models self) as [|first rest] eqn:Hav;
      destruct (OllamaClient.client self) as [c|] eqn:Hc; cbn [fst snd app] in Er.
    + destruct (pull_reply be OllamaClient.fallback_model) as [x|]; cbn [fst snd app] in Er.
      * destruct (is_ResponseError x); cbn [fst snd app] in Er; subst r; cbn [fst snd];
          rewrite pulls_app, P0; auto.
      * rewrite Hc in Er. cbn [fst snd app] in Er.
        destruct (generate_reply be OllamaClient.fallback_model None);
          cbn [fst snd app] in Er; subst r; cbn [fst snd]; rewrite pulls_app, P0; auto.
    + destruct (is_ResponseError _); cbn [fst snd app] in Er; subst r; cbn [fst snd];
        rewrite pulls_app, P0; auto.
    + destruct (generate_reply be (ModelInfo.name first) None);
        cbn [fst snd app] in Er; subst r; cbn [fst snd]; rewrite pulls_app, P0; auto.
    + subst r; cbn [fst snd]. rewrite pulls_app, P0. auto.
Qed.

Lemma contains_elem_of (known : list ModelInfo.t) x :
  ModelInfo.contains known x = true <-> x ∈ known.
Proof.
  unfold ModelInfo.contains, ModelInfo.eqb. rewrite existsb_exists. split.
  - intros (y & Hy & E). apply bool_decide_eq_true in E. subst y.
    apply list_elem_of_In. exact Hy.
  - intros Hx. exists x. split; [apply list_elem_of_In; exact Hx|].
    apply bool_decide_eq_true. reflexivity.
Qed.

Lemma add_if_absent_spec known model :
  NoDup known ->
  NoDup (add_if_absent known model)
  /\ forall x, x ∈ add_if_absent known model
       <-> x ∈ known \/ x = OllamaClient._create_model_info model.
Proof.
  intros Hnd. unfold add_if_absent.
  destruct (ModelInfo.contains known _) eqn:Hc.
  - apply contains_elem_of in Hc. split; [exact Hnd|].
    intros x. split; [auto|]. intros [Hx | ->]; assumption.
  - assert (Hn : OllamaClient._create_model_info model ∉ known).
    { intros Hin. apply contains_elem_of in Hin. congruence. }
    split.
    + apply NoDup_app. split; [exact Hnd|]. split.
      * intros x Hx Hx'. apply list_elem_of_singleton in Hx'. subst x. contradiction.
      * apply NoDup_singleton.
    + intros x. rewrite elem_of_app, list_elem_of_singleton. reflexivity.
Qed.

Lemma collect_spec models : forall known,
  NoDup known ->
  NoDup (collect known models)
  /\ forall x, x ∈ collect known models
       <-> x ∈ known \/ exists m, m ∈ models /\ x = OllamaClient._create_model_info m.
Proof.
  induction models as [|model models IH]; intros known Hnd; cbn [collect fold_left].
  - split; [exact Hnd|]. intros x. split; [auto|].
    intros [Hx | (m & Hm & _)]; [exact Hx|]. apply elem_of_nil in Hm. contradiction.
  - destruct (add_if_absent_spec known model Hnd) as [Hnd' Hin'].
    destruct (IH _ Hnd') as [Hnd'' Hin'']. fold (collect (add_if_absent known model) models).
    split; [exact Hnd''|].
    intros x. rewrite Hin'', Hin'. split.
    + intros [[Hx | ->] | (m & Hm & ->)]; auto.
      * right. exists model. split; [left|reflexivity].
      * right. exists m. split; [right; exact Hm|reflexivity].
    + intros [Hx | (m & Hm & ->)]; auto.
      apply elem_of_cons in Hm as [-> | Hm]; auto.
      right. exists m. auto.
Qed.

(** What a constructor that returned went through. *)
Lemma new_ret_inv be cfg self tr :
  OllamaClient.new be cfg = (Ret self, tr) ->
  exists s1 t1 model s2 t2 t3,
    OllamaClient.connect be (OllamaClient.blank cfg) = (Ret tt, s1, t1)
    /\ OllamaClient.poll_available be s1 = (Ret model, s2, t2)
    /\ OllamaClient.bootstrap be model s2 = (Ret tt, self, t3)
    /\ tr = t1 ++ t2 ++ t3.
Proof.
  unfold OllamaClient.new.
  destruct (OllamaClient.__init__ be (OllamaClient.blank cfg)) as [[[[] | e |] s] t] eqn:E;
    try discriminate.
  intros Eq. injection Eq as <- <-.
  unfold OllamaClient.__init__ in E.
  apply bind_ret_inv in E as ([] & s1 & t1 & t' & E1 & E & ->).
  apply bind_ret_inv in E as (model & s2 & t2 & t3 & E2 & E3 & ->).
  exists s1, t1, model, s2, t2, t3. auto.
Qed.

(** X2. Whatever the backend answers, a provisioner whose constructor
    returned holds in [available_models] exactly the models of the
    listing, converted, each once. *)
Theorem available_models_are_the_listing_without_repeats be cfg self tr :
  OllamaClient.new be cfg = (Ret self, tr) ->
  NoDup (OllamaClient.available_models self)
  /\ forall x, x ∈ OllamaClient.available_models self
       <-> exists m, listed be m /\ x = OllamaClient._create_model_info m.
Proof.
  intros Enew.
  destruct (new_ret_inv be cfg self tr Enew)
    as (s1 & t1 & model & s2 & t2 & t3 & E1 & E2 & E3 & _).
  destruct (connect_cases be (OllamaClient.blank cfg)) as (s1' & t1' & E1' & Hav1 & _).
  rewrite E1 in E1'. injection E1' as <- <-.
  destruct (poll_available_cases be s1) as [_ Hpoll].
  destruct (Hpoll model s2 t2 E2) as (_ & _ & Hcase).
  destruct (bootstrap_effect be model s2) as (Hav3 & _).
  rewrite E3 in Hav3. unfold state_of in Hav3. cbn [fst snd] in Hav3. rewrite Hav3.
  destruct Hcase as [(Hl & _ & Hav2) | (models & Hl & _ & Hav2)]; rewrite Hav2, Hav1.
  - cbn. split; [constructor|]. intros x. split.
    + intros Hx. apply elem_of_nil in Hx. contradiction.
    + intros (m & (models & Hl' & _) & _). congruence.
  - destruct (collect_spec models [] (NoDup_nil_2 (A := ModelInfo.t))) as [Hnd Hin].
    split; [exact Hnd|]. intros x. rewrite Hin. split.
    + intros [Hx | (m & Hm & ->)]; [apply elem_of_nil in Hx; contradiction|].
      exists m. split; [exists models; auto|reflexivity].
    + intros (m & (models' & Hl' & Hm) & ->). right. exists m.
      rewrite Hl in Hl'. injection Hl' as <-. auto.
Qed.

(** X3. A provisioner whose constructor returned has recorded at most one
    running model, and the one it records is the last entry of the
    listing, whichever models the backend reported as resident. *)
Theorem running_models_holds_the_last_listed_model be cfg self tr :
  OllamaClient.new be cfg = (Ret self, tr) ->
  OllamaClient.running_models self = []
  \/ exists models m,
       list_reply be = inr (Some models) /\ last models = Some m
       /\ OllamaClient.running_models self = [OllamaClient._create_model_info m].
Proof.
  intros Enew.
  destruct (new_ret_inv be cfg self tr Enew)
    as (s1 & t1 & model & s2 & t2 & t3 & E1 & E2 & E3 & _).
  destruct (connect_cases be (OllamaClient.blank cfg)) as (s1' & t1' & E1' & _ & Hr1 & _).
  rewrite E1 in E1'. injection E1' as <- <-.
  destruct (poll_available_cases be s1) as [_ Hpoll].
  destruct (Hpoll model s2 t2 E2) as (Hr2 & _ & Hcase).
  destruct (bootstrap_effect be model s2) as (_ & Hr3 & _).
  rewrite E3 in Hr3. unfold state_of in Hr3. cbn [fst snd] in Hr3.
  rewrite Hr2, Hr1 in Hr3. cbn in Hr3.
  destruct Hr3 as [Hr3 | (m & -> & Hr3)]; [left; exact Hr3|].
  right. destruct Hcase as [(_ & Hm & _) | (models & Hl & Hm & _)]; [discriminate|].
  exists models, m. auto.
Qed.

(** X4. When the listing yields no entry and the poll of the resident
    models yields anything but the sentence for none loaded (resident
    models, or an error), the constructor raises an [UnboundLocalError]:
    it converts the loop variable of a loop that never ran. *)
Theorem resident_model_without_listing_raises be cfg :
  OllamaChat_new be = None ->
  nothing_listed be ->
  ps_reply be <> inr [] ->
  exists e tr,
    OllamaClient.new be cfg = (Raise e, tr) /\ exn_cls e = UnboundLocalError.
Proof.
  intros Hchat Hnone Hps.
  destruct (connect_cases be (OllamaClient.blank cfg)) as (s1 & t1 & E1 & _ & _ & _ & Hax).
  specialize (Hax Hchat).
  assert (Hpoll : exists s2 t2, OllamaClient.poll_available be s1 = (Ret None, s2, t2)).
  { destruct Hnone as [Hl | Hl].
    - eexists _, _. apply (poll_available_falsy be s1 Hax Hl).
    - destruct (poll_available_ok be s1 [] Hax Hl) as (t2 & E2 & _). eexists _, _. exact E2. }
  destruct Hpoll as (s2 & t2 & E2).
  destruct (list_running_models_cases be s2) as (text & t0 & E0 & Ht & Hiff & _).
  assert (Hneq : String.eqb text OllamaClient.no_models_loaded = false).
  { destruct (String.eqb text OllamaClient.no_models_loaded) eqn:Eq; [|reflexivity].
    destruct (proj1 Hiff eq_refl) as [_ Hps']. contradiction. }
  unfold OllamaClient.new, OllamaClient.__init__.
  rewrite (bind_run _ _ _ _ _ _ E1), (bind_run _ _ _ _ _ _ E2).
  unfold OllamaClient.bootstrap.
  rewrite (bind_run _ _ _ _ _ _ E0), Ht, Hneq. cbn.
  eexists _, _. split; reflexivity.
Qed.

Lemma new_trace be cfg :
  (OllamaClient.new be cfg).2 = trace_of (OllamaClient.__init__ be (OllamaClient.blank cfg)).
Proof.
  unfold OllamaClient.new.
  destruct (OllamaClient.__init__ be (OllamaClient.blank cfg)) as [[[[] | e |] s] t];
    reflexivity.
Qed.

(** X5. The constructor never pulls anything but the fallback model, pulls
    it at most once, and does not pull at all when the listing has an
    entry, whatever the backend answers elsewhere. *)
Theorem constructor_pulls_the_fallback_only be cfg :
  (pulls (OllamaClient.new be cfg).2 = []
   \/ pulls (OllamaClient.new be cfg).2 = [EvPull "llama3.2"])
  /\ forall first rest,
       list_reply be = inr (Some (first :: rest)) ->
       pulls (OllamaClient.new be cfg).2 = [].
Proof.
  rewrite new_trace.
  remember (OllamaClient.__init__ be (OllamaClient.blank cfg)) as r eqn:Er.
  unfold OllamaClient.__init__ in Er.
  destruct (connect_cases be (OllamaClient.blank cfg)) as (s1 & t1 & E1 & Hav1 & _ & A1 & _).
  rewrite (bind_run _ _ _ _ _ _ E1) in Er.
  assert (P1 : pulls t1 = []) by (rewrite (pulls_of_actions _ _ A1); reflexivity).
  destruct (poll_available_cases be s1) as [P2 Hpoll].
  destruct (OllamaClient.poll_available be s1) as [[[model | e |] s2] t2] eqn:E2.
  - rewrite (bind_run _ _ _ _ _ _ E2) in Er.
    unfold trace_of in P2. cbn [snd] in P2.
    destruct (Hpoll model s2 t2 eq_refl) as (_ & _ & Hcase).
    destruct (bootstrap_effect be model s2) as (_ & _ & P3).
    subst r. unfold trace_of, state_of, outcome_of in *. cbn [fst snd].
    rewrite !pulls_app, P1, P2. cbn [app].
    destruct P3 as [-> | [Hav2 ->]]; [split; auto|].
    split; [right; reflexivity|].
    intros first rest Hl.
    destruct Hcase as [(Hl' & _) | (models & Hl' & _ & Hav2')]; [congruence|].
    rewrite Hl in Hl'. injection Hl' as <-.
    rewrite Hav1 in Hav2'. cbn [OllamaClient.blank OllamaClient.available_models] in Hav2'.
    destruct (collect_first first rest) as [l' Hc]. congruence.
  - rewrite (bind_raise _ _ _ _ _ _ E2) in Er.
    subst r. unfold trace_of, outcome_of, state_of in *. cbn [fst snd] in *.
    rewrite pulls_app, P1, P2. split; auto.
  - rewrite (bind_out_of_fuel _ _ _ _ _ E2) in Er.
    subst r. unfold trace_of, outcome_of, state_of in *. cbn [fst snd] in *.
    rewrite pulls_app, P1, P2. split; auto.
Qed.

(** ** Converting a listing entry *)

Lemma round_half_even_near n d :
  0 < d -> 2 * Z.abs (round_half_even n d * d - n) <= d.
Proof.
  intros Hd. unfold round_half_even.
  pose proof (Z.div_mod n d ltac:(lia)) as Hdm.
  pose proof (Z.mod_pos_bound n d Hd) as Hb.
  destruct (2 * (n mod d) <? d) eqn:E1; [apply Z.ltb_lt in E1; lia|].
  apply Z.ltb_ge in E1.
  destruct (d <? 2 * (n mod d)) eqn:E2; [apply Z.ltb_lt in E2; lia|].
  apply Z.ltb_ge in E2.
  destruct (Z.even (n / d)); lia.
Qed.

Lemma to_double_exact n : 0 <= n < 2 ^ 53 -> to_double n = n.
Proof.
  intros Hn. unfold to_double. rewrite (Z.abs_eq n) by lia.
  destruct (n <? 2 ^ 53) eqn:E; [reflexivity|]. apply Z.ltb_ge in E. lia.
Qed.

(** X6. For a size below [2 ^ 53] bytes, the numeral with two decimals
    that [_create_model_info] formats, and whose float it stores, is
    within half a hundredth of a GiB of the size: counted in hundredths,
    it is the size in GiB rounded to the nearest. *)
Theorem reported_size_is_within_half_a_hundredth (model : RawModel) :
  0 <= raw_size model < 2 ^ 53 ->
  2 * Z.abs (ModelInfo.size (OllamaClient._create_model_info model) * 1024 ^ 3
             - raw_size model * 100) <= 1024 ^ 3.
Proof.
  intros Hn. cbn [OllamaClient._create_model_info ModelInfo.size].
  rewrite (to_double_exact _ Hn).
  apply round_half_even_near. reflexivity.
Qed.

Lemma split_head_spec c s :
  (exists rest, s = split_head c s +:+ rest
                /\ (rest = "" \/ exists rest', rest = String c rest'))
  /\ forall a b, split_head c s <> a +:+ String c b.
Proof.
  induction s as [|x s (IH1 & IH2)]; cbn [split_head].
  - split.
    + exists "". split; [reflexivity|left; reflexivity].
    + intros [|y a] b; discriminate.
  - destruct (Ascii.eqb x c) eqn:E.
    + apply Ascii.eqb_eq in E. subst x. split.
      * exists (String c s). split; [reflexivity|right; eauto].
      * intros [|y a] b; discriminate.
    + apply Ascii.eqb_neq in E. split.
      * destruct IH1 as (rest & Hs & Hrest). exists rest. split; [|exact Hrest].
        change (String x s = String x (split_head c s +:+ rest)).
        f_equal. exact Hs.
      * intros [|y a] b; cbn; intros Eq; injection Eq as -> Eq'.
        -- contradiction.
        -- exact (IH2 a b Eq').
Qed.

(** X7. The date [_create_model_info] reports is the timestamp up to its
    first ["T"]: the timestamp is the date followed by nothing or by a
    part that starts with ["T"], and the date itself holds no ["T"]. *)
Theorem reported_date_is_the_timestamp_before_T (model : RawModel) :
  (exists rest,
     raw_modified_at model
       = ModelInfo.modified_at (OllamaClient._create_model_info model) +:+ rest
     /\ (rest = "" \/ exists rest', rest = String "T"%char rest'))
  /\ forall a b,
       ModelInfo.modified_at (OllamaClient._create_model_info model)
         <> a +:+ String "T"%char b.
Proof.
  cbn [OllamaClient._create_model_info ModelInfo.modified_at].
  apply split_head_spec.
Qed.

(** ** chat, on any input *)

(** X8. [chat] never changes the provisioner and makes at most one
    request, for the configured model and with the caller's messages,
    whatever its arguments and whatever the backend answers. *)
Theorem chat_makes_at_most_one_request be settings_num_ctx messages stream tools
    (self : OllamaClient.t) :
  state_of (OllamaClient.chat be settings_num_ctx messages stream tools self) = self
  /\ (actions (trace_of (OllamaClient.chat be settings_num_ctx messages stream tools self))
        = []
      \/ exists req,
           actions (trace_of (OllamaClient.chat be settings_num_ctx messages stream
                                tools self)) = [EvChat req]
           /\ req_messages req = messages
           /\ req_model req = Settings.model (OllamaClient.settings self)).
Proof.
  remember (OllamaClient.chat be settings_num_ctx messages stream tools self) as r eqn:Er.
  unfold OllamaClient.chat, try_except, OllamaClient.message_of,
    bind, gets, getattr, call, log, emit, raise, ret in Er.
  destruct (OllamaClient.initialized self); cbn in Er; [|subst r; split; [reflexivity|auto]].
  destruct (OllamaClient.list_truthy tools); cbn in Er;
    destruct (OllamaClient.client self); cbn in Er;
    try (subst r; split; [reflexivity|left; reflexivity]).
  - destruct (settings_num_ctx (OllamaClient.settings self)); cbn in Er;
      [|subst r; split; [reflexivity|left; reflexivity]].
    destruct (chat_reply be _) as [e | [m | chunks]]; cbn in Er;
      repeat (destruct (is_ResponseError _) || destruct (OllamaClient.flag_truthy _);
              cbn in Er);
      subst r; (split; [reflexivity|right; eexists; repeat split]).
  - destruct (chat_reply be _) as [e | [m | chunks]]; cbn in Er;
      repeat (destruct (is_ResponseError _) || destruct (OllamaClient.flag_truthy _);
              cbn in Er);
      subst r; (split; [reflexivity|right; eexists; repeat split]).
Qed.

(** X9. Without tools, a response that streams because of the configured
    default ([stream] not passed, [settings.stream] on) makes [chat]
    raise [TypeError]: the code subscripts the generator; the same
    response is handed back when the caller passes [stream=True]. *)
Theorem streaming_by_default_raises be settings_num_ctx messages tools chunks
    (self : OllamaClient.t) (c : OllamaClient.client_handle) :
  OllamaClient.initialized self = true ->
  OllamaClient.client self = Some c ->
  OllamaClient.list_truthy tools = false ->
  Settings.stream (OllamaClient.settings self) = true ->
  chat_reply be
    {| req_model := Settings.model (OllamaClient.settings self);
       req_messages := messages; req_tools := None; req_stream := true;
       req_options :=
         [("temperature", OptFloat (Settings.temperature (OllamaClient.settings self)))] |}
    = inr (Chunks chunks) ->
  outcome_of (OllamaClient.chat be settings_num_ctx messages None tools self)
    = Raise (Exn TypeError "'generator' object is not subscriptable")
  /\ outcome_of (OllamaClient.chat be settings_num_ctx messages (Some true) tools self)
    = Ret (OllamaClient.Response (Chunks chunks)).
Proof.
  intros Hi Hc Ht Hs Hreply.
  unfold OllamaClient.chat, try_except, OllamaClient.message_of,
    bind, gets, getattr, call, log, emit, raise, ret, outcome_of.
  rewrite Hi, Ht. cbn. rewrite Hc. cbn. rewrite Hs, Hreply. cbn.
  split; reflexivity.
Qed.

Section StartAndMain.
Context {Svc : Type} `{Service Svc}.
Variable env : Env.

Implicit Types p : Program.t Svc.

Lemma set_running_same p : Program.set_running (Program.running p) p = p.
Proof. destruct p; reflexivity. Qed.

(** On an orchestrator that never started, a method changes at most the
    running flag. *)
Lemma perform_only_running env' m p :
  never_started p ->
  exists b, state_of (perform env' m p) = Program.set_running b p.
Proof.
  intros Hp. pose proof (never_started_mapping p Hp) as Hsv.
  destruct Hp as (Hi & Hsc & _).
  destruct m as [fuel | fuel | | | ]; cbn [perform].
  - destruct (start_never_started env' fuel p Hsv) as (-> & _).
    exists (Program.running p). symmetry. apply set_running_same.
  - exists true. unfold Program.run, bind, modify, log, emit.
    rewrite (idle_running fuel (Program.set_running true p) eq_refl). reflexivity.
  - exists false. rewrite (stop_not_initialized env' p Hi). reflexivity.
  - exists (Program.running p). rewrite set_running_same.
    destruct Hsv as [E | E].
    + rewrite (bind_raise _ _ _ _ _ _ (validate_services_unset p E)). reflexivity.
    + rewrite (bind_run _ _ _ _ _ _ (validate_services_empty p E)). reflexivity.
  - exists (Program.running p). rewrite set_running_same.
    unfold Program._schedule_functions, bind, getattr. rewrite Hsc. reflexivity.
Qed.

Lemma new_not_started env' p tr :
  Program.new env' = (Ret p, tr) -> Program.started p = false.
Proof.
  unfold Program.new.
  destruct (OllamaClient.new _ _) as [[oc | e |] tr1]; try discriminate.
  destruct (Program.__init__ env' _) as [[[[] | e |] p'] tr'] eqn:E; try discriminate.
  intros Eq. injection Eq as <- _.
  unfold Program.__init__, bind at 1, gets in E. cbn [Program.ollama] in E.
  destruct (OllamaClient.initialized oc); cbn [negb] in E.
  - unfold bind at 1, modify, try_except, bind, gets in E.
    cbn [Program.settings Program.set_services] in E.
    destruct (DiscordService.new _ _) as [[d | e |] trd]; cbn [is_Exception] in E.
    + unfold getattr in E. destruct (DiscordService.client d); cbn in E.
      * destruct (run_reply (platform env')); cbn in E; injection E as <- _; reflexivity.
      * injection E as <- _; reflexivity.
    + cbn in E. injection E as <- _; reflexivity.
    + discriminate.
  - unfold log, emit in E. injection E as <- _. reflexivity.
Qed.

Lemma reachable_not_started p : reachable p -> Program.started p = false.
Proof.
  induction 1 as [env' p tr E | env' m p Hr IH].
  - exact (new_not_started env' p tr E).
  - destruct (perform_only_running env' m p (reachable_never_started p Hr)) as [b ->].
    destruct p; exact IH.
Qed.

(** X12. On every orchestrator the program can reach, [main()] never
    returns. With the (empty) mapping assigned and the version read it is
    still polling after any number of polls. In every other case
    [start()] raises, the shutdown that follows joins a thread that was
    never started, and [main()] raises that [RuntimeError]; the entry
    block logs it as fatal and exits with status 0. *)
Theorem main_never_returns fuel p :
  reachable p ->
  (forall v, Program.services p = Some [] -> version_reply env = inr v ->
     outcome_of (Main.main env fuel p) = OutOfFuel)
  /\ (outcome_of (Program.start env fuel p) <> OutOfFuel ->
      outcome_of (Main.main env fuel p)
        = Raise (Exn RuntimeError "cannot join thread before it is started")
      /\ outcome_of (Main.entry env fuel p) = Ret 0
      /\ EvLog EXCEPTION "Fatal error: cannot join thread before it is started"
           ∈ trace_of (Main.entry env fuel p)).
Proof.
  intros Hr.
  pose proof (reachable_never_started p Hr) as Hp.
  pose proof (reachable_not_started p Hr) as Hth.
  pose proof (never_started_mapping p Hp) as Hsv.
  destruct Hp as (Hi & _ & _).
  destruct (start_never_started env fuel p Hsv) as (Hst & Hnot & _ & Hloop).
  split.
  - intros v E Ev. destruct (Hloop v E Ev) as [Ho _].
    unfold Main.main, try_finally, try_except.
    destruct (Program.start env fuel p) as [[o p'] tr].
    unfold outcome_of in *. cbn [fst] in *. subst o. reflexivity.
  - intros Hfuel.
    assert (Hmain : exists tr,
               Main.main env fuel p
                 = (Raise (Exn RuntimeError "cannot join thread before it is started"),
                    Program.set_running false p, tr)).
    { unfold Main.main, try_finally, try_except.
      destruct (Program.start env fuel p) as [[o p'] tr].
      unfold outcome_of, state_of in *. cbn [fst snd] in *. subst p'.
      destruct o as [[] | e |]; [congruence| |congruence].
      cbn [is_Exception]. unfold log at 1, emit at 1. cbn [fst snd].
      unfold bind at 1, log at 1, emit at 1. unfold bind at 1.
      rewrite (stop_not_initialized env p Hi).
      unfold Main.join, bind, gets, raise. cbn [Program.started Program.set_running].
      rewrite Hth. eexists. reflexivity. }
    destruct Hmain as (tr & Emain). split; [rewrite Emain; reflexivity|].
    unfold Main.entry, bind, try_finally, try_except. rewrite Emain.
    cbn. split; [reflexivity|].
    apply elem_of_app. left. apply elem_of_app. left. apply elem_of_app. right.
    constructor.
Qed.

(** X13. In every state the program can reach, [stop()] does nothing
    but clear the running flag: it returns, and asks neither the backend
    to unload a model nor the scheduler to shut down. *)
Theorem reachable_stop_only_clears_the_flag p :
  reachable p ->
  Program.stop env p = (Ret tt, Program.set_running false p, []).
Proof.
  intros Hr. apply stop_not_initialized.
  apply (reachable_never_started p Hr).
Qed.

End StartAndMain.

Section Construction.
Context {Svc : Type} `{Service Svc}.


End Construction.

(** ** The slash commands *)

Lemma set_ollama_same a : Commands.set_ollama (Settings.ollama a) a = a.
Proof. destruct a; reflexivity. Qed.

Lemma requests_app (t1 t2 : trace) :
  Commands.requests (t1 ++ t2) = Commands.requests t1 ++ Commands.requests t2.
Proof. unfold Commands.requests. apply omap_app. Qed.

(** What [chat] does, on any input: the provisioner is left as it was,
    at most one request is made, and a request carries the configured
    model and temperature. Called without [stream], it returns the
    message of the response to that request. *)
Lemma chat_shape be settings_num_ctx messages stream tools (self : OllamaClient.t) :
  exists o tr,
    OllamaClient.chat be settings_num_ctx messages stream tools self = (o, self, tr)
    /\ (Commands.requests tr = []
        \/ exists req,
             Commands.requests tr = [req]
             /\ req_messages req = messages
             /\ req_model req = Settings.model (OllamaClient.settings self)
             /\ ("temperature", OptFloat (Settings.temperature (OllamaClient.settings self)))
                  ∈ req_options req)
    /\ (forall r, o = Ret r -> OllamaClient.flag_truthy stream = false ->
        exists m req,
          r = OllamaClient.Reply m /\ Commands.requests tr = [req]
          /\ chat_reply be req = inr (Single m)).
Proof.
  remember (OllamaClient.chat be settings_num_ctx messages stream tools self) as r eqn:Er.
  unfold OllamaClient.chat, try_except, OllamaClient.message_of,
    bind, gets, getattr, call, log, emit, raise, ret in Er.
  destruct (OllamaClient.initialized self); cbn in Er;
    [|subst r; eexists _, _; split; [reflexivity|split; [left; reflexivity|discriminate]]].
  destruct (OllamaClient.list_truthy tools); cbn in Er;
    destruct (OllamaClient.client self); cbn in Er;
    try (subst r; eexists _, _;
         split; [reflexivity|split; [left; reflexivity|discriminate]]).
  - destruct (settings_num_ctx (OllamaClient.settings self)); cbn in Er;
      [|subst r; eexists _, _;
        split; [reflexivity|split; [left; reflexivity|discriminate]]].
    destruct (chat_reply be _) as [e | [m | chunks]] eqn:Erep; cbn in Er.
    + destruct (is_ResponseError e); cbn in Er; subst r; eexists _, _;
        (split; [reflexivity|split; [|discriminate]]);
        right; eexists; (split; [reflexivity|]); cbn; repeat split;
        apply list_elem_of_here.
    + destruct stream as [[|]|]; cbn in Er; subst r; eexists _, _;
        (split; [reflexivity|split;
           [right; eexists; (split; [reflexivity|]); cbn; repeat split;
            apply list_elem_of_here|]]);
        intros r0 E0 F0; try discriminate F0;
        injection E0 as <-; exists m; eexists; (split; [reflexivity|]);
        (split; [reflexivity|exact Erep]).
    + destruct stream as [[|]|]; cbn in Er; subst r; eexists _, _;
        (split; [reflexivity|split;
           [right; eexists; (split; [reflexivity|]); cbn; repeat split;
            apply list_elem_of_here|]]);
        intros r0 E0 F0; try discriminate F0; discriminate E0.
  - destruct (chat_reply be _) as [e | [m | chunks]] eqn:Erep; cbn in Er.
    + destruct (is_ResponseError e); cbn in Er; subst r; eexists _, _;
        (split; [reflexivity|split; [|discriminate]]);
        right; eexists; (split; [reflexivity|]); cbn; repeat split;
        apply list_elem_of_here.
    + destruct stream as [[|]|]; cbn in Er, Erep; subst r; eexists _, _;
        (split; [reflexivity|split;
           [right; eexists; (split; [reflexivity|]); cbn; repeat split;
            apply list_elem_of_here|]]);
        intros r0 E0 F0; try discriminate F0;
        injection E0 as <-; exists m; eexists; (split; [reflexivity|]);
        (split; [reflexivity|exact Erep]).
    + destruct stream as [[|]|]; cbn in Er, Erep; subst r; eexists _, _;
        (split; [reflexivity|split;
           [right; eexists; (split; [reflexivity|]); cbn; repeat split;
            apply list_elem_of_here|]]);
        intros r0 E0 F0; try discriminate F0; discriminate E0.
Qed.

Lemma list_models_state be (self : OllamaClient.t) :
  state_of (OllamaClient.list_models be self) = self.
Proof.
  unfold OllamaClient.list_models, try_except, bind, getattr, call, log, emit, raise, ret.
  destruct (OllamaClient.client self); cbn; [|reflexivity].
  destruct (list_reply be) as [e | [models |]]; cbn; try reflexivity.
  destruct (is_ResponseError e); reflexivity.
Qed.

Lemma the_provisioner_on_settings f w :
  Commands.the_provisioner (Commands.on_settings f w)
  = Commands.with_settings (f (Settings.ollama (Commands.settings w))) (Commands.provisioner w).
Proof. reflexivity. Qed.

Lemma on_provisioner_run {A} (m : M OllamaClient.t A) w :
  Commands.on_provisioner m w
  = (outcome_of (m (Commands.the_provisioner w)),
     {| Commands.settings :=
          Commands.set_ollama
            (OllamaClient.settings (state_of (m (Commands.the_provisioner w))))
            (Commands.settings w);
        Commands.file := Commands.file w;
        Commands.provisioner := state_of (m (Commands.the_provisioner w));
        Commands.interaction := Commands.interaction w |},
     trace_of (m (Commands.the_provisioner w))).
Proof.
  unfold Commands.on_provisioner.
  destruct (m (Commands.the_provisioner w)) as [[o s] tr]. reflexivity.
Qed.

(** A method that leaves the provisioner alone leaves the shared
    settings, the file and the interaction alone. *)
Lemma on_provisioner_pure {A} (m : M OllamaClient.t A) w :
  state_of (m (Commands.the_provisioner w)) = Commands.the_provisioner w ->
  Commands.settings (state_of (Commands.on_provisioner m w)) = Commands.settings w
  /\ Commands.file (state_of (Commands.on_provisioner m w)) = Commands.file w
  /\ Commands.interaction (state_of (Commands.on_provisioner m w)) = Commands.interaction w
  /\ Commands.the_provisioner (state_of (Commands.on_provisioner m w))
     = Commands.the_provisioner w.
Proof.
  intros E. rewrite on_provisioner_run. cbn [state_of fst snd]. rewrite E.
  cbn. rewrite set_ollama_same. repeat split.
Qed.

(** [list_models], case by case. *)
Lemma list_models_cases be (self : OllamaClient.t) :
  exists o tr,
    OllamaClient.list_models be self = (o, self, tr)
    /\ o <> OutOfFuel.
Proof.
  unfold OllamaClient.list_models, try_except, bind, getattr, call, log, emit, raise, ret.
  destruct (OllamaClient.client self); cbn; [|eexists _, _; split; [reflexivity|discriminate]].
  destruct (list_reply be) as [e | [models |]]; cbn;
    try (eexists _, _; split; [reflexivity|discriminate]).
  destruct (is_ResponseError e); eexists _, _; (split; [reflexivity|discriminate]).
Qed.

(** X14. [set_temperature_command] never answers the interaction: it
    raises [AttributeError] at [settings_manager.reload()], a method the
    manager does not have. By then the new temperature is in the shared
    settings and in the settings file, and every later chat request of
    the provisioner carries it. *)
Theorem set_temperature_is_kept_but_never_confirmed be float_str t w :
  exists w',
    Commands.set_temperature_command float_str t w
      = (Raise (no_attribute "SettingsManager" "reload"), w', [EvSettingsSave])
    /\ Commands.interaction w' = Commands.interaction w
    /\ Settings.temperature (Settings.ollama (Commands.settings w')) = t
    /\ Commands.file w' = Some (Commands.settings w')
    /\ forall n messages stream tools req,
         req ∈ Commands.requests
                 (trace_of (Commands.on_provisioner
                              (OllamaClient.chat be n messages stream tools) w')) ->
         ("temperature", OptFloat t) ∈ req_options req.
Proof.
  eexists. split; [reflexivity|]. cbn. repeat split.
  intros n messages stream tools req. rewrite on_provisioner_run. cbn [trace_of snd].
  match goal with |- context [OllamaClient.chat be n messages stream tools ?s] =>
    destruct (chat_shape be n messages stream tools s) as (o & tr & -> & Hreq & _)
  end.
  cbn [trace_of snd]. destruct Hreq as [-> | (req' & -> & _ & _ & Ht)].
  - intros Hin. inversion Hin.
  - intros Hin. apply list_elem_of_singleton in Hin. subst req'. exact Ht.
Qed.

(** X15. [set_model_command] never confirms: whatever the backend
    answers, the one thing the user is sent is a follow-up that begins
    with "Unable to set model: ". When the model is in the listing, it
    has been put into the shared settings and saved all the same, and the
    failure reported is the missing [reload]; otherwise settings and file
    are as they were. *)
Theorem set_model_never_confirms be model w :
  Commands.interaction w = Commands.fresh ->
  exists w' tr reason,
    Commands.set_model_command be model w = (Ret tt, w', tr)
    /\ Commands.sent (Commands.interaction w')
       = [Commands.AsFollowup (Commands.Text ("Unable to set model: " +:+ reason))]
    /\ ((exists names,
           outcome_of (OllamaClient.list_models be (Commands.the_provisioner w)) = Ret names
           /\ model ∈ names) ->
        Settings.model (Settings.ollama (Commands.settings w')) = model
        /\ Commands.file w' = Some (Commands.settings w')
        /\ reason = "'SettingsManager' object has no attribute 'reload'")
    /\ (~ (exists names,
             outcome_of (OllamaClient.list_models be (Commands.the_provisioner w)) = Ret names
             /\ model ∈ names) ->
        Commands.settings w' = Commands.settings w
        /\ Commands.file w' = Commands.file w).
Proof.
  intros Hi.
  remember (Commands.set_model_command be model w) as r eqn:Er.
  unfold Commands.set_model_command, Commands.defer in Er.
  unfold bind at 1, bind at 1, gets at 1 in Er. rewrite Hi in Er. cbn [Commands.responded Commands.fresh] in Er.
  unfold modify at 1 in Er.
  unfold try_except in Er. unfold bind at 1 in Er.
  rewrite on_provisioner_run in Er.
  set (w1 := Commands.on_interaction _ w) in Er.
  assert (Hp : Commands.the_provisioner w1 = Commands.the_provisioner w) by reflexivity.
  rewrite Hp in Er.
  destruct (list_models_cases be (Commands.the_provisioner w)) as (o & tr0 & El & Ho).
  rewrite El in *. cbn [outcome_of state_of trace_of fst snd] in Er.
  assert (Hs : Commands.set_ollama
                 (OllamaClient.settings (Commands.the_provisioner w))
                 (Commands.settings w1) = Commands.settings w).
  { cbn. apply set_ollama_same. }
  rewrite Hs in Er.
  destruct o as [names | e |]; [| |congruence].
  - destruct (decide (model ∈ names)) as [Hin | Hin].
    + rewrite (bool_decide_eq_true_2 _ Hin) in Er. cbn in Er.
      subst r. rewrite Hi. cbn. eexists _, _, _. split; [reflexivity|]. cbn.
      split; [reflexivity|]. split.
      * intros _. repeat split.
      * intros Hn. exfalso. apply Hn. exists names. split; [reflexivity|exact Hin].
    + rewrite (bool_decide_eq_false_2 _ Hin) in Er. cbn in Er.
      subst r. rewrite Hi. cbn. eexists _, _, _. split; [reflexivity|]. cbn.
      split; [reflexivity|]. split.
      * intros (names' & E & Hin'). injection E as <-. contradiction.
      * intros _. split; reflexivity.
  - cbn in Er. subst r. rewrite Hi. cbn. eexists _, _, _. split; [reflexivity|]. cbn.
    split; [reflexivity|]. split.
    + intros (names' & E & _). discriminate.
    + intros _. split; reflexivity.
Qed.

Lemma the_provisioner_on_interaction f w :
  Commands.the_provisioner (Commands.on_interaction f w) = Commands.the_provisioner w.
Proof. reflexivity. Qed.

(** X16. [chat_command] answers with one follow-up or none. When it
    returns, the user has been sent exactly the content of the message
    the backend answered the one request with, as plain text when it has
    at most 2000 code points and as an embed otherwise. When it raises,
    the interaction has been deferred and nothing has been sent. *)
Theorem chat_command_sends_the_reply_once be user message w :
  Commands.interaction w = Commands.fresh ->
  (outcome_of (Commands.chat_command be user message w) = Ret tt ->
   exists m req,
     chat_reply be req = inr (Single m)
     /\ req_messages req = [{| role := "user"; content := message |}]
     /\ Commands.sent (Commands.interaction
                         (state_of (Commands.chat_command be user message w)))
        = [Commands.AsFollowup
             (if (2000 <? code_points (content m))%nat
              then Commands.Embed "Ragnar's response" (content m) Commands.embed_color
              else Commands.Text (content m))])
  /\ (outcome_of (Commands.chat_command be user message w) <> Ret tt ->
      Commands.interaction (state_of (Commands.chat_command be user message w))
      = {| Commands.responded := true; Commands.sent := [] |}).
Proof.
  intros Hi.
  remember (Commands.chat_command be user message w) as r eqn:Er.
  unfold Commands.chat_command, Commands.defer in Er.
  unfold bind at 1, log at 1, emit at 1, bind at 1, bind at 1, gets at 1 in Er.
  rewrite Hi in Er. cbn [Commands.responded Commands.fresh] in Er.
  unfold modify at 1, bind at 1 in Er.
  rewrite on_provisioner_run, the_provisioner_on_interaction in Er.
  destruct (chat_shape be Settings.OllamaModel_num_ctx
              [{| role := "user"; content := message |}] None None
              (Commands.the_provisioner w)) as (o & tr & Ec & Hreq & Hret).
  rewrite Ec in Er. cbn [outcome_of state_of trace_of fst snd] in Er.
  destruct o as [r0 | e |].
  - destruct (Hret r0 eq_refl eq_refl) as (m & req & -> & Hr & Erep).
    destruct Hreq as [Hreq | (req' & Hreq & Hm & _)]; [rewrite Hreq in Hr; discriminate|].
    rewrite Hreq in Hr. injection Hr as ->.
    unfold Commands.response_truthy, Commands.content_of, Commands.send_by_length in Er.
    cbn [negb] in Er. unfold bind at 1, ret at 1 in Er.
    destruct (2000 <? code_points (content m))%nat eqn:El;
      unfold Commands.followup_send, bind, gets, modify, log, emit in Er;
      cbn in Er; rewrite Hi in Er; cbn in Er; subst r;
      (split; [intros _|intros Hn; exfalso; apply Hn; reflexivity]);
      exists m, req; rewrite El;
      (split; [assumption|split; [assumption|reflexivity]]).
  - subst r. split; [discriminate|]. intros _. cbn. rewrite Hi. reflexivity.
  - subst r. split; [discriminate|]. intros _. cbn. rewrite Hi. reflexivity.
Qed.

Lemma web_search_cases search query (self : OllamaClient.t) :
  exists o tr,
    WebSearch.web_search search query self = (o, self, tr)
    /\ forall text, o = Ret text ->
         truthy text = true
         /\ (search query = inr text
             \/ (search query = inr "" /\ text = WebSearch.no_results)).
Proof.
  unfold WebSearch.web_search, bind, getattr, build, log, emit, ret.
  destruct (OllamaClient.online_agent self); cbn;
    [|eexists _, _; split; [reflexivity|discriminate]].
  destruct (search query) as [e | response]; cbn;
    [eexists _, _; split; [reflexivity|discriminate]|].
  destruct (truthy response) eqn:Et; cbn; eexists _, _; (split; [reflexivity|]);
    intros text E; injection E as <-.
  - split; [exact Et|left; reflexivity].
  - split; [reflexivity|right]. split; [|reflexivity].
    unfold truthy in Et. apply negb_false_iff, String.eqb_eq in Et. subst. reflexivity.
Qed.

(** X17. [web_search_command] never sends an empty answer. When it
    returns, the user has been sent one follow-up: what the search
    answered, or the "no results" sentence when the search answered the
    empty text; as plain text up to 2000 code points and as an embed
    beyond. When it raises, the interaction has been deferred and
    nothing has been sent. *)
Theorem web_search_command_never_sends_an_empty_answer search query w :
  Commands.interaction w = Commands.fresh ->
  (outcome_of (Commands.web_search_command search query w) = Ret tt ->
   exists text,
     truthy text = true
     /\ (search query = inr text
         \/ (search query = inr "" /\ text = WebSearch.no_results))
     /\ Commands.sent (Commands.interaction
                         (state_of (Commands.web_search_command search query w)))
        = [Commands.AsFollowup
             (if (2000 <? code_points text)%nat
              then Commands.Embed "Ragnar's response" text Commands.embed_color
              else Commands.Text text)])
  /\ (outcome_of (Commands.web_search_command search query w) <> Ret tt ->
      Commands.interaction (state_of (Commands.web_search_command search query w))
      = {| Commands.responded := true; Commands.sent := [] |}).
Proof.
  intros Hi.
  remember (Commands.web_search_command search query w) as r eqn:Er.
  unfold Commands.web_search_command, Commands.defer in Er.
  unfold bind at 1, bind at 1, gets at 1 in Er.
  rewrite Hi in Er. cbn [Commands.responded Commands.fresh] in Er.
  unfold modify at 1, bind at 1 in Er.
  rewrite on_provisioner_run, the_provisioner_on_interaction in Er.
  destruct (web_search_cases search query (Commands.the_provisioner w))
    as (o & tr & Ec & Hret).
  rewrite Ec in Er. cbn [outcome_of state_of trace_of fst snd] in Er.
  destruct o as [text | e |].
  - destruct (Hret text eq_refl) as (Ht & Hs).
    unfold Commands.send_by_length in Er.
    destruct (2000 <? code_points text)%nat eqn:El;
      unfold Commands.followup_send, bind, gets, modify, log, emit in Er;
      cbn in Er; rewrite Hi in Er; cbn in Er; subst r;
      (split; [intros _|intros Hn; exfalso; apply Hn; reflexivity]);
      exists text; rewrite El;
      (split; [assumption|split; [assumption|reflexivity]]).
  - subst r. split; [discriminate|]. intros _. cbn. rewrite Hi. reflexivity.
  - subst r. split; [discriminate|]. intros _. cbn. rewrite Hi. reflexivity.
Qed.

(** ** The version read from pyproject.toml *)

Lemma string_app_assoc (a b c : string) : (a +:+ b) +:+ c = a +:+ (b +:+ c).
Proof.
  induction a as [|x a IH]; [reflexivity|].
  change (String x ((a +:+ b) +:+ c) = String x (a +:+ (b +:+ c))).
  f_equal. exact IH.
Qed.

Lemma string_app_length (a b : string) :
  String.length (a +:+ b) = (String.length a + String.length b)%nat.
Proof.
  induction a as [|x a IH]; [reflexivity|].
  change (S (String.length (a +:+ b)) = S (String.length a + String.length b)).
  f_equal. exact IH.
Qed.

Lemma strip_spec p s r : Version.strip p s = Some r <-> s = p +:+ r.
Proof.
  revert s. induction p as [|a p IH]; intros s.
  - change ("" +:+ r) with r. cbn.
    split; [intros E; injection E as ->; reflexivity|intros ->; reflexivity].
  - change (String a p +:+ r) with (String a (p +:+ r)). cbn [Version.strip].
    destruct s as [|b s]; [split; discriminate|].
    destruct (Ascii.eqb a b) eqn:E.
    + apply Ascii.eqb_eq in E. subst b. rewrite IH. split; [intros ->; reflexivity|].
      intros E. injection E as ->. reflexivity.
    + apply Ascii.eqb_neq in E. split; [discriminate|]. intros E'. injection E' as -> _.
      contradiction.
Qed.

(** A text that starts like [p +:+ r] and is at least as long as [p]
    starts with [p]. *)
Lemma prefix_of_longer p : forall u x r,
  u +:+ x = p +:+ r -> (String.length p <= String.length u)%nat ->
  exists b, u = p +:+ b.
Proof.
  induction p as [|a p IH]; intros u x r E L.
  - exists u. reflexivity.
  - destruct u as [|c u]; [cbn in L; lia|].
    change (String c (u +:+ x) = String a (p +:+ r)) in E. cbn in L. injection E as -> E.
    destruct (IH u x r E ltac:(lia)) as [b ->]. exists b. reflexivity.
Qed.

Lemma group_cons c s :
  Version.group (String c s)
  = if Ascii.eqb c Version.newline then None
    else match Version.group s with
         | Some x => Some (String c x)
         | None =>
             match s with
             | String q _ =>
                 if Ascii.eqb q Version.quote then Some (String c "") else None
             | EmptyString => None
             end
         end.
Proof. reflexivity. Qed.

Lemma group_none c s :
  c <> Version.newline -> Version.group (String c s) = None ->
  Version.has Version.quote (split_head Version.newline s) = false.
Proof.
  revert c. induction s as [|d s IH]; intros c Hc E; [reflexivity|].
  rewrite group_cons in E. apply Ascii.eqb_neq in Hc. rewrite Hc in E.
  destruct (Version.group (String d s)) eqn:Eg; [discriminate|].
  destruct (Ascii.eqb d Version.quote) eqn:Eq; [discriminate|].
  cbn [split_head]. destruct (Ascii.eqb d Version.newline) eqn:Ed; [reflexivity|].
  cbn [Version.has]. rewrite Eq. cbn [orb].
  apply (IH d); [apply Ascii.eqb_neq; exact Ed|exact Eg].
Qed.

Lemma group_none_conv c s :
  Version.has Version.quote (split_head Version.newline s) = false ->
  Version.group (String c s) = None.
Proof.
  revert c. induction s as [|d s IH]; intros c Hq; rewrite group_cons.
  - destruct (Ascii.eqb c Version.newline); reflexivity.
  - destruct (Ascii.eqb c Version.newline); [reflexivity|].
    cbn [split_head] in Hq.
    destruct (Ascii.eqb d Version.newline) eqn:Ed.
    + rewrite group_cons, Ed. apply Ascii.eqb_eq in Ed. subst d. reflexivity.
    + cbn [Version.has] in Hq. apply orb_false_iff in Hq. destruct Hq as [Hd Hq].
      rewrite (IH d Hq), Hd. reflexivity.
Qed.

Lemma group_sound s x :
  Version.group s = Some x ->
  x <> "" /\ Version.has Version.newline x = false
  /\ exists post,
       s = x +:+ String Version.quote post
       /\ Version.has Version.quote (split_head Version.newline post) = false.
Proof.
  revert x. induction s as [|c s IH]; intros x E; [discriminate|].
  rewrite group_cons in E.
  destruct (Ascii.eqb c Version.newline) eqn:Ec; [discriminate|].
  destruct (Version.group s) as [y|] eqn:Eg.
  - injection E as <-. destruct (IH y eq_refl) as (_ & Hn & post & -> & Hq).
    split; [discriminate|]. split; [cbn [Version.has]; rewrite Ec; exact Hn|].
    exists post. split; [reflexivity|exact Hq].
  - destruct s as [|q s']; [discriminate|].
    destruct (Ascii.eqb q Version.quote) eqn:Eq; [|discriminate].
    injection E as <-. apply Ascii.eqb_eq in Eq. subst q.
    split; [discriminate|]. split; [cbn [Version.has]; rewrite Ec; reflexivity|].
    exists s'. split; [reflexivity|].
    apply (group_none Version.quote); [discriminate|exact Eg].
Qed.

Lemma group_complete x : forall post,
  x <> "" -> Version.has Version.newline x = false ->
  exists x',
    Version.group (x +:+ String Version.quote post) = Some x'
    /\ (Version.has Version.quote (split_head Version.newline post) = false -> x' = x).
Proof.
  induction x as [|c x IH]; intros post Hx Hn; [contradiction|].
  cbn [Version.has] in Hn. apply orb_false_iff in Hn. destruct Hn as [Hc Hn].
  change (String c x +:+ String Version.quote post)
    with (String c (x +:+ String Version.quote post)).
  rewrite group_cons, Hc.
  destruct x as [|d x].
  - change ("" +:+ String Version.quote post) with (String Version.quote post).
    destruct (Version.group (String Version.quote post)) as [y|] eqn:Eg.
    + eexists. split; [reflexivity|]. intros Hq.
      rewrite (group_none_conv Version.quote post Hq) in Eg. discriminate.
    + rewrite Ascii.eqb_refl. eexists. split; reflexivity.
  - destruct (IH post ltac:(discriminate) Hn) as (x' & -> & Hx').
    eexists. split; [reflexivity|]. intros Hq. rewrite (Hx' Hq). reflexivity.
Qed.

Lemma search_sound s v :
  Version.search s = Some v ->
  exists pre rest, s = pre +:+ Version.opening +:+ rest /\ Version.group rest = Some v.
Proof.
  induction s as [|c s IH].
  - cbn. discriminate.
  - cbn [Version.search]. unfold Version.match_here at 1.
    destruct (Version.strip Version.opening (String c s)) as [rest|] eqn:Es.
    + apply strip_spec in Es. destruct (Version.group rest) as [x|] eqn:Eg.
      * intros E. injection E as <-. exists "", rest. split; [exact Es|exact Eg].
      * intros E. destruct (IH E) as (pre & rest' & -> & Eg').
        exists (String c pre), rest'. split; [reflexivity|exact Eg'].
    + intros E. destruct (IH E) as (pre & rest' & -> & Eg').
      exists (String c pre), rest'. split; [reflexivity|exact Eg'].
Qed.

Lemma search_complete pre : forall rest v,
  Version.group rest = Some v ->
  exists v',
    Version.search (pre +:+ Version.opening +:+ rest) = Some v'
    /\ ((forall a b, pre +:+ Version.opening = a +:+ Version.opening +:+ b -> b = "") ->
        v' = v).
Proof.
  induction pre as [|c pre IH]; intros rest v Eg.
  - exists v. split; [|reflexivity].
    change ("" +:+ Version.opening +:+ rest) with (Version.opening +:+ rest).
    assert (Em : Version.match_here (Version.opening +:+ rest) = Some v).
    { unfold Version.match_here.
      rewrite (proj2 (strip_spec Version.opening _ rest) eq_refl). exact Eg. }
    destruct (Version.opening +:+ rest); cbn [Version.search]; rewrite Em; reflexivity.
  - destruct (IH rest v Eg) as (v' & Es & Hv').
    change (String c pre +:+ Version.opening +:+ rest)
      with (String c (pre +:+ Version.opening +:+ rest)).
    cbn [Version.search].
    destruct (Version.match_here (String c (pre +:+ Version.opening +:+ rest)))
      as [w|] eqn:Em.
    + exists w. split; [reflexivity|]. intros Hleft. exfalso.
      unfold Version.match_here in Em.
      destruct (Version.strip _ _) as [r|] eqn:Estrip; [|discriminate].
      apply strip_spec in Estrip.
      change (String c (pre +:+ Version.opening +:+ rest))
        with (String c pre +:+ (Version.opening +:+ rest)) in Estrip.
      rewrite <- string_app_assoc in Estrip.
      destruct (prefix_of_longer Version.opening (String c pre +:+ Version.opening) rest r
                  Estrip) as [b Eb].
      { rewrite string_app_length. lia. }
      pose proof (Hleft "" b Eb) as ->.
      apply (f_equal String.length) in Eb.
      rewrite !string_app_length in Eb. cbn in Eb. lia.
    + exists v'. split; [exact Es|]. intros Hleft. apply Hv'.
      intros a b E. apply (Hleft (String c a) b).
      change (String c (pre +:+ Version.opening) = String c (a +:+ Version.opening +:+ b)).
      rewrite E. reflexivity.
Qed.

(** X18. What [get_version] returns stands in the file between the
    opening ([version = ] and a quote) and a quote, is not empty and holds
    no newline, and no further quote follows on the line: the capture
    runs to the last quote of the line. *)
Theorem version_is_quoted_in_the_file text version :
  Version.get_version (inr text) = inr version ->
  version <> ""
  /\ Version.has Version.newline version = false
  /\ exists pre post,
       text = pre +:+ Version.opening +:+ version +:+ String Version.quote post
       /\ Version.has Version.quote (split_head Version.newline post) = false.
Proof.
  unfold Version.get_version.
  destruct (Version.search text) as [v|] eqn:Es; [|discriminate].
  intros E. injection E as ->.
  destruct (search_sound text version Es) as (pre & rest & -> & Eg).
  destruct (group_sound rest version Eg) as (Hne & Hnl & post & -> & Hq).
  split; [exact Hne|]. split; [exact Hnl|]. exists pre, post. split; [reflexivity|exact Hq].
Qed.

(** X19. A file that holds the opening, a [v] that is not empty and
    stands on one line, and a quote has a version: [get_version] does not
    raise. It returns [v] itself when this is the first place where the
    opening stands and no other quote follows on the line. *)
Theorem version_in_the_file_is_found pre v post :
  v <> "" ->
  Version.has Version.newline v = false ->
  exists found,
    Version.get_version
      (inr (pre +:+ Version.opening +:+ v +:+ String Version.quote post)) = inr found
    /\ ((forall a b, pre +:+ Version.opening = a +:+ Version.opening +:+ b -> b = "") ->
        Version.has Version.quote (split_head Version.newline post) = false ->
        found = v).
Proof.
  intros Hne Hnl.
  destruct (group_complete v post Hne Hnl) as (x' & Eg & Hx').
  destruct (search_complete pre _ x' Eg) as (v' & Es & Hv').
  exists v'. unfold Version.get_version. rewrite Es. split; [reflexivity|].
  intros Hleft Hq. rewrite (Hv' Hleft). exact (Hx' Hq).
Qed.

(** ** The log cleaner *)

Lemma cleaned_files_spec files cleaned :
  LogCleaner.cleaned_files files = inr cleaned ->
  cleaned = List.filter LogCleaner.doomed files.
Proof.
  revert cleaned. induction files as [|f files IH]; intros cleaned E; cbn in E.
  - injection E as <-. reflexivity.
  - cbn [List.filter]. unfold LogCleaner.doomed at 1.
    destruct (LogCleaner.is_log_name (LogCleaner.file_name f)); cbn [andb].
    + destruct (LogCleaner.stat f) as [e | st]; [discriminate|].
      destruct (LogCleaner.cleaned_files files) as [e | l]; [discriminate|].
      injection E as <-. rewrite (IH l eq_refl). reflexivity.
    + exact (IH cleaned E).
Qed.

Lemma cleaned_files_total files :
  (forall f, f ∈ files -> LogCleaner.is_log_name (LogCleaner.file_name f) = true ->
             exists st, LogCleaner.stat f = inr st) ->
  LogCleaner.cleaned_files files = inr (List.filter LogCleaner.doomed files).
Proof.
  induction files as [|f files IH]; intros Hst; [reflexivity|].
  cbn [LogCleaner.cleaned_files List.filter]. unfold LogCleaner.doomed at 1.
  rewrite IH by (intros g Hg; apply Hst; apply list_elem_of_further; exact Hg).
  destruct (LogCleaner.is_log_name (LogCleaner.file_name f)) eqn:En; cbn [andb];
    [|reflexivity].
  destruct (Hst f (list_elem_of_here _ _) En) as [st ->]. reflexivity.
Qed.

Lemma filter_all {A} (l : list A) : List.filter (fun _ => true) l = l.
Proof. induction l as [|x l IH]; cbn; [reflexivity|]. f_equal. exact IH. Qed.

(** The loop of [unlink()]s: it removes the files of a first part of the
    list, all of it when it returns. *)
Lemma unlink_loop cleaned : forall dir,
  exists done rest,
    cleaned = done ++ rest
    /\ (forall g, g ∈ done -> LogCleaner.unlink_error g = None)
    /\ state_of (for_each cleaned LogCleaner.unlink dir)
       = List.filter (fun f => forallb (fun g => negb (LogCleaner.named (LogCleaner.file_name g) f))
                                       done) dir
    /\ trace_of (for_each cleaned LogCleaner.unlink dir) = []
    /\ ((outcome_of (for_each cleaned LogCleaner.unlink dir) = Ret tt /\ rest = [])
        \/ exists e f rest',
             outcome_of (for_each cleaned LogCleaner.unlink dir) = Raise e
             /\ rest = f :: rest' /\ LogCleaner.unlink_error f = Some e).
Proof.
  induction cleaned as [|f cleaned IH]; intros dir.
  - exists [], []. cbn. split; [reflexivity|]. split; [intros g Hg; inversion Hg|].
    split; [symmetry; apply filter_all|]. split; [reflexivity|].
    left. split; reflexivity.
  - cbn [for_each].
    destruct (LogCleaner.unlink_error f) as [e|] eqn:Eu.
    + assert (E1 : LogCleaner.unlink f dir = (Raise e, dir, []))
        by (unfold LogCleaner.unlink; rewrite Eu; reflexivity).
      rewrite (bind_raise _ _ _ _ _ _ E1).
      exists [], (f :: cleaned). cbn. split; [reflexivity|].
      split; [intros g Hg; inversion Hg|].
      split; [symmetry; apply filter_all|]. split; [reflexivity|].
      right. exists e, f, cleaned. split; [reflexivity|]. split; [reflexivity|exact Eu].
    + assert (E1 : LogCleaner.unlink f dir
                   = (Ret tt,
                      List.filter (fun x => negb (LogCleaner.named (LogCleaner.file_name f) x)) dir,
                      []))
        by (unfold LogCleaner.unlink; rewrite Eu; reflexivity).
      rewrite (bind_run _ _ _ _ _ _ E1).
      destruct (IH (List.filter (fun x => negb (LogCleaner.named (LogCleaner.file_name f) x)) dir))
        as (done & rest & -> & Hdone & Hs & Ht & Ho).
      destruct (for_each (done ++ rest) LogCleaner.unlink _) as [[o s] t].
      unfold outcome_of, state_of, trace_of in *. cbn [fst snd] in *.
      exists (f :: done), rest. split; [reflexivity|]. split.
      { intros g Hg. apply elem_of_cons in Hg. destruct Hg as [-> | Hg]; [exact Eu|auto]. }
      split.
      { rewrite Hs. clear. induction dir as [|x dir IH]; cbn; [reflexivity|].
        destruct (negb (LogCleaner.named (LogCleaner.file_name f) x)); cbn.
        - destruct (forallb _ done); [f_equal|]; exact IH.
        - exact IH. }
      split; [rewrite Ht; reflexivity|exact Ho].
Qed.

Lemma log_cleaner_run dir :
  exists dir' tr done,
    LogCleaner.log_cleaner dir = (Ret tt, dir', tr)
    /\ dir' = List.filter (fun f => forallb (fun g => negb (LogCleaner.named (LogCleaner.file_name g) f))
                                      done) dir
    /\ (forall g, g ∈ done ->
          g ∈ dir /\ LogCleaner.doomed g = true /\ LogCleaner.unlink_error g = None)
    /\ ((forall f, f ∈ dir -> LogCleaner.is_log_name (LogCleaner.file_name f) = true ->
                   exists st, LogCleaner.stat f = inr st) ->
        (forall f, f ∈ dir -> LogCleaner.unlink_error f = None) ->
        done = List.filter LogCleaner.doomed dir
        /\ tr = match done with
                | [] => []
                | _ :: _ => [LogCleaner.completed (List.length done)]
                end).
Proof.
  unfold LogCleaner.log_cleaner, try_except, bind at 1, get, bind at 1, build.
  destruct (LogCleaner.cleaned_files dir) as [e | cleaned] eqn:Ec.
  - cbn. exists dir, [EvLog EXCEPTION ("Failed to clean old logs: " +:+ exn_msg e)], [].
    split; [reflexivity|]. split; [symmetry; apply filter_all|].
    split; [intros g Hg; inversion Hg|].
    intros Hst _. rewrite (cleaned_files_total dir Hst) in Ec. discriminate.
  - pose proof (cleaned_files_spec dir cleaned Ec) as Hc.
    destruct (unlink_loop cleaned dir) as (done & rest & Hsplit & Hdone & Hs & Ht & Ho).
    unfold bind.
    destruct (for_each cleaned LogCleaner.unlink dir) as [[o s] t].
    unfold outcome_of, state_of, trace_of in *. cbn [fst snd] in *. subst s t.
    assert (Hin : forall g, g ∈ done ->
              g ∈ dir /\ LogCleaner.doomed g = true /\ LogCleaner.unlink_error g = None).
    { intros g Hg. split; [|split; [|auto]].
      - assert (Hg' : g ∈ cleaned) by (rewrite Hsplit; apply elem_of_app; left; exact Hg).
        rewrite Hc in Hg'. apply list_elem_of_In, List.filter_In in Hg'.
        apply list_elem_of_In. tauto.
      - assert (Hg' : g ∈ cleaned) by (rewrite Hsplit; apply elem_of_app; left; exact Hg).
        rewrite Hc in Hg'. apply list_elem_of_In, List.filter_In in Hg'. tauto. }
    destruct Ho as [[-> ->] | (e & f & rest' & -> & -> & Ef)].
    + rewrite app_nil_r in Hsplit. subst done.
      destruct cleaned as [|c cleaned'] eqn:Ecl.
      * cbn. eexists _, _, []. split; [reflexivity|]. split; [reflexivity|].
        split; [exact Hin|]. intros _ _. split; [exact Hc|reflexivity].
      * cbn. eexists _, _, (c :: cleaned'). split; [reflexivity|]. split; [reflexivity|].
        split; [exact Hin|]. intros _ _. split; [exact Hc|reflexivity].
    + cbn. eexists _, _, done. split; [reflexivity|]. split; [reflexivity|].
      split; [exact Hin|]. intros Hst Hun. exfalso.
      assert (Hf : f ∈ dir).
      { assert (Hf' : f ∈ cleaned)
          by (rewrite Hsplit; apply elem_of_app; right; apply list_elem_of_here).
        rewrite Hc in Hf'. apply list_elem_of_In, List.filter_In in Hf'.
        apply list_elem_of_In. tauto. }
      rewrite (Hun f Hf) in Ef. discriminate.
Qed.

Lemma same_name_same_file dir : forall f g,
  NoDup (map LogCleaner.file_name dir) ->
  f ∈ dir -> g ∈ dir -> LogCleaner.file_name f = LogCleaner.file_name g -> f = g.
Proof.
  induction dir as [|x dir IH]; intros f g Hnd Hf Hg E; [inversion Hf|].
  cbn in Hnd. apply NoDup_cons in Hnd. destruct Hnd as [Hx Hnd].
  apply elem_of_cons in Hf. apply elem_of_cons in Hg.
  destruct Hf as [-> | Hf], Hg as [-> | Hg].
  - reflexivity.
  - exfalso. apply Hx. rewrite E. apply list_elem_of_fmap. exists g. auto.
  - exfalso. apply Hx. rewrite <- E. apply list_elem_of_fmap. exists f. auto.
  - exact (IH f g Hnd Hf Hg E).
Qed.

Lemma named_same f g :
  LogCleaner.named (LogCleaner.file_name g) f = true
  <-> LogCleaner.file_name f = LogCleaner.file_name g.
Proof. unfold LogCleaner.named. apply String.eqb_eq. Qed.

(** X20. [log_cleaner] never raises and never creates or changes a
    file. In a directory (no two entries share a name) every file that is
    gone afterwards matched the pattern of the log files, was older than
    eight hours or empty, and its [unlink()] succeeded: whatever fails on
    the way, a younger file that is not empty, or a file with another
    name, is still there. *)
Theorem log_cleaner_only_removes_expired_logs dir :
  NoDup (map LogCleaner.file_name dir) ->
  exists dir' tr,
    LogCleaner.log_cleaner dir = (Ret tt, dir', tr)
    /\ (forall f, f ∈ dir' -> f ∈ dir)
    /\ (forall f, f ∈ dir -> f ∉ dir' ->
        LogCleaner.doomed f = true /\ LogCleaner.unlink_error f = None).
Proof.
  intros Hnd.
  destruct (log_cleaner_run dir) as (dir' & tr & done & E & -> & Hdone & _).
  exists (List.filter
            (fun f => forallb (fun g => negb (LogCleaner.named (LogCleaner.file_name g) f)) done)
            dir), tr.
  split; [exact E|]. split.
  - intros f Hf. apply list_elem_of_In, List.filter_In in Hf. apply list_elem_of_In. tauto.
  - intros f Hf Hgone.
    destruct (forallb (fun g => negb (LogCleaner.named (LogCleaner.file_name g) f)) done)
      eqn:Ef.
    + exfalso. apply Hgone. apply list_elem_of_In, List.filter_In.
      split; [apply list_elem_of_In; exact Hf|exact Ef].
    + assert (Hex : exists g, List.In g done
                      /\ LogCleaner.named (LogCleaner.file_name g) f = true).
      { clear -Ef. induction done as [|g done IH]; [discriminate|].
        cbn in Ef. destruct (LogCleaner.named (LogCleaner.file_name g) f) eqn:En.
        - exists g. split; [left; reflexivity|exact En].
        - cbn in Ef. destruct (IH Ef) as (g' & Hg' & En'). exists g'. split; [right|]; auto. }
      destruct Hex as (g & Hg & En). apply list_elem_of_In in Hg.
      destruct (Hdone g Hg) as (Hgd & Hd & Hu).
      apply named_same in En.
      rewrite (same_name_same_file dir f g Hnd Hf Hgd En). split; assumption.
Qed.

(** When no [stat()] and no [unlink()] fails, the cleaner removes the
    expired log files, all of them, and reports how many. *)
Lemma log_cleaner_clean dir :
  NoDup (map LogCleaner.file_name dir) ->
  (forall f, f ∈ dir -> LogCleaner.is_log_name (LogCleaner.file_name f) = true ->
             exists st, LogCleaner.stat f = inr st) ->
  (forall f, f ∈ dir -> LogCleaner.unlink_error f = None) ->
  LogCleaner.log_cleaner dir
    = (Ret tt,
       List.filter (fun f => negb (LogCleaner.doomed f)) dir,
       match List.filter LogCleaner.doomed dir with
       | [] => []
       | _ :: _ => [LogCleaner.completed (List.length (List.filter LogCleaner.doomed dir))]
       end).
Proof.
  intros Hnd Hst Hun.
  destruct (log_cleaner_run dir) as (dir' & tr & done & E & -> & Hdone & Hall).
  destruct (Hall Hst Hun) as [-> ->]. rewrite E. f_equal. f_equal.
  apply List.filter_ext_in. intros f Hf. apply list_elem_of_In in Hf.
  destruct (LogCleaner.doomed f) eqn:Ed; cbn [negb].
  - apply not_true_is_false. intros Hall'.
    rewrite forallb_forall in Hall'.
    assert (Hin : List.In f (List.filter LogCleaner.doomed dir)).
    { apply List.filter_In. split; [apply list_elem_of_In; exact Hf|exact Ed]. }
    specialize (Hall' f Hin). apply negb_true_iff in Hall'.
    assert (LogCleaner.named (LogCleaner.file_name f) f = true)
      by (apply named_same; reflexivity).
    congruence.
  - apply forallb_forall. intros g Hg. apply List.filter_In in Hg. destruct Hg as [Hg Hgd].
    apply negb_true_iff, not_true_is_false. intros En. apply named_same in En.
    apply list_elem_of_In in Hg.
    rewrite (same_name_same_file dir f g Hnd Hf Hg En) in Ed. congruence.
Qed.

Lemma filter_negb_doomed_twice (dir : list LogCleaner.LogFile) :
  List.filter LogCleaner.doomed (List.filter (fun f => negb (LogCleaner.doomed f)) dir) = []
  /\ List.filter (fun f => negb (LogCleaner.doomed f))
       (List.filter (fun f => negb (LogCleaner.doomed f)) dir)
     = List.filter (fun f => negb (LogCleaner.doomed f)) dir.
Proof.
  induction dir as [|f dir [IH1 IH2]]; [split; reflexivity|].
  cbn [List.filter]. destruct (LogCleaner.doomed f) eqn:Ed; cbn [negb]; [split; assumption|].
  cbn [List.filter]. rewrite Ed. cbn [negb]. rewrite IH1, IH2. split; reflexivity.
Qed.

Lemma NoDup_names_filter (p : LogCleaner.LogFile -> bool) dir :
  NoDup (map LogCleaner.file_name dir) ->
  NoDup (map LogCleaner.file_name (List.filter p dir)).
Proof.
  induction dir as [|f dir IH]; intros Hnd; [exact Hnd|].
  cbn in Hnd. apply NoDup_cons in Hnd. destruct Hnd as [Hf Hnd].
  cbn [List.filter]. destruct (p f); [|exact (IH Hnd)].
  cbn. apply NoDup_cons. split; [|exact (IH Hnd)].
  intros Hin. apply Hf. apply list_elem_of_fmap in Hin. destruct Hin as (g & -> & Hg).
  apply list_elem_of_fmap. exists g. split; [reflexivity|].
  apply list_elem_of_In, List.filter_In in Hg. apply list_elem_of_In. tauto.
Qed.

(** X21. When no [stat()] and no [unlink()] fails, [log_cleaner] leaves
    exactly the files that are not expired logs, in their order, and logs
    the number of files removed when there is one at least. Run again at
    once, it removes nothing and logs nothing. *)
Theorem log_cleaner_removes_every_expired_log_once dir :
  NoDup (map LogCleaner.file_name dir) ->
  (forall f, f ∈ dir -> LogCleaner.is_log_name (LogCleaner.file_name f) = true ->
             exists st, LogCleaner.stat f = inr st) ->
  (forall f, f ∈ dir -> LogCleaner.unlink_error f = None) ->
  LogCleaner.log_cleaner dir
    = (Ret tt,
       List.filter (fun f => negb (LogCleaner.doomed f)) dir,
       match List.filter LogCleaner.doomed dir with
       | [] => []
       | _ :: _ => [LogCleaner.completed (List.length (List.filter LogCleaner.doomed dir))]
       end)
  /\ LogCleaner.log_cleaner (List.filter (fun f => negb (LogCleaner.doomed f)) dir)
     = (Ret tt, List.filter (fun f => negb (LogCleaner.doomed f)) dir, []).
Proof.
  intros Hnd Hst Hun. split; [exact (log_cleaner_clean dir Hnd Hst Hun)|].
  assert (Hsub : forall f, f ∈ List.filter (fun f => negb (LogCleaner.doomed f)) dir -> f ∈ dir).
  { intros f Hf. apply list_elem_of_In, List.filter_In in Hf. apply list_elem_of_In. tauto. }
  rewrite log_cleaner_clean.
  - destruct (filter_negb_doomed_twice dir) as [-> ->]. reflexivity.
  - apply NoDup_names_filter. exact Hnd.
  - intros f Hf. apply Hst. exact (Hsub f Hf).
  - intros f Hf. apply Hun. exact (Hsub f Hf).
Qed.

(** ** The validator of [api_url] *)

Lemma prefix_app (p s : string) : String.prefix p (p +:+ s) = true.
Proof.
  induction p as [|a p IH]; [destruct s; reflexivity|].
  change (String a p +:+ s) with (String a (p +:+ s)). cbn [String.prefix].
  destruct (ascii_dec a a) as [_ | N]; [exact IH|contradiction].
Qed.

(** X24. An [api_url] that passes validation starts with [http://]: it
    is the given text when that starts so, and the given text behind
    [http://] otherwise, whatever its scheme. The server at that address
    answered that Ollama is running, and validating the result again
    gives the result. *)
Theorem accepted_api_url_starts_with_http get v url :
  ApiUrl.validate_api_url get v = inr url ->
  String.prefix "http://" url = true
  /\ (if String.prefix "http://" v then url = v else url = "http://" +:+ v)
  /\ (exists ping, get url = inr ping /\ ApiUrl.occurs "Ollama is running" ping = true)
  /\ ApiUrl.validate_api_url get url = inr url.
Proof.
  unfold ApiUrl.validate_api_url at 1.
  destruct (String.prefix "http://" v) eqn:Ep; cbn [negb].
  - destruct (get v) as [e | ping] eqn:Eg; [discriminate|].
    destruct (ApiUrl.occurs "Ollama is running" ping) eqn:Eo; cbn [negb]; [|discriminate].
    intros E. injection E as <-.
    split; [exact Ep|]. split; [reflexivity|]. split; [exists ping; auto|].
    unfold ApiUrl.validate_api_url. rewrite Ep. cbn [negb]. rewrite Eg, Eo. reflexivity.
  - destruct (get ("http://" +:+ v)) as [e | ping] eqn:Eg; [discriminate|].
    destruct (ApiUrl.occurs "Ollama is running" ping) eqn:Eo; cbn [negb]; [|discriminate].
    intros E. injection E as <-.
    split; [apply prefix_app|]. split; [reflexivity|]. split; [exists ping; auto|].
    unfold ApiUrl.validate_api_url. rewrite prefix_app. cbn [negb]. rewrite Eg, Eo.
    reflexivity.
Qed.

(** ** The properties on sample surroundings *)

Lemma X2_witness :
  NoDup (OllamaClient.available_models
           (state_of (OllamaClient.__init__ (Sample.serving [Sample.m1])
                        (OllamaClient.blank Settings.default_ollama))))
  /\ forall x,
       x ∈ OllamaClient.available_models
             (state_of (OllamaClient.__init__ (Sample.serving [Sample.m1])
                          (OllamaClient.blank Settings.default_ollama)))
       <-> exists m, listed (Sample.serving [Sample.m1]) m
                     /\ x = OllamaClient._create_model_info m.
Proof.
  apply (available_models_are_the_listing_without_repeats
           (Sample.serving [Sample.m1]) Settings.default_ollama _
           (trace_of (OllamaClient.__init__ (Sample.serving [Sample.m1])
                        (OllamaClient.blank Settings.default_ollama)))).
  vm_compute. reflexivity.
Defined.

Lemma X3_witness :
  OllamaClient.running_models
    (state_of (OllamaClient.__init__ (Sample.serving [Sample.m1])
                 (OllamaClient.blank Settings.default_ollama))) = []
  \/ exists models m,
       list_reply (Sample.serving [Sample.m1]) = inr (Some models)
       /\ last models = Some m
       /\ OllamaClient.running_models
            (state_of (OllamaClient.__init__ (Sample.serving [Sample.m1])
                         (OllamaClient.blank Settings.default_ollama)))
          = [OllamaClient._create_model_info m].
Proof.
  apply (running_models_holds_the_last_listed_model
           (Sample.serving [Sample.m1]) Settings.default_ollama _
           (trace_of (OllamaClient.__init__ (Sample.serving [Sample.m1])
                        (OllamaClient.blank Settings.default_ollama)))).
  vm_compute. reflexivity.
Defined.

Lemma X4_witness :
  exists e tr,
    OllamaClient.new Samples.stale_backend Settings.default_ollama = (Raise e, tr)
    /\ exn_cls e = UnboundLocalError.
Proof.
  apply (resident_model_without_listing_raises Samples.stale_backend
           Settings.default_ollama).
  - reflexivity.
  - right. reflexivity.
  - discriminate.
Defined.

Lemma X6_witness :
  2 * Z.abs (ModelInfo.size (OllamaClient._create_model_info Sample.m1) * 1024 ^ 3
             - raw_size Sample.m1 * 100) <= 1024 ^ 3.
Proof.
  apply (reported_size_is_within_half_a_hundredth Sample.m1).
  vm_compute. split; [discriminate|reflexivity].
Defined.

Lemma X9_witness :
  outcome_of (OllamaClient.chat Samples.streaming_backend Settings.OllamaModel_num_ctx
                Samples.hello None None Samples.streaming_provisioner)
    = Raise (Exn TypeError "'generator' object is not subscriptable")
  /\ outcome_of (OllamaClient.chat Samples.streaming_backend Settings.OllamaModel_num_ctx
                   Samples.hello (Some true) None Samples.streaming_provisioner)
     = Ret (OllamaClient.Response (Chunks Samples.chunks)).
Proof.
  apply (streaming_by_default_raises Samples.streaming_backend
           Settings.OllamaModel_num_ctx Samples.hello None Samples.chunks
           Samples.streaming_provisioner OllamaClient.AxeClient).
  - reflexivity.
  - reflexivity.
  - reflexivity.
  - reflexivity.
  - reflexivity.
Defined.

Lemma X12_witness :
  (forall v, Program.services Sample.built_program = Some [] ->
     version_reply Samples.env = inr v ->
     outcome_of (Main.main Samples.env 3 Sample.built_program) = OutOfFuel)
  /\ (outcome_of (Program.start Samples.env 3 Sample.built_program) <> OutOfFuel ->
      outcome_of (Main.main Samples.env 3 Sample.built_program)
        = Raise (Exn RuntimeError "cannot join thread before it is started")
      /\ outcome_of (Main.entry Samples.env 3 Sample.built_program) = Ret 0
      /\ EvLog EXCEPTION "Fatal error: cannot join thread before it is started"
           ∈ trace_of (Main.entry Samples.env 3 Sample.built_program)).
Proof.
  apply (main_never_returns Samples.env 3 Sample.built_program).
  refine (reach_new Samples.env _ _ _).
  vm_compute. reflexivity.
Defined.

Lemma X13_witness :
  Program.stop Samples.env Sample.built_program
  = (Ret tt, Program.set_running false Sample.built_program, []).
Proof.
  apply (reachable_stop_only_clears_the_flag Samples.env Sample.built_program).
  refine (reach_new Samples.env _ _ _).
  vm_compute. reflexivity.
Defined.

Lemma X15_witness :
  exists w' tr reason,
    Commands.set_model_command (Sample.serving [Sample.m1]) "m1" Samples.world
      = (Ret tt, w', tr)
    /\ Commands.sent (Commands.interaction w')
       = [Commands.AsFollowup (Commands.Text ("Unable to set model: " +:+ reason))]
    /\ ((exists names,
           outcome_of (OllamaClient.list_models (Sample.serving [Sample.m1])
                         (Commands.the_provisioner Samples.world)) = Ret names
           /\ "m1" ∈ names) ->
        Settings.model (Settings.ollama (Commands.settings w')) = "m1"
        /\ Commands.file w' = Some (Commands.settings w')
        /\ reason = "'SettingsManager' object has no attribute 'reload'")
    /\ (~ (exists names,
             outcome_of (OllamaClient.list_models (Sample.serving [Sample.m1])
                           (Commands.the_provisioner Samples.world)) = Ret names
             /\ "m1" ∈ names) ->
        Commands.settings w' = Commands.settings Samples.world
        /\ Commands.file w' = Commands.file Samples.world).
Proof.
  apply (set_model_never_confirms (Sample.serving [Sample.m1]) "m1" Samples.world).
  reflexivity.
Defined.

Lemma X16_witness :
  (outcome_of (Commands.chat_command Samples.dash_backend "ann" "hello"
                 Samples.world) = Ret tt ->
   exists m req,
     chat_reply Samples.dash_backend req = inr (Single m)
     /\ req_messages req = [{| role := "user"; content := "hello" |}]
     /\ Commands.sent (Commands.interaction
                         (state_of (Commands.chat_command Samples.dash_backend
                                      "ann" "hello" Samples.world)))
        = [Commands.AsFollowup
             (if (2000 <? code_points (content m))%nat
              then Commands.Embed "Ragnar's response" (content m) Commands.embed_color
              else Commands.Text (content m))])
  /\ (outcome_of (Commands.chat_command Samples.dash_backend "ann" "hello"
                    Samples.world) <> Ret tt ->
      Commands.interaction
        (state_of (Commands.chat_command Samples.dash_backend "ann" "hello"
                     Samples.world))
      = {| Commands.responded := true; Commands.sent := [] |}).
Proof.
  apply (chat_command_sends_the_reply_once Samples.dash_backend "ann" "hello"
           Samples.world).
  reflexivity.
Defined.

(** The threshold counts code points: 1001 dashes, 3003 bytes, go out
    as plain text. *)
Lemma dashes_are_sent_as_text :
  Commands.sent (Commands.interaction
                   (state_of (Commands.chat_command Samples.dash_backend "ann" "hello"
                                Samples.world)))
  = [Commands.AsFollowup (Commands.Text (Samples.dashes 1001))].
Proof. vm_compute. reflexivity. Qed.

Lemma X17_witness :
  (outcome_of (Commands.web_search_command Samples.search "weather" Samples.world) = Ret tt ->
   exists text,
     truthy text = true
     /\ (Samples.search "weather" = inr text
         \/ (Samples.search "weather" = inr "" /\ text = WebSearch.no_results))
     /\ Commands.sent (Commands.interaction
                         (state_of (Commands.web_search_command Samples.search "weather"
                                      Samples.world)))
        = [Commands.AsFollowup
             (if (2000 <? code_points text)%nat
              then Commands.Embed "Ragnar's response" text Commands.embed_color
              else Commands.Text text)])
  /\ (outcome_of (Commands.web_search_command Samples.search "weather" Samples.world)
        <> Ret tt ->
      Commands.interaction
        (state_of (Commands.web_search_command Samples.search "weather" Samples.world))
      = {| Commands.responded := true; Commands.sent := [] |}).
Proof.
  apply (web_search_command_never_sends_an_empty_answer Samples.search "weather"
           Samples.world).
  reflexivity.
Defined.

Lemma X18_witness :
  "0.1.0" <> ""
  /\ Version.has Version.newline "0.1.0" = false
  /\ exists pre post,
       Samples.pyproject_toml
         = pre +:+ Version.opening +:+ "0.1.0" +:+ String Version.quote post
       /\ Version.has Version.quote (split_head Version.newline post) = false.
Proof.
  apply (version_is_quoted_in_the_file Samples.pyproject_toml "0.1.0").
  vm_compute. reflexivity.
Defined.

Lemma X19_witness :
  exists found,
    Version.get_version
      (inr (("[tool.poetry]" +:+ nl) +:+ Version.opening +:+ "0.1.0"
            +:+ String Version.quote nl)) = inr found
    /\ ((forall a b,
           ("[tool.poetry]" +:+ nl) +:+ Version.opening = a +:+ Version.opening +:+ b ->
           b = "") ->
        Version.has Version.quote (split_head Version.newline nl) = false ->
        found = "0.1.0").
Proof.
  apply (version_in_the_file_is_found ("[tool.poetry]" +:+ nl) "0.1.0" nl).
  - discriminate.
  - reflexivity.
Defined.

Lemma X20_witness :
  exists dir' tr,
    LogCleaner.log_cleaner Samples.logs = (Ret tt, dir', tr)
    /\ (forall f, f ∈ dir' -> f ∈ Samples.logs)
    /\ (forall f, f ∈ Samples.logs -> f ∉ dir' ->
        LogCleaner.doomed f = true /\ LogCleaner.unlink_error f = None).
Proof.
  apply (log_cleaner_only_removes_expired_logs Samples.logs).
  apply (bool_decide_unpack _). vm_compute. reflexivity.
Defined.

Lemma X21_witness :
  LogCleaner.log_cleaner Samples.logs
    = (Ret tt,
       List.filter (fun f => negb (LogCleaner.doomed f)) Samples.logs,
       match List.filter LogCleaner.doomed Samples.logs with
       | [] => []
       | _ :: _ =>
           [LogCleaner.completed (List.length (List.filter LogCleaner.doomed Samples.logs))]
       end)
  /\ LogCleaner.log_cleaner (List.filter (fun f => negb (LogCleaner.doomed f)) Samples.logs)
     = (Ret tt, List.filter (fun f => negb (LogCleaner.doomed f)) Samples.logs, []).
Proof.
  apply (log_cleaner_removes_every_expired_log_once Samples.logs).
  - apply (bool_decide_unpack _). vm_compute. reflexivity.
  - intros f Hf _.
    repeat (apply elem_of_cons in Hf; destruct Hf as [-> | Hf]);
      [eexists; reflexivity ..|inversion Hf].
  - intros f Hf.
    repeat (apply elem_of_cons in Hf; destruct Hf as [-> | Hf]);
      [reflexivity ..|inversion Hf].
Defined.


Lemma X24_witness :
  String.prefix "http://" "http://https://localhost:11434" = true
  /\ (if String.prefix "http://" "https://localhost:11434"
      then "http://https://localhost:11434" = "https://localhost:11434"
      else "http://https://localhost:11434" = "http://" +:+ "https://localhost:11434")
  /\ (exists ping,
        Samples.ping "http://https://localhost:11434" = inr ping
        /\ ApiUrl.occurs "Ollama is running" ping = true)
  /\ ApiUrl.validate_api_url Samples.ping "http://https://localhost:11434"
     = inr "http://https://localhost:11434".
Proof.
  apply (accepted_api_url_starts_with_http Samples.ping "https://localhost:11434"
           "http://https://localhost:11434").
  vm_compute. reflexivity.
Defined.

Lemma C5_witness :
  outcome_of (Program.stop (Sample.surroundings Samples.resident_backend)
                Samples.loaded_program) = Ret tt
  /\ second_stop_is_a_no_op (Sample.surroundings Samples.resident_backend)
       Samples.loaded_program.
Proof.
  apply (C5_second_stop_is_a_no_op Samples.loaded_program).
  refine (reach_new (Sample.surroundings Samples.resident_backend) _ _ _).
  vm_compute. reflexivity.
Defined.

Lemma C6_witness :
  OllamaClient.running_models (Program.ollama Samples.loaded_program)
    = [Sample.info "m1" "a80c4f17acd5"]
  /\ outcome_of (Program.stop (Sample.surroundings Samples.resident_backend)
                   Samples.loaded_program) = Ret tt
  /\ (forall m,
        m ∈ OllamaClient.running_models (Program.ollama Samples.loaded_program) ->
        unload_event m ∉ trace_of (Program.stop (Sample.surroundings Samples.resident_backend)
                                     Samples.loaded_program))
  /\ Forall (fun e => in_service_stop e = false /\ is_scheduler_shutdown e = false)
            (trace_of (Program.stop (Sample.surroundings Samples.resident_backend)
                         Samples.loaded_program))
  /\ OllamaClient.running_models
       (Program.ollama (state_of (Program.stop (Sample.surroundings Samples.resident_backend)
                                    Samples.loaded_program)))
     = OllamaClient.running_models (Program.ollama Samples.loaded_program).
Proof.
  split; [reflexivity|].
  apply (C6_shutdown_unloads_no_running_model Samples.loaded_program).
  refine (reach_new (Sample.surroundings Samples.resident_backend) _ _ _).
  vm_compute. reflexivity.
Defined.
